(** * Pix3D to TFRecord conversion (mesh_rcnn/data/create_pix3d_tf_record.py)

    A shallow embedding of the converter: the generic feature encoder
    [convert_to_feature], the OBJ mesh parser [parse_obj_file], the voxel
    decoder [parse_voxel_file], the record assembler [create_tf_example],
    the annotation generator [generate_annotations] with the driver that
    calls it, and the mask encoder [coco_segmentation_to_mask_png],
    followed by the properties proved about them.

    Python objects are a closed variant [pyval]; exceptions are the [Err]
    side of [result]; the numpy, TensorFlow and protobuf calls the converter
    makes are modelled next to the code that uses them, each with the domain
    on which the model is exact. *)

From Stdlib Require Import ZArith Lia Ascii String.
From Stdlib Require Import Strings.Byte.
From Stdlib Require Import PrimFloat SpecFloat FloatOps.
From stdpp Require Import base option list strings gmap.

Open Scope Z_scope.
Open Scope string_scope.
Open Scope list_scope.

(** ** Exceptions and the error monad *)

Module Py.

(** The exception classes the converter and its libraries raise. *)
Inductive pyerr :=
| ValueError | TypeError | IndexError | KeyError | AttributeError
| ZeroDivisionError | OverflowError | OSError.

Inductive result (A : Type) :=
| Ok (a : A)
| Err (e : pyerr).
Arguments Ok {A} a.
Arguments Err {A} e.

Definition bind {A B} (m : result A) (k : A -> result B) : result B :=
  match m with Ok a => k a | Err e => Err e end.

Notation "'let*' x ':=' e 'in' k" := (bind e (fun x => k))
  (at level 10, x pattern, e at level 200, k at level 200,
   format "'[v' 'let*'  x  ':='  e  'in' '/' k ']'").

Definition is_ok {A} (r : result A) : bool :=
  match r with Ok _ => true | Err _ => false end.

Definition raises {A} (r : result A) : Prop := exists e, r = Err e.

(** [mapM] for [result], left to right, stopping at the first exception. *)
Fixpoint traverse {A B} (f : A -> result B) (l : list A) : result (list B) :=
  match l with
  | [] => Ok []
  | x :: r =>
      let* y := f x in
      let* ys := traverse f r in
      Ok (y :: ys)
  end.

Definition of_option {A} (e : pyerr) (o : option A) : result A :=
  match o with Some a => Ok a | None => Err e end.

End Py.
Export Py.

(** ** Floating point

    Python's [float] and numpy's float64 are binary64: Rocq's primitive
    [float].  A float32 cell is kept as the binary64 number that has the
    same value (every binary32 number is one). *)

Module Fl.

Definition prec32 : Z := 24.
Definition emax32 : Z := 128.

(** C's [(float) x]: round to the nearest binary32, ties to even. *)
Definition to_float32 (x : float) : float :=
  match Prim2SF x with
  | S754_finite s m e =>
      SF2Prim (binary_normalize prec32 emax32 (cond_Zopp s (Zpos m)) e s)
  | _ => x
  end.

(** An integer as the nearest binary64 ([float(n)]), infinite past the range. *)
Definition Z_to_SF (z : Z) : spec_float := binary_normalize prec emax z 0 false.

Definition is_finite_SF (x : spec_float) : bool :=
  match x with S754_finite _ _ _ | S754_zero _ => true | _ => false end.

(** [float(n)] for a Python int: OverflowError when [n] is too large. *)
Definition float_of_int (z : Z) : result float :=
  let x := Z_to_SF z in
  if is_finite_SF x then Ok (SF2Prim x) else Err OverflowError.

(** The quotient of two integers ([b] not zero) rounded once to binary64. *)
Definition ratio_SF (a b : Z) : spec_float :=
  if Z.eqb a 0 then S754_zero (Z.ltb b 0)
  else SFdiv prec emax (S754_finite (Z.ltb a 0) (Z.to_pos (Z.abs a)) 0)
                       (S754_finite (Z.ltb b 0) (Z.to_pos (Z.abs b)) 0).

(** [a / b] for Python ints: the exact quotient, rounded once. *)
Definition int_truediv (a b : Z) : result float :=
  if Z.eqb b 0 then Err ZeroDivisionError
  else
    let q := ratio_SF a b in
    if is_finite_SF q then Ok (SF2Prim q) else Err OverflowError.

(** [x / y] for Python floats. *)
Definition float_truediv (x y : float) : result float :=
  if PrimFloat.eqb y zero then Err ZeroDivisionError else Ok (x / y)%float.

(** Truncation toward zero of a finite float; [None] for nan and infinities. *)
Definition trunc (x : float) : option Z :=
  match Prim2SF x with
  | S754_zero _ => Some 0
  | S754_finite s m e =>
      let a := if Z.leb 0 e then Z.shiftl (Zpos m) e else Z.shiftr (Zpos m) (- e) in
      Some (cond_Zopp s a)
  | _ => None
  end.

(** The integers a binary64 number holds exactly. *)
Definition exact_in_float (z : Z) : bool := Z.leb (Z.abs z) (2 ^ 53).

(** An integer as the nearest binary32, rounded once. *)
Definition int_to_float32 (z : Z) : float :=
  SF2Prim (binary_normalize prec32 emax32 z 0 false).

(** [(float) x] loses a finite number: [x] is finite and beyond the
    binary32 range. *)
Definition float32_overflows (x : float) : bool :=
  is_infinity (to_float32 x) && is_finite x.

End Fl.
Export Fl.

(** ** numpy arrays *)

Module Np.

Inductive dtype :=
| np_bool | np_uint8 | np_int32 | np_int64 | np_uint64 | np_float32
| np_float64 | np_bytes | np_object.

Inductive scalar :=
| SBool (b : bool)
| SInt (z : Z)
| SFloat (f : float)
| SBytes (b : list byte).

(** An [ndarray]: element type, shape, and the elements in row-major (C)
    order.  [nd_wf] is the invariant numpy maintains. *)
Record ndarray := mk_ndarray {
  nd_dtype : dtype;
  nd_shape : list nat;
  nd_data : list scalar
}.

Definition size_of (shape : list nat) : nat := fold_right Nat.mul 1%nat shape.

Definition nd_wf (a : ndarray) : Prop :=
  length (nd_data a) = size_of (nd_shape a).

Definition ndim (a : ndarray) : nat := length (nd_shape a).

(** [np.ndindex] of a shape: every index of the shape, last axis fastest. *)
Fixpoint ndindex (shape : list nat) : list (list nat) :=
  match shape with
  | [] => [[]]
  | n :: s => flat_map (fun i => List.map (cons i) (ndindex s)) (seq 0 n)
  end.

(** Offset of an index in the row-major buffer. *)
Fixpoint ravel (shape idx : list nat) : nat :=
  match shape, idx with
  | _ :: s, i :: r => (i * size_of s + ravel s r)%nat
  | _, _ => 0%nat
  end.

(** [a[idx]] for a full index within bounds. *)
Definition item (a : ndarray) (idx : list nat) : scalar :=
  nth (ravel (nd_shape a) idx) (nd_data a) (SInt 0).

(** The array of the given shape whose element at [idx] is [f idx]. *)
Definition tabulate (dt : dtype) (shape : list nat) (f : list nat -> scalar)
  : ndarray :=
  {| nd_dtype := dt; nd_shape := shape; nd_data := List.map f (ndindex shape) |}.

(** [l[p], l[q] = l[q], l[p]] *)
Definition swap {A} (d : A) (l : list A) (p q : nat) : list A :=
  <[p := nth q l d]> (<[q := nth p l d]> l).

(** Position of [j] in the permutation [axes]. *)
Fixpoint position (j : nat) (axes : list nat) : nat :=
  match axes with
  | [] => 0%nat
  | x :: r => if Nat.eqb x j then 0%nat else S (position j r)
  end.

(** [np.transpose(m, axes)]: axis [i] of the result is axis [axes[i]] of [m]. *)
Definition transpose (m : ndarray) (axes : list nat) : ndarray :=
  tabulate (nd_dtype m)
    (List.map (fun ax => nth ax (nd_shape m) 0%nat) axes)
    (fun idx =>
       item m (List.map (fun j => nth (position j axes) idx 0%nat)
                        (seq 0 (ndim m)))).

(** [np.flip(m, axis)]: [m] with the order along [axis] reversed. *)
Definition flip (m : ndarray) (axis : nat) : ndarray :=
  tabulate (nd_dtype m) (nd_shape m)
    (fun idx =>
       item m (<[axis := (nth axis (nd_shape m) 0 - 1 - nth axis idx 0)%nat]> idx)).

(** [np.rot90(m, k, axes)], after numpy/lib/function_base.py: the two
    validity checks, [k %= 4], and one branch per quarter turn. *)
Definition rot90 (m : ndarray) (k : Z) (axes : Z * Z) : result ndarray :=
  let n := Z.of_nat (ndim m) in
  let '(a0, a1) := axes in
  if Z.eqb a0 a1 || Z.eqb (Z.abs (a0 - a1)) n then Err ValueError
  else if Z.leb n a0 || Z.ltb a0 (- n) || Z.leb n a1 || Z.ltb a1 (- n)
  then Err ValueError
  else
    let p := Z.to_nat (a0 mod n) in
    let q := Z.to_nat (a1 mod n) in
    let k := k mod 4 in
    if Z.eqb k 0 then Ok m
    else if Z.eqb k 2 then Ok (flip (flip m p) q)
    else
      let axes_list := swap 0%nat (seq 0 (ndim m)) p q in
      if Z.eqb k 1 then Ok (transpose (flip m q) axes_list)
      else Ok (flip (transpose m axes_list) q).

(** [m > 0], element by element. *)
Definition scalar_gt0 (s : scalar) : result bool :=
  match s with
  | SBool b => Ok b
  | SInt z => Ok (Z.ltb 0 z)
  | SFloat f => Ok (PrimFloat.ltb zero f)
  | SBytes _ => Err TypeError
  end.

Definition greater0 (m : ndarray) : result ndarray :=
  let* d := traverse scalar_gt0 (nd_data m) in
  Ok {| nd_dtype := np_bool; nd_shape := nd_shape m;
        nd_data := List.map SBool d |}.

Definition truthy (s : scalar) : bool :=
  match s with
  | SBool b => b
  | SInt z => negb (Z.eqb z 0)
  | SFloat f => negb (PrimFloat.eqb f zero)
  | SBytes b => negb (Nat.eqb (length b) 0)
  end.

(** The (K, ndim) int64 array whose rows are the given indices. *)
Definition index_rows (nd : nat) (rows : list (list nat)) : ndarray :=
  {| nd_dtype := np_int64;
     nd_shape := [length rows; nd];
     nd_data := List.map (fun i => SInt (Z.of_nat i)) (concat rows) |}.

(** [np.argwhere(a)]: the indices of the non-zero elements, in row-major
    order, one per row. *)
Definition argwhere (a : ndarray) : ndarray :=
  index_rows (ndim a)
    (List.map fst
       (List.filter (fun p => truthy (snd p))
                    (combine (ndindex (nd_shape a)) (nd_data a)))).

(** [np.shape(a)] *)
Definition shape (a : ndarray) : list nat := nd_shape a.

Definition int64_min : Z := - 2 ^ 63.
Definition int64_max : Z := 2 ^ 63 - 1.
Definition in_int64 (z : Z) : bool := Z.leb int64_min z && Z.leb z int64_max.

(** [np.array(rows)] for a list of lists of numbers: a 2-d array when the
    rows have one length (float64 when there is no element at all), and
    ValueError for ragged rows, as numpy 1.24 and later do (earlier
    versions warn and build an object array). *)
Definition array_of_rows (dt : dtype) (rows : list (list scalar))
  : result ndarray :=
  match rows with
  | [] => Ok {| nd_dtype := np_float64; nd_shape := [0%nat]; nd_data := [] |}
  | r :: rs =>
      if forallb (fun r' => Nat.eqb (length r') (length r)) rs
      then Ok {| nd_dtype := match concat rows with [] => np_float64 | _ => dt end;
                 nd_shape := [length rows; length r];
                 nd_data := concat rows |}
      else Err ValueError
  end.

(** Python floats give float64. *)
Definition array_of_floats (rows : list (list float)) : result ndarray :=
  array_of_rows np_float64 (List.map (List.map SFloat) rows).

(** The element type numpy finds for one Python int: int64 when it fits a
    C [long], else uint64 when it is below 2^64, else object. *)
Definition int_dtype (z : Z) : dtype :=
  if in_int64 z then np_int64
  else if Z.leb 0 z && Z.ltb z (2 ^ 64) then np_uint64
  else np_object.

(** [np.promote_types] on the element types found for Python bools, ints
    and floats: int64 and uint64 have no common integer type and meet in
    float64; object absorbs everything. *)
Definition promote (a b : dtype) : dtype :=
  match a, b with
  | np_bool, d | d, np_bool => d
  | np_object, _ | _, np_object => np_object
  | np_int64, np_int64 => np_int64
  | np_uint64, np_uint64 => np_uint64
  | _, _ => np_float64
  end.

(** The element type of an array built from Python ints only. *)
Definition ints_dtype (zs : list Z) : dtype :=
  fold_right (fun z d => promote (int_dtype z) d) np_bool zs.

(** A Python int as a cell of an array of the given element type: the
    nearest binary64 in a float64 array, itself otherwise. *)
Definition int_cell (dt : dtype) (z : Z) : scalar :=
  match dt with
  | np_float64 => SFloat (SF2Prim (Z_to_SF z))
  | _ => SInt z
  end.

(** [np.array(rows)] for rows of Python ints: int64 when all fit; uint64
    when none fits int64 and all are below 2^64; float64, with every int
    rounded to the nearest binary64, when ints of both kinds occur; an
    object array of the exact ints when one is outside both ranges. *)
Definition array_of_ints (rows : list (list Z)) : result ndarray :=
  let dt := ints_dtype (concat rows) in
  array_of_rows dt (List.map (List.map (int_cell dt)) rows).

(** A C [long long] from a double ([astype(np.int64)] on a float64 cell, as
    x86-64 converts): cut toward zero, and the smallest int64 when the
    result does not fit or the double is no number. *)
Definition double_to_int64 (f : float) : Z :=
  match trunc f with
  | Some z => if in_int64 z then z else int64_min
  | None => int64_min
  end.

(** Every dimension of an array fits a C [npy_intp]. *)
Definition nd_fits (a : ndarray) : Prop :=
  Forall (fun n => Z.of_nat n <= int64_max) (nd_shape a).

End Np.
Export Np.

(** ** Text (Python's [str] methods and number readers) *)

Module Text.

(** [s.split(sep)] for a one-character separator: every occurrence cuts,
    so consecutive separators give empty pieces, and the result is never
    empty. *)
Fixpoint split (sep : ascii) (s : string) : list string :=
  match s with
  | EmptyString => [EmptyString]
  | String c r =>
      if Ascii.eqb c sep then EmptyString :: split sep r
      else match split sep r with
           | h :: t => String c h :: t
           | [] => [String c EmptyString]
           end
  end.

Definition newline : ascii := ascii_of_nat 10.

(** [f.readlines()]: the lines of the text, each with its line end. *)
Fixpoint readlines (text : string) : list string :=
  match text with
  | EmptyString => []
  | String c r =>
      if Ascii.eqb c newline then String c EmptyString :: readlines r
      else match readlines r with
           | h :: t => String c h :: t
           | [] => [String c EmptyString]
           end
  end.

(** [s[0:n]] and [s[n:]] *)
Fixpoint take_str (n : nat) (s : string) : string :=
  match n, s with
  | S n', String c r => String c (take_str n' r)
  | _, _ => EmptyString
  end.

Fixpoint drop_str (n : nat) (s : string) : string :=
  match n, s with
  | S n', String _ r => drop_str n' r
  | _, _ => s
  end.

(** [p in s] *)
Fixpoint contains (p s : string) : bool :=
  String.prefix p s ||
  match s with
  | EmptyString => false
  | String _ r => contains p r
  end.

(** [os.path.join(a, p)] on POSIX. *)
Definition path_join (a p : string) : string :=
  if String.prefix "/" p then p
  else if String.eqb a "" || String.eqb (drop_str (String.length a - 1) a) "/"
  then a ++ p
  else a ++ "/" ++ p.

(** *** Numbers written as text

    [int(s)] and [float(s)] on ASCII text, which is also how numpy casts
    the cells of a string array to a number: blanks around an optional
    sign and a decimal numeral, whose digits may be grouped by single
    underscores; [float] also reads a fraction, an exponent, and the words
    for infinity and nan.  Digits and blanks outside ASCII are not read. *)

Definition is_space (c : ascii) : bool :=
  let n := nat_of_ascii c in
  Nat.eqb n 32 || (Nat.leb 9 n && Nat.leb n 13) || (Nat.leb 28 n && Nat.leb n 31).

Definition digit_of (c : ascii) : option Z :=
  let n := nat_of_ascii c in
  if Nat.leb 48 n && Nat.leb n 57 then Some (Z.of_nat (n - 48)) else None.

Fixpoint lstrip (s : string) : string :=
  match s with
  | String c r => if is_space c then lstrip r else s
  | EmptyString => s
  end.

(** Leading digits of [s] read onto [acc]: the number, how many digits were
    read, and what follows them.  An underscore is passed over when it
    stands between two digits. *)
Fixpoint digits (s : string) (acc : Z) (n : nat) : Z * nat * string :=
  match s with
  | String c r =>
      match digit_of c with
      | Some d => digits r (10 * acc + d) (S n)
      | None =>
          if Ascii.eqb c "_" && negb (Nat.eqb n 0) then
            match r with
            | String c' _ =>
                match digit_of c' with
                | Some _ => digits r acc n
                | None => (acc, n, s)
                end
            | EmptyString => (acc, n, s)
            end
          else (acc, n, s)
      end
  | EmptyString => (acc, n, s)
  end.

Definition sign (s : string) : bool * string :=
  match s with
  | String "-" r => (true, r)
  | String "+" r => (false, r)
  | _ => (false, s)
  end.

(** [int(s)]: blanks, a sign, digits, blanks. *)
Definition read_int (s : string) : option Z :=
  let '(neg, s) := sign (lstrip s) in
  let '(n, k, s) := digits s 0 0 in
  if Nat.eqb k 0 then None
  else match lstrip s with
       | EmptyString => Some (if neg then - n else n)
       | _ => None
       end.

(** [s.lower()] on ASCII letters. *)
Definition lower (c : ascii) : ascii :=
  let n := nat_of_ascii c in
  if Nat.leb 65 n && Nat.leb n 90 then ascii_of_nat (n + 32) else c.

Fixpoint lower_str (s : string) : string :=
  match s with
  | String c r => String (lower c) (lower_str r)
  | EmptyString => s
  end.

(** The words [float] reads besides numerals, after the sign. *)
Definition read_word (neg : bool) (s : string) : option float :=
  let w := lower_str s in
  if String.eqb w "inf" || String.eqb w "infinity"
  then Some (if neg then neg_infinity else infinity)
  else if String.eqb w "nan" then Some nan
  else None.

Fixpoint rstrip_n (fuel : nat) (s : string) : string :=
  match fuel with
  | O => s
  | S fuel' =>
      match s with
      | String c r =>
          if String.eqb (lstrip s) "" then EmptyString
          else String c (rstrip_n fuel' r)
      | EmptyString => s
      end
  end.

(** [float(s)]: blanks, a sign, digits with an optional fraction and
    exponent, blanks.  The decimal value is rounded once, to nearest. *)
Definition read_float (s : string) : option float :=
  let '(neg, s) := sign (lstrip s) in
  match read_word neg (rstrip_n (String.length s) s) with
  | Some x => Some x
  | None =>
  let '(n, k, s) := digits s 0 0 in
  let '(n, kf, s) :=
    match s with
    | String "." r => digits r n 0
    | _ => (n, 0%nat, s)
    end in
  if Nat.eqb (k + kf) 0 then None
  else
    let exponent :=
      match s with
      | String c r =>
          if Ascii.eqb c "e" || Ascii.eqb c "E" then
            let '(eneg, r) := sign r in
            let '(e, ke, r) := digits r 0 0 in
            if Nat.eqb ke 0 then None else Some (if eneg then - e else e, r)
          else Some (0, s)
      | EmptyString => Some (0, s)
      end in
    match exponent with
    | None => None
    | Some (e, s) =>
        match lstrip s with
        | EmptyString =>
            let p := e - Z.of_nat kf in
            let m := if neg then - n else n in
            let x :=
              if Z.eqb n 0 then S754_zero neg
              else if Z.leb 0 p then Z_to_SF (m * 10 ^ p)
              else ratio_SF m (10 ^ (- p)) in
            Some (SF2Prim x)
        | _ => None
        end
    end
  end.

End Text.
Export Text.

(** ** Python values *)

Module Val.

(** The objects that reach the converter: what [json.load] produces, the
    bytes read from files, numpy arrays, and tuples as an example of a type
    the encoder does not know.  [bool] is a subclass of [int]; [np.integer]
    and [np.floating] scalars behave as [PyInt] and [PyFloat] here.  A [str]
    is held as its UTF-8 bytes, so [s.encode("utf-8")] reads them off. *)
#[warnings="-register-all"]
Inductive pyval :=
| PyNone
| PyBool (b : bool)
| PyInt (z : Z)
| PyFloat (f : float)
| PyBytes (b : list byte)
| PyStr (s : string)
| PyList (l : list pyval)
| PyTuple (l : list pyval)
| PyNdarray (a : ndarray).

(** [isinstance(v, list)] *)
Definition is_list (v : pyval) : bool :=
  match v with PyList _ => true | _ => false end.

(** [v[0]] on a list *)
Definition first (l : list pyval) : result pyval :=
  match l with [] => Err IndexError | x :: _ => Ok x end.

(** [s.encode("utf-8")] *)
Definition encode_utf8 (s : string) : list byte := list_byte_of_string s.

Definition of_scalar (s : scalar) : pyval :=
  match s with
  | SBool b => PyBool b
  | SInt z => PyInt z
  | SFloat f => PyFloat f
  | SBytes b => PyBytes b
  end.

Fixpoint shape_eqb (s t : list nat) : bool :=
  match s, t with
  | [], [] => true
  | x :: s', y :: t' => Nat.eqb x y && shape_eqb s' t'
  | _, _ => false
  end.

(** Shape discovery shared by [np.asarray] and [tf.convert_to_tensor] on
    nested sequences: the common shape and the leaves in row-major order;
    ValueError when the sub-sequences of one level differ in shape.
    [nested_rows] walks one level, given the function for its members. *)
Definition nested_rows (nested : pyval -> result (list nat * list pyval))
  : list pyval -> result (option (list nat) * list pyval) :=
  fix rows (l : list pyval) :=
    match l with
    | [] => Ok (None, [])
    | x :: r =>
        let* (s, xs) := nested x in
        let* (so, ys) := rows r in
        match so with
        | None => Ok (Some s, xs ++ ys)
        | Some s' =>
            if shape_eqb s s' then Ok (Some s, xs ++ ys) else Err ValueError
        end
    end.

Fixpoint nested (v : pyval) : result (list nat * list pyval) :=
  match v with
  | PyList l | PyTuple l =>
      let* (so, xs) := nested_rows nested l in
      Ok (length l :: default [] so, xs)
  | PyNdarray a => Ok (nd_shape a, List.map of_scalar (nd_data a))
  | _ => Ok ([], [v])
  end.

(** The element type [np.asarray] finds for the leaves of a Python
    sequence.  The kinds of the leaves decide first: a leaf that is no
    number and no text makes an object array, text makes a string array,
    a float makes float64; among bools and ints alone the values decide,
    as for [array_of_ints]; no leaf at all gives float64. *)
Definition is_text (v : pyval) : bool :=
  match v with PyStr _ | PyBytes _ => true | _ => false end.

Definition is_float (v : pyval) : bool :=
  match v with PyFloat _ => true | _ => false end.

Definition is_scalar (v : pyval) : bool :=
  match v with
  | PyBool _ | PyInt _ | PyFloat _ | PyStr _ | PyBytes _ => true
  | _ => false
  end.

Definition leaf_dtype (v : pyval) : dtype :=
  match v with
  | PyInt z => int_dtype z
  | _ => np_bool
  end.

Definition leaves_dtype (leaves : list pyval) : dtype :=
  if negb (forallb is_scalar leaves) then np_object
  else if existsb is_text leaves then np_bytes
  else if existsb is_float leaves then np_float64
  else match leaves with
       | [] => np_float64
       | _ => fold_right (fun v d => promote (leaf_dtype v) d) np_bool leaves
       end.

(** The text of a text leaf. *)
Definition text_of (v : pyval) : string :=
  match v with
  | PyStr s => s
  | PyBytes b => string_of_list_byte b
  | _ => EmptyString
  end.

(** A Python int as a C [long long]: OverflowError when it does not fit. *)
Definition int_to_int64 (z : Z) : result Z :=
  if in_int64 z then Ok z else Err OverflowError.

(** [int(s)] as a C [long long]. *)
Definition text_to_int64 (s : string) : result Z :=
  match read_int s with
  | Some z => int_to_int64 z
  | None => Err ValueError
  end.

(** A leaf cast by [astype(np.int64)] in an array of element type [dt].
    - bool and int64 cells hold the number itself;
    - a uint64 cell wraps around;
    - a float64 cell is cut toward zero (an int within 2^53 is a binary64
      number and comes back unchanged; a larger one is first rounded to
      the nearest binary64);
    - a cell of a string array is read as [int] reads text, the text of a
      number being what [str] prints: an int reads back, a bool or float
      does not;
    - a cell of an object array is converted as [int(x)] converts. *)
Definition leaf_to_int64 (dt : dtype) (v : pyval) : result Z :=
  match dt with
  | np_float64 =>
      match v with
      | PyBool b => Ok (Z.b2z b)
      | PyInt z =>
          if exact_in_float z then Ok z
          else let* f := float_of_int z in Ok (double_to_int64 f)
      | PyFloat f => Ok (double_to_int64 f)
      | _ => Err TypeError
      end
  | np_uint64 =>
      match v with
      | PyBool b => Ok (Z.b2z b)
      | PyInt z => Ok (if in_int64 z then z else z - 2 ^ 64)
      | _ => Err TypeError
      end
  | np_bytes =>
      match v with
      | PyBool _ | PyFloat _ => Err ValueError
      | PyInt z => int_to_int64 z
      | PyStr _ | PyBytes _ => text_to_int64 (text_of v)
      | _ => Err TypeError
      end
  | np_object =>
      match v with
      | PyBool b => Ok (Z.b2z b)
      | PyInt z => int_to_int64 z
      | PyFloat f =>
          match trunc f with
          | Some z => int_to_int64 z
          | None => if is_nan f then Err ValueError else Err OverflowError
          end
      | PyStr _ | PyBytes _ => text_to_int64 (text_of v)
      | _ => Err TypeError
      end
  | _ =>
      match v with
      | PyBool b => Ok (Z.b2z b)
      | PyInt z => Ok z
      | _ => Err TypeError
      end
  end.

(** [float(x)] for a Python number, rounded to binary32. *)
Definition number_to_float32 (v : pyval) : result float :=
  match v with
  | PyBool b => Ok (if b then one else zero)
  | PyInt z => let* f := float_of_int z in Ok (to_float32 f)
  | PyFloat f => Ok (to_float32 f)
  | _ => Err TypeError
  end.

(** [float(s)], rounded to binary32. *)
Definition text_to_float32 (s : string) : result float :=
  match read_float s with
  | Some x => Ok (to_float32 x)
  | None => Err ValueError
  end.

(** A leaf cast by [astype(np.float32)] in an array of element type [dt].
    - a bool, int64 or uint64 cell is rounded once, to binary32;
    - a float64 cell is rounded to binary32, an int having been rounded to
      binary64 first;
    - a cell of a string array is read as [float] reads text: the text of
      a float reads back to it, that of an int to the nearest binary64
      (infinite past the range), that of a bool is refused;
    - a cell of an object array is converted as [float(x)] converts. *)
Definition leaf_to_float32 (dt : dtype) (v : pyval) : result float :=
  match dt with
  | np_float64 => number_to_float32 v
  | np_bytes =>
      match v with
      | PyBool _ => Err ValueError
      | PyInt z => Ok (to_float32 (SF2Prim (Z_to_SF z)))
      | PyFloat f => Ok (to_float32 f)
      | PyStr _ | PyBytes _ => text_to_float32 (text_of v)
      | _ => Err TypeError
      end
  | np_object =>
      match v with
      | PyStr _ | PyBytes _ => text_to_float32 (text_of v)
      | _ => number_to_float32 v
      end
  | _ =>
      match v with
      | PyBool b => Ok (if b then one else zero)
      | PyInt z => Ok (int_to_float32 z)
      | _ => Err TypeError
      end
  end.

(** [np.asarray(value).astype(np.int64).reshape(-1)] *)
Definition asarray_int64_flat (value : pyval) : result (list Z) :=
  let* (_, leaves) := nested value in
  traverse (leaf_to_int64 (leaves_dtype leaves)) leaves.

(** [np.asarray(value).astype(np.float32).reshape(-1)] *)
Definition asarray_float32_flat (value : pyval) : result (list float) :=
  let* (_, leaves) := nested value in
  traverse (leaf_to_float32 (leaves_dtype leaves)) leaves.

End Val.
Export Val.

(** ** TensorFlow: tensors and [tf.train.Feature] *)

Module Tf.

(** A tensor has an element type, a shape and row-major elements, like an
    [ndarray]; the same record serves. *)
Definition tensor := ndarray.

Definition in_int32 (z : Z) : bool := Z.leb (- 2 ^ 31) z && Z.ltb z (2 ^ 31).

Definition is_int_leaf (v : pyval) : bool :=
  match v with PyInt _ => true | _ => false end.
Definition is_bool_leaf (v : pyval) : bool :=
  match v with PyBool _ => true | _ => false end.
Definition is_number_leaf (v : pyval) : bool :=
  match v with PyInt _ | PyFloat _ => true | _ => false end.
Definition is_text_leaf (v : pyval) : bool :=
  match v with PyBytes _ | PyStr _ => true | _ => false end.

Definition int_leaf (v : pyval) : scalar :=
  match v with PyInt z => SInt z | _ => SInt 0 end.
Definition bool_leaf (v : pyval) : scalar :=
  match v with PyBool b => SBool b | _ => SBool false end.
Definition text_leaf (v : pyval) : scalar :=
  match v with
  | PyBytes b => SBytes b
  | PyStr s => SBytes (encode_utf8 s)
  | _ => SBytes []
  end.

(** A number as a float32 cell of a tensor.  A Python float that is finite
    and beyond the binary32 range is refused with ValueError; an int is
    converted through binary64 without that test. *)
Definition tensor_float_leaf (v : pyval) : result float :=
  match v with
  | PyFloat f =>
      if float32_overflows f then Err ValueError else Ok (to_float32 f)
  | PyInt z => let* f := float_of_int z in Ok (to_float32 f)
  | _ => Err TypeError
  end.

(** Element type TensorFlow infers for the leaves of a Python sequence:
    bools give bool, ints give int32 (int64 when one does not fit), a
    float among numbers gives float32 (and a float out of its range is
    refused), text gives string, no leaf at all gives float32; anything
    else is refused. *)
Definition tensor_of_leaves (shape : list nat) (leaves : list pyval)
  : result tensor :=
  if Nat.eqb (length leaves) 0 then Ok (mk_ndarray np_float32 shape [])
  else if forallb is_bool_leaf leaves
  then Ok (mk_ndarray np_bool shape (List.map bool_leaf leaves))
  else if forallb is_int_leaf leaves then
    if forallb (fun v => match v with PyInt z => in_int32 z | _ => true end) leaves
    then Ok (mk_ndarray np_int32 shape (List.map int_leaf leaves))
    else if forallb (fun v => match v with PyInt z => in_int64 z | _ => true end) leaves
    then Ok (mk_ndarray np_int64 shape (List.map int_leaf leaves))
    else Err ValueError
  else if forallb is_number_leaf leaves then
    let* d := traverse tensor_float_leaf leaves in
    Ok (mk_ndarray np_float32 shape (List.map SFloat d))
  else if forallb is_text_leaf leaves
  then Ok (mk_ndarray np_bytes shape (List.map text_leaf leaves))
  else Err ValueError.

(** [tf.convert_to_tensor(value)]: an array keeps its element type, shape
    and elements (object arrays are refused); a Python scalar or sequence
    gets the inferred element type. *)
Definition convert_to_tensor (value : pyval) : result tensor :=
  match value with
  | PyNdarray a =>
      match nd_dtype a with
      | np_object => Err ValueError
      | _ => Ok a
      end
  | PyNone => Err ValueError
  | _ =>
      let* (shape, leaves) := nested value in
      tensor_of_leaves shape leaves
  end.

(** A member of a [BytesList].  The bytes [tf.io.serialize_tensor] returns
    are kept symbolic: they are determined by the tensor and
    [tf.io.parse_tensor] gives the tensor back from them. *)
Inductive blob :=
| Raw (b : list byte)
| SerializedTensor (t : tensor).

(** [tf.train.Feature]: at most one of the three lists is set. *)
Inductive Feature :=
| FeatureEmpty
| BytesList (v : list blob)
| FloatList (v : list float)
| Int64List (v : list Z).

(** What protobuf accepts as an element of each repeated field. *)
Definition int64_element (v : pyval) : result Z :=
  match v with
  | PyBool b => Ok (Z.b2z b)
  | PyInt z => if in_int64 z then Ok z else Err ValueError
  | _ => Err TypeError
  end.

Definition float_element (v : pyval) : result float :=
  match v with
  | PyBool _ | PyInt _ | PyFloat _ => number_to_float32 v
  | _ => Err TypeError
  end.

Definition bytes_element (v : pyval) : result blob :=
  match v with
  | PyBytes b => Ok (Raw b)
  | _ => Err TypeError
  end.

(** The elements protobuf gets when it iterates over [value]. *)
Definition iterate (value : pyval) : result (list pyval) :=
  match value with
  | PyList l | PyTuple l => Ok l
  | PyBytes b => Ok (List.map (fun c => PyInt (Z.of_N (Byte.to_N c))) b)
  | PyNdarray a =>
      match nd_shape a with
      | [_] => Ok (List.map of_scalar (nd_data a))
      | _ => Err TypeError
      end
  | _ => Err TypeError
  end.

End Tf.
Export Tf.

(** ** The generic feature encoder *)

(** Lines 74-97: the tag of the inspected element, in the order of the
    [isinstance] tests. *)
Definition element_type (element : pyval) : result string :=
  match element with
  | PyBytes _ => Ok "bytes"
  | PyBool _ | PyInt _ => Ok "int64"
  | PyFloat _ => Ok "float"
  | PyStr _ => Ok "str"
  | PyList _ => Ok "2d"
  | PyNdarray _ => Ok "ndarray"
  | PyNone => Ok "none"
  | PyTuple _ => Err ValueError
  end.

(** Lines 70-100: the tag inferred when no [value_type] is given. *)
Definition infer_value_type (value : pyval) : result string :=
  let* element := match value with PyList l => first l | _ => Ok value end in
  let* value_type := element_type element in
  Ok (if is_list value then (value_type ++ "_list")%string else value_type).

(** Lines 102-145: the encoding chosen by the tag. *)
Definition encode_as (value : pyval) (value_type : string) : result Feature :=
  if String.eqb value_type "int64" then
    let* x := int64_element value in Ok (Int64List [x])
  else if String.eqb value_type "int64_list" then
    let* v := asarray_int64_flat value in Ok (Int64List v)
  else if String.eqb value_type "float" then
    let* x := float_element value in Ok (FloatList [x])
  else if String.eqb value_type "float_list" then
    let* v := asarray_float32_flat value in Ok (FloatList v)
  else if String.eqb value_type "bytes" then
    let* b := bytes_element value in Ok (BytesList [b])
  else if String.eqb value_type "bytes_list" then
    let* l := iterate value in
    let* bs := traverse bytes_element l in
    Ok (BytesList bs)
  else if String.eqb value_type "str" then
    match value with
    | PyStr s => Ok (BytesList [Raw (encode_utf8 s)])
    | _ => Err AttributeError
    end
  else if String.eqb value_type "2d_list" then
    let* data := convert_to_tensor value in
    Ok (BytesList [SerializedTensor data])
  else if String.eqb value_type "ndarray" then
    let* data := convert_to_tensor value in
    Ok (BytesList [SerializedTensor data])
  else if String.eqb value_type "none" then Ok FeatureEmpty
  else Err ValueError.

Definition convert_to_feature (value : pyval) (value_type : option string)
  : result Feature :=
  let* value_type :=
    match value_type with
    | None => infer_value_type value
    | Some t => Ok t
    end in
  encode_as value value_type.

(** ** The world outside the converter

    What the converter reads and the library calls whose code is not part
    of this project directory: file contents, [scipy.io.loadmat], Python's
    [float] and [int] on text, and [tfrecord_lib.image_info_to_feature_dict]. *)

Record host := {
  (** [open(file, 'r').read()], newlines translated *)
  open_text : string -> result string;
  (** [tf.io.gfile.GFile(path, 'rb').read()] *)
  read_binary : string -> result (list byte);
  (** [scipy.io.loadmat(file)]: the variables stored in the MAT-file *)
  loadmat : string -> result (gmap string ndarray);
  (** [float(s)] and [int(s)] on text; [None] stands for ValueError *)
  str_to_float : string -> option float;
  str_to_int : string -> option Z;
  image_info_to_feature_dict :
    pyval -> pyval -> pyval -> pyval -> list byte -> string ->
    result (gmap string Feature);
  (** the arrays [loadmat] gives are numpy arrays: every dimension fits a
      C [npy_intp] *)
  loadmat_fits : forall file mat name a,
    loadmat file = Ok mat -> mat !! name = Some a -> nd_fits a
}.

(** Arithmetic and conversions of Python numbers used by the assembler. *)
Module Num.

(** [float(v)] *)
Definition to_float (h : host) (v : pyval) : result float :=
  match v with
  | PyBool b => Ok (if b then one else zero)
  | PyInt z => float_of_int z
  | PyFloat f => Ok f
  | PyStr s => of_option ValueError (str_to_float h s)
  | PyBytes b => of_option ValueError (str_to_float h (string_of_list_byte b))
  | _ => Err TypeError
  end.

(** [a / b] *)
Definition truediv (a b : pyval) : result float :=
  let int_of v :=
    match v with PyBool b => Some (Z.b2z b) | PyInt z => Some z | _ => None end in
  let float_of v :=
    match v with
    | PyBool b => Ok (if b then one else zero)
    | PyInt z => float_of_int z
    | PyFloat f => Ok f
    | _ => Err TypeError
    end in
  match int_of a, int_of b with
  | Some x, Some y => int_truediv x y
  | _, _ =>
      let* x := float_of a in
      let* y := float_of b in
      float_truediv x y
  end.

(** [a * x] for a float [x] *)
Definition mul_float (a : pyval) (x : float) : result float :=
  match a with
  | PyBool b => Ok ((if b then one else zero) * x)%float
  | PyInt z => let* f := float_of_int z in Ok (f * x)%float
  | PyFloat f => Ok (f * x)%float
  | _ => Err TypeError
  end.

(** [v[i]] for a list or tuple.  Subscripting anything else is reported as
    TypeError (a [str] would give a character, which fails at the next
    arithmetic step). *)
Definition getitem (v : pyval) (i : nat) : result pyval :=
  match v with
  | PyList l | PyTuple l => of_option IndexError (l !! i)
  | _ => Err TypeError
  end.

(** A path component: [os.path.join] takes [str]. *)
Definition as_str (v : pyval) : result string :=
  match v with PyStr s => Ok s | _ => Err TypeError end.

(** [a, b, c, d = v] *)
Definition unpack4 (v : pyval) : result (pyval * pyval * pyval * pyval) :=
  match v with
  | PyList [a; b; c; d] | PyTuple [a; b; c; d] => Ok (a, b, c, d)
  | PyList _ | PyTuple _ => Err ValueError
  | _ => Err TypeError
  end.

End Num.
Export Num.

(** ** The mesh parser *)

Section Parsers.

Variable h : host.

(** [float(v)] on a token, and [int(f.split("/")[0])] on a group. *)
Definition read_coordinate (v : string) : result float :=
  of_option ValueError (str_to_float h v).

Definition read_index (f : string) : result Z :=
  of_option ValueError (str_to_int h (hd "" (split "/" f))).

(** Lines 263-267: the coordinates of a ["v "] line. *)
Definition parse_vertex (line : string) : result (list float) :=
  let vertex_line := split " " (drop_str 2 line) in
  traverse read_coordinate vertex_line.

(** Lines 274-278: the vertex indices of an ["f "] line. *)
Definition parse_face (line : string) : result (list Z) :=
  let face_line := split " " (drop_str 2 line) in
  traverse read_index face_line.

(** Lines 257-278: the loop over the lines, with its two accumulators. *)
Fixpoint parse_lines (lines : list string)
    (vertices : list (list float)) (faces : list (list Z))
  : result (list (list float) * list (list Z)) :=
  match lines with
  | [] => Ok (vertices, faces)
  | line :: rest =>
      let line_id := take_str 2 line in
      let* vertices :=
        if String.eqb line_id "v " then
          let* vertex := parse_vertex line in Ok (vertices ++ [vertex])
        else Ok vertices in
      let* faces :=
        if String.eqb line_id "f " then
          let* face := parse_face line in Ok (faces ++ [face])
        else Ok faces in
      parse_lines rest vertices faces
  end.

Definition parse_obj_file (file : string) : result (ndarray * ndarray) :=
  let* text := open_text h file in
  let lines := readlines text in
  let* (vertices, faces) := parse_lines lines [] [] in
  let* v := array_of_floats vertices in
  let* f := array_of_ints faces in
  Ok (v, f).

(** ** The voxel decoder *)

Definition parse_voxel_file (file : string) : result (ndarray * list nat) :=
  let* mat := loadmat h file in
  let* voxel := of_option KeyError (mat !! "voxel") in
  let* voxel := rot90 voxel 3 (1, 2) in
  let* occupied := greater0 voxel in
  let voxel_indices := argwhere occupied in
  let voxel_shape := shape voxel in
  Ok (voxel_indices, voxel_shape).

(** ** The record assembler *)

(** A value of the [feature_dict]: the encoder's features, and whatever
    else the code stores there. *)
Inductive entry :=
| Feat (f : Feature)
| Obj (v : pyval).

Definition is_feat (e : entry) : bool :=
  match e with Feat _ => true | Obj _ => false end.

Definition feat_of (e : entry) : option Feature :=
  match e with Feat f => Some f | Obj _ => None end.

(** [tf.train.Example(features=tf.train.Features(feature=d))]: protobuf
    merges each value into a [Feature] message and raises TypeError on a
    value that is not one. *)
Record Example := { features : gmap string Feature }.

Definition make_example (d : gmap string entry) : result Example :=
  if decide (map_Forall (fun _ e => is_feat e = true) d)
  then Ok {| features := omap feat_of d |}
  else Err TypeError.

Definition lookup_key (image : gmap string pyval) (k : string) : result pyval :=
  of_option KeyError (image !! k).

Definition shape_value (s : list nat) : pyval :=
  PyList (List.map (fun n => PyInt (Z.of_nat n)) s).

(** Lines 163-233: the [feature_dict] as it stands before the Example is
    built. *)
Definition assemble_feature_dict (image : gmap string pyval)
  : result (gmap string entry) :=
  let* img_size := lookup_key image "img_size" in
  let* img_height := getitem img_size 0 in
  let* img_size := lookup_key image "img_size" in
  let* img_width := getitem img_size 1 in
  let* img_filename := lookup_key image "img" in
  let* img_id := lookup_key image "image_id" in
  let* pix3d_dir := lookup_key image "pix3d_dir" in
  let* mask_filename := lookup_key image "mask" in
  let* model := lookup_key image "model" in
  let* voxel_file := lookup_key image "voxel" in
  (* image annotation *)
  let* dir := as_str pix3d_dir in
  let* img_name := as_str img_filename in
  let* encoded_img := read_binary h (path_join dir img_name) in
  let img_format :=
    if contains "jpg" img_name || contains "jpeg" img_name then "jpg" else "png" in
  let* info :=
    image_info_to_feature_dict h img_height img_width img_filename img_id
      encoded_img img_format in
  let feature_dict : gmap string entry := Feat <$> info in
  (* mask annotation *)
  let* mask_name := as_str mask_filename in
  let* encoded_mask := read_binary h (path_join dir mask_name) in
  let* mask_feature := convert_to_feature (PyBytes encoded_mask) None in
  let feature_dict := <["image/object/mask" := Feat mask_feature]> feature_dict in
  (* voxel and mesh annotations *)
  let* model_name := as_str model in
  let* (model_vertices, model_faces) := parse_obj_file (path_join dir model_name) in
  let* vertices_feature := convert_to_feature (PyNdarray model_vertices) None in
  let* faces_feature := convert_to_feature (PyNdarray model_faces) None in
  let feature_dict :=
    <["model/faces" := Feat faces_feature]>
      (<["model/vertices" := Feat vertices_feature]> feature_dict) in
  let* voxel_name := as_str voxel_file in
  let* (voxel_indices, voxel_shape) := parse_voxel_file (path_join dir voxel_name) in
  let* indices_feature := convert_to_feature (PyNdarray voxel_indices) None in
  let* shape_feature := convert_to_feature (shape_value voxel_shape) None in
  let feature_dict :=
    <["model/voxel_shape" := Feat shape_feature]>
      (<["model/voxel_indices" := Feat indices_feature]> feature_dict) in
  (* camera annotations *)
  let* rot_mat := lookup_key image "rot_mat" in
  let* trans_mat := lookup_key image "trans_mat" in
  let* focal_length := lookup_key image "focal_length" in
  let* w32 := truediv img_width (PyInt 32) in
  let* i0 := mul_float focal_length w32 in
  let* i1 := truediv img_width (PyInt 2) in
  let* i2 := truediv img_height (PyInt 2) in
  let intrinstic_mat := PyList [PyFloat i0; PyFloat i1; PyFloat i2] in
  let* rot_feature := convert_to_feature rot_mat None in
  let* trans_feature := convert_to_feature trans_mat None in
  let* intrinsic_feature := convert_to_feature intrinstic_mat None in
  let feature_dict :=
    <["camera/intrinstic_mat" := Feat intrinsic_feature]>
      (<["camera/trans_mat" := Feat trans_feature]>
         (<["camera/rot_mat" := Feat rot_feature]> feature_dict)) in
  (* bounding box annotations *)
  let* bbox := lookup_key image "bbox" in
  let* (xmin, ymin, xmax, ymax) := unpack4 bbox in
  let* fx := to_float h xmin in
  let* xmin := truediv (PyFloat fx) img_width in
  let* fy := to_float h ymin in
  let* ymin := truediv (PyFloat fy) img_height in
  let* fx := to_float h xmax in
  let* xmax := truediv (PyFloat fx) img_width in
  let* fy := to_float h ymax in
  let* ymax := truediv (PyFloat fy) img_height in
  let is_crowd := 0 in
  let* xmin_feature := convert_to_feature (PyList [PyFloat xmin]) None in
  let* ymin_feature := convert_to_feature (PyList [PyFloat ymin]) None in
  let* xmax_feature := convert_to_feature (PyList [PyFloat xmax]) None in
  let* ymax_feature := convert_to_feature (PyList [PyFloat ymax]) None in
  let* category := lookup_key image "category" in
  let* crowd_feature := convert_to_feature (PyList [PyInt is_crowd]) None in
  Ok (<["image/object/is_crowd" := Feat crowd_feature]>
        (<["image/object/class/label" := Obj category]>
           (<["image/object/bbox/ymax" := Feat ymax_feature]>
              (<["image/object/bbox/xmax" := Feat xmax_feature]>
                 (<["image/object/bbox/ymin" := Feat ymin_feature]>
                    (<["image/object/bbox/xmin" := Feat xmin_feature]>
                       feature_dict)))))).

(** Lines 147-238. *)
Definition create_tf_example (image : gmap string pyval) : result (Example * Z) :=
  let* feature_dict := assemble_feature_dict image in
  let* example := make_example feature_dict in
  Ok (example, 0).

End Parsers.

(** ** A sample host, to run the converter on concrete inputs *)

Module Sample.

(** [int] and [float] on text are the readers of the text module. *)
Definition read_int (s : string) : option Z := Text.read_int s.
Definition read_float (s : string) : option float := Text.read_float s.

(** Modelled from the spec: [tfrecord_lib.image_info_to_feature_dict], whose
    code is outside this project directory; it yields the "standard
    image-metadata fields" of the record's field table. *)
Definition image_info (height width filename image_id : pyval)
    (encoded_str : list byte) (encoded_format : string)
  : result (gmap string Feature) :=
  let* fh := convert_to_feature height None in
  let* fw := convert_to_feature width None in
  let* name := as_str filename in
  let* fid := convert_to_feature image_id None in
  Ok (<["image/height" := fh]>
        (<["image/width" := fw]>
           (<["image/filename" := BytesList [Raw (encode_utf8 name)]]>
              (<["image/source_id" := fid]>
                 (<["image/encoded" := BytesList [Raw encoded_str]]>
                    (<["image/format" := BytesList [Raw (encode_utf8 encoded_format)]]>
                       ∅)))))).

(** A tiny dataset directory: a picture, its mask, a triangle mesh and a
    1x1x2 voxel grid with one occupied cell. *)
Definition mesh_text : string :=
  String.concat (String newline EmptyString)
    ["# a triangle"; "v 0 0 0"; "v 1 0 0"; "vn 0 0 1"; "v 0 1.5 -2.25";
     "f 1/1/1 2/2/1 3/3/1"; ""].

Definition voxel_grid : ndarray :=
  {| nd_dtype := np_uint8; nd_shape := [1; 1; 2]%nat;
     nd_data := [SInt 0; SInt 1] |}.

Definition files (path : string) : result (list byte) :=
  if String.eqb path "/pix3d/img/bed/0001.png" then Ok [x89; x50; x4e; x47]
  else if String.eqb path "/pix3d/mask/bed/0001.png" then Ok [x89; x50]
  else Err OSError.

Definition mat_files (path : string) : result (gmap string ndarray) :=
  if String.eqb path "/pix3d/model/bed/voxel.mat"
  then Ok (<["voxel" := voxel_grid]> ∅)
  else Err OSError.

Lemma mat_files_fit (file : string) (mat : gmap string ndarray)
    (name : string) (a : ndarray) :
  mat_files file = Ok mat -> mat !! name = Some a -> nd_fits a.
Proof.
  unfold mat_files. destruct (String.eqb file _); [|discriminate].
  intros [= <-] Ha.
  apply lookup_insert_Some in Ha as [[_ <-]|[_ Ha]].
  - unfold nd_fits. simpl. repeat constructor; discriminate.
  - rewrite lookup_empty in Ha. discriminate Ha.
Qed.

Definition world : host :=
  {| open_text := fun path =>
       if String.eqb path "/pix3d/model/bed/model.obj" then Ok mesh_text
       else Err OSError;
     read_binary := files;
     loadmat := mat_files;
     str_to_float := read_float;
     str_to_int := read_int;
     image_info_to_feature_dict := image_info;
     loadmat_fits := mat_files_fit |}.

(** One record of the annotation index, as [generate_annotations] hands it
    to the assembler (the keys the assembler reads). *)
Definition annotation (category : pyval) (focal_length : pyval)
    (height width : Z) : gmap string pyval :=
  list_to_map
    [("img", PyStr "img/bed/0001.png");
     ("category", category);
     ("img_size", PyList [PyInt height; PyInt width]);
     ("mask", PyStr "mask/bed/0001.png");
     ("model", PyStr "model/bed/model.obj");
     ("voxel", PyStr "model/bed/voxel.mat");
     ("rot_mat", PyList [PyList [PyFloat 1; PyFloat 0; PyFloat 0];
                         PyList [PyFloat 0; PyFloat 1; PyFloat 0];
                         PyList [PyFloat 0; PyFloat 0; PyFloat 1]]);
     ("trans_mat", PyList [PyFloat 0; PyFloat 0.5; PyFloat 1]);
     ("focal_length", focal_length);
     ("bbox", PyList [PyInt 10; PyInt 20; PyInt 110; PyInt 220]);
     ("image_id", PyInt 0);
     ("pix3d_dir", PyStr "/pix3d")].

End Sample.

(** ** Notions the properties are stated with *)

(** A value the encoder has no encoding for: a scalar of a type outside
    the [isinstance] tests, or a non-empty list that starts with such a
    scalar or with an element whose tag has no list form. *)
Definition unsupported (value : pyval) : bool :=
  match value with
  | PyTuple _ => true
  | PyList (x :: _) =>
      match x with
      | PyTuple _ | PyStr _ | PyNone | PyNdarray _ => true
      | _ => false
      end
  | _ => false
  end.

(** An r-by-n nested list of floats, and of ints. *)
Definition float_matrix (rows : list (list float)) : pyval :=
  PyList (List.map (fun row => PyList (List.map PyFloat row)) rows).


(** All rows have [n] elements. *)
Definition rows_of_length {A} (n : nat) (rows : list (list A)) : Prop :=
  Forall (fun row => length row = n) rows.

(** Occupancy arrays hold numbers. *)
Definition numeric_scalar (s : scalar) : bool :=
  match s with SBytes _ => false | _ => true end.

Definition numeric (a : ndarray) : Prop :=
  Forall (fun s => numeric_scalar s = true) (nd_data a).

(** [s > 0] for a number. *)
Definition positive_scalar (s : scalar) : bool :=
  match s with
  | SBool b => b
  | SInt z => Z.ltb 0 z
  | SFloat f => PrimFloat.ltb zero f
  | SBytes _ => false
  end.

(** The indices at which [r] is greater than zero, in row-major order. *)
Definition occupied_cells (r : ndarray) : list (list nat) :=
  List.filter (fun idx => positive_scalar (item r idx)) (ndindex (nd_shape r)).

(** [n] successive 90-degree rotations about the second and third axes. *)
Fixpoint quarter_turns (n : nat) (m : ndarray) : result ndarray :=
  match n with
  | O => Ok m
  | S n' => let* r := rot90 m 1 (1, 2) in quarter_turns n' r
  end.

(** The lines of a mesh text by prefix, and their tokens. *)
Definition is_vertex_line (line : string) : bool := String.eqb (take_str 2 line) "v ".
Definition is_face_line (line : string) : bool := String.eqb (take_str 2 line) "f ".

Definition vertex_lines (text : string) : list string :=
  List.filter is_vertex_line (readlines text).
Definition face_lines (text : string) : list string :=
  List.filter is_face_line (readlines text).

Definition tokens (line : string) : list string := split " " (drop_str 2 line).

(** The text of a group before its first ["/"]. *)
Definition vertex_index (group : string) : string := hd "" (split "/" group).

(** Every token of every ["v "] line reads as a float, and the vertex index
    of every group of every ["f "] line reads as an int. *)
Definition tokens_valid (h : host) (text : string) : Prop :=
  Forall (fun line => Forall (fun tok => is_Some (str_to_float h tok)) (tokens line))
         (vertex_lines text) /\
  Forall (fun line =>
            Forall (fun tok => is_Some (str_to_int h (vertex_index tok))) (tokens line))
         (face_lines text).

(** All rows are as long as the first. *)
Definition uniform {A} (rows : list (list A)) : Prop :=
  rows_of_length (length (hd [] rows)) rows.

(** The vertex index of a group, when it reads as an int, fits a signed
    64-bit integer. *)
Definition index_fits (h : host) (group : string) : bool :=
  match str_to_int h (vertex_index group) with
  | Some z => in_int64 z
  | None => true
  end.

Definition indices_fit (h : host) (text : string) : Prop :=
  Forall (fun line => Forall (fun tok => index_fits h tok = true) (tokens line))
         (face_lines text).

(** A well-formed mesh text: valid tokens, vertex indices within 64 bits,
    the same number of coordinates on every vertex line and of groups on
    every face line. *)
Definition well_formed (h : host) (text : string) : Prop :=
  tokens_valid h text /\
  indices_fit h text /\
  uniform (List.map tokens (vertex_lines text)) /\
  uniform (List.map tokens (face_lines text)).

(** The groups of a line in the words of the specification: the pieces
    between runs of whitespace, as [line[2:].split()] gives them. *)
Fixpoint words (s : string) : list string :=
  match s with
  | EmptyString => []
  | String c r =>
      if is_space c then words r
      else match r with
           | String c' _ =>
               if is_space c' then String c EmptyString :: words r
               else match words r with
                    | w :: ws => String c w :: ws
                    | [] => [String c EmptyString]
                    end
           | EmptyString => [String c EmptyString]
           end
  end.

Definition whitespace_groups (line : string) : list string :=
  words (drop_str 2 line).

(** The floats on a ["v "] line, and the vertex indices on an ["f "] line. *)
Definition floats_on (h : host) (line : string) (vertex : list float) : Prop :=
  Forall2 (fun tok x => str_to_float h tok = Some x) (tokens line) vertex.

Definition indices_on (h : host) (line : string) (face : list Z) : Prop :=
  Forall2 (fun tok i => str_to_int h (vertex_index tok) = Some i) (tokens line) face.

(** A host whose MAT-files all hold the given variables (arrays whose
    dimensions fit; a file with another array cannot be loaded). *)
Definition dims_fit (a : ndarray) : bool :=
  forallb (fun n => Z.leb (Z.of_nat n) int64_max) (nd_shape a).

Definition fitting_mat (mat : gmap string ndarray) : result (gmap string ndarray) :=
  if forallb (fun p => dims_fit (snd p)) (map_to_list mat)
  then Ok mat else Err OSError.

Lemma fitting_mat_fits (mat mat' : gmap string ndarray) (name : string)
    (a : ndarray) :
  fitting_mat mat = Ok mat' -> mat' !! name = Some a -> nd_fits a.
Proof.
  unfold fitting_mat.
  destruct (forallb _ (map_to_list mat)) eqn:Hall; [|discriminate].
  intros [= <-] Ha.
  rewrite forallb_forall in Hall.
  apply elem_of_map_to_list, list_elem_of_In, Hall in Ha.
  unfold dims_fit in Ha. simpl in Ha. rewrite forallb_forall in Ha.
  apply List.Forall_forall. intros n Hn. apply Z.leb_le, Ha, Hn.
Qed.

Definition host_with_mat (mat : gmap string ndarray) : host :=
  {| open_text := open_text Sample.world;
     read_binary := read_binary Sample.world;
     loadmat := fun _ => fitting_mat mat;
     str_to_float := Sample.read_float;
     str_to_int := Sample.read_int;
     image_info_to_feature_dict := Sample.image_info;
     loadmat_fits := fun _ mat' name a => fitting_mat_fits mat mat' name a |}.

(** The value a run of the assembler leaves under a key. *)
Definition assembled_entry (r : result (gmap string entry)) (k : string)
  : result (option entry) :=
  let* d := r in Ok (d !! k).

(** The float a numeric annotation value stands for in arithmetic. *)
Definition number_value (v : pyval) : option float :=
  match v with
  | PyFloat f => Some f
  | PyInt z => match float_of_int z with Ok f => Some f | Err _ => None end
  | _ => None
  end.

(** A host in which every mesh file holds the given text. *)
Definition host_with_text (text : string) : host :=
  {| open_text := fun _ => Ok text;
     read_binary := read_binary Sample.world;
     loadmat := loadmat Sample.world;
     str_to_float := Sample.read_float;
     str_to_int := Sample.read_int;
     image_info_to_feature_dict := Sample.image_info;
     loadmat_fits := loadmat_fits Sample.world |}.

(** A face line whose first two groups are separated by a tab, and a mesh
    text that ends with it. *)
Definition tab_face_line : string :=
  ("f 1/1" ++ String (ascii_of_nat 9) "2/2 3/3" ++ String newline "")%string.

Definition tab_mesh_text : string :=
  (String.concat (String newline EmptyString)
     ["v 0 0 0"; "v 1 0 0"; "v 0 1 0"; ""] ++ tab_face_line)%string.


(** A 1x1x2x1 array: four axes. *)
Definition hypercube : ndarray :=
  {| nd_dtype := np_uint8; nd_shape := [1; 1; 2; 1]%nat;
     nd_data := [SInt 1; SInt 0] |}.

(** A 2x2 matrix: two axes. *)
Definition flat_grid : ndarray :=
  {| nd_dtype := np_uint8; nd_shape := [2; 2]%nat;
     nd_data := [SInt 1; SInt 0; SInt 0; SInt 1] |}.

(** ** The annotation generator *)

(** The keys [generate_annotations] copies from a record of the annotation
    index, in the order of the dictionary display (lines 327-333). *)
Definition copied_keys : list string :=
  ["img"; "category"; "img_size"; "2d_keypoints"; "mask"; "img_source";
   "model"; "model_raw"; "model_source"; "3d_keypoints"; "voxel"; "rot_mat";
   "trans_mat"; "focal_length"; "cam_position"; "inplane_rotation";
   "truncated"; "occluded"; "slightly_occluded"; "bbox"].

(** Lines 326-333: the dictionary built for record number [id]. *)
Definition annotation_of (id : nat) (info : gmap string pyval) (pix3d_dir : string)
  : result (gmap string pyval) :=
  let* copied :=
    traverse (fun k => let* v := lookup_key info k in Ok (k, v)) copied_keys in
  Ok (<["pix3d_dir" := PyStr pix3d_dir]>
        (<["image_id" := PyInt (Z.of_nat id)]> (list_to_map copied))).

(** Lines 323-345: the loop over [enumerate(annotation_dict)]. *)
Fixpoint generate_from (id : nat) (records : list (gmap string pyval))
    (pix3d_dir : string) (annotations : list (gmap string pyval))
  : result (list (gmap string pyval)) :=
  match records with
  | [] => Ok annotations
  | info :: rest =>
      let* a := annotation_of id info pix3d_dir in
      generate_from (S id) rest pix3d_dir (annotations ++ [a])
  end.

Definition generate_annotations (annotation_dict : list (gmap string pyval))
    (pix3d_dir : string) : result (list (gmap string pyval)) :=
  generate_from 0 annotation_dict pix3d_dir [].

(** ** The conversion driver *)

(** What [_create_tf_record_from_pix3d_dir] calls outside this file:
    [json.load(open(path))] on the annotation index and
    [tfrecord_lib.write_tf_record_dataset]. *)
Record driver := {
  json_load : string -> result (list (gmap string pyval));
  write_tf_record_dataset :
    string -> list (gmap string pyval) ->
    (gmap string pyval -> result (Example * Z)) -> Z -> result Z
}.

(** Lines 348-372; the number of skipped annotations is only logged. *)
Definition create_tf_record_from_pix3d_dir (h : host) (r : driver)
    (pix3d_dir output_path : string) (num_shards : Z) (pix3d_json_file : string)
  : result unit :=
  let* annotation_dict := json_load r (path_join pix3d_dir pix3d_json_file) in
  let* pix3d_annotations_iter := generate_annotations annotation_dict pix3d_dir in
  let* num_skipped :=
    write_tf_record_dataset r output_path pix3d_annotations_iter
      (create_tf_example h) num_shards in
  Ok tt.

(** ** The mask encoder *)

(** [np.maximum] on two elements of one array: the larger number, a nan if
    there is one, the disjunction of booleans. *)
Definition maximum (x y : scalar) : result scalar :=
  match x, y with
  | SInt a, SInt b => Ok (SInt (Z.max a b))
  | SBool a, SBool b => Ok (SBool (a || b))
  | SFloat a, SFloat b =>
      Ok (SFloat (if is_nan a then a
                  else if is_nan b then b
                  else if PrimFloat.ltb a b then b else a))
  | _, _ => Err TypeError
  end.

(** [idx] with [k] put in at position [axis]. *)
Definition insert_axis (axis k : nat) (idx : list nat) : list nat :=
  take axis idx ++ k :: drop axis idx.

(** [l] without its element at position [axis]. *)
Definition remove_axis {A} (axis : nat) (l : list A) : list A :=
  take axis l ++ drop (S axis) l.

(** The maximum of [m] along [axis] at the remaining index [idx], from the
    first element on. *)
Definition reduce_maximum (m : ndarray) (axis n : nat) (idx : list nat)
  : result scalar :=
  fold_left
    (fun acc k => let* x := acc in maximum x (item m (insert_axis axis k idx)))
    (seq 1 (n - 1))
    (Ok (item m (insert_axis axis 0 idx))).

(** [np.amax(m, axis)]: ValueError (numpy's AxisError is one) when [m] has
    no such axis, ValueError when the axis has length zero, else the array
    of the maxima along the axis. *)
Definition amax (m : ndarray) (axis : nat) : result ndarray :=
  if Nat.leb (ndim m) axis then Err ValueError
  else
    let n := nth axis (nd_shape m) 0%nat in
    if Nat.eqb n 0 then Err ValueError
    else
      let out_shape := remove_axis axis (nd_shape m) in
      let* data := traverse (reduce_maximum m axis n) (ndindex out_shape) in
      Ok {| nd_dtype := nd_dtype m; nd_shape := out_shape; nd_data := data |}.

(** [bool(v)]: Python's truth value.  For an array with one element it is
    that of the element; for other arrays numpy raises ValueError. *)
Definition truth (v : pyval) : result bool :=
  match v with
  | PyNone => Ok false
  | PyBool b => Ok b
  | PyInt z => Ok (negb (Z.eqb z 0))
  | PyFloat f => Ok (negb (PrimFloat.eqb f zero))
  | PyBytes b => Ok (negb (Nat.eqb (length b) 0))
  | PyStr s => Ok (negb (Nat.eqb (String.length s) 0))
  | PyList l | PyTuple l => Ok (negb (Nat.eqb (length l) 0))
  | PyNdarray a =>
      match nd_data a with
      | [x] => Ok (truthy x)
      | _ => Err ValueError
      end
  end.

(** What the mask encoder calls outside this file: pycocotools'
    [mask.frPyObjects] and [mask.decode], and
    [tfrecord_lib.encode_mask_as_png]. *)
Record mask_lib := {
  frPyObjects : pyval -> pyval -> pyval -> result pyval;
  decode : pyval -> result ndarray;
  encode_mask_as_png : ndarray -> result (list byte)
}.

(** Lines 50-57. *)
Definition coco_segmentation_to_mask_png (lib : mask_lib)
    (segmentation height width is_crowd : pyval) : result (list byte) :=
  let* run_len_encoding := frPyObjects lib segmentation height width in
  let* binary_mask := decode lib run_len_encoding in
  let* crowd := truth is_crowd in
  let* binary_mask := if negb crowd then amax binary_mask 2 else Ok binary_mask in
  encode_mask_as_png lib binary_mask.

(** The keys of the annotation that [create_tf_example] reads. *)
Definition assembler_keys : list string :=
  ["img_size"; "img"; "image_id"; "pix3d_dir"; "mask"; "model"; "voxel";
   "rot_mat"; "trans_mat"; "focal_length"; "bbox"; "category"].

(** A record of the annotation index has every copied key. *)
Definition complete_record (info : gmap string pyval) : Prop :=
  Forall (fun k => is_Some (info !! k)) copied_keys.

(** The records of a two-entry annotation index, and one with a key
    missing. *)
Module Demo.

Definition index_record (img : string) : gmap string pyval :=
  list_to_map
    [("img", PyStr img); ("category", PyStr "bed");
     ("img_size", PyList [PyInt 2016; PyInt 1512]);
     ("2d_keypoints", PyList []); ("mask", PyStr "mask/bed/0001.png");
     ("img_source", PyStr "ikea"); ("model", PyStr "model/bed/model.obj");
     ("model_raw", PyStr "model/bed/raw.obj");
     ("model_source", PyStr "ikea"); ("3d_keypoints", PyList []);
     ("voxel", PyStr "model/bed/voxel.mat");
     ("rot_mat", PyList [PyList [PyFloat 1; PyFloat 0; PyFloat 0];
                         PyList [PyFloat 0; PyFloat 1; PyFloat 0];
                         PyList [PyFloat 0; PyFloat 0; PyFloat 1]]);
     ("trans_mat", PyList [PyFloat 0; PyFloat 0.5; PyFloat 1]);
     ("focal_length", PyFloat 36);
     ("cam_position", PyList [PyFloat 0; PyFloat 0; PyFloat 1]);
     ("inplane_rotation", PyFloat 0); ("truncated", PyBool false);
     ("occluded", PyBool false); ("slightly_occluded", PyBool false);
     ("bbox", PyList [PyInt 10; PyInt 20; PyInt 110; PyInt 220]);
     ("comment", PyStr "not copied")].

Definition index : list (gmap string pyval) :=
  [index_record "img/bed/0001.png"; index_record "img/bed/0002.png"].

Definition broken_index : list (gmap string pyval) :=
  [index_record "img/bed/0001.png";
   delete "voxel" (index_record "img/bed/0002.png")].

(** A driver whose annotation index holds the given records and whose
    writer accepts everything. *)
Definition driver_for (records : list (gmap string pyval)) : driver :=
  {| json_load := fun _ => Ok records;
     write_tf_record_dataset := fun _ _ _ _ => Ok 0 |}.

End Demo.

(** The field names [create_tf_example] adds to the image-info fields. *)
Definition assembler_fields : list string :=
  ["image/object/mask"; "model/vertices"; "model/faces";
   "model/voxel_indices"; "model/voxel_shape"; "camera/rot_mat";
   "camera/trans_mat"; "camera/intrinstic_mat"; "image/object/bbox/xmin";
   "image/object/bbox/ymin"; "image/object/bbox/xmax";
   "image/object/bbox/ymax"; "image/object/class/label";
   "image/object/is_crowd"].

(** [img_format] of lines 176-179. *)
Definition image_format (img_name : string) : string :=
  if contains "jpg" img_name || contains "jpeg" img_name then "jpg" else "png".

(** ** Notions used to state the encoder's further properties *)

(** Which of its three lists a [tf.train.Feature] has set, if any. *)
Inductive kind := KEmpty | KBytes | KFloat | KInt64.

Definition kind_of (f : Feature) : kind :=
  match f with
  | FeatureEmpty => KEmpty
  | BytesList _ => KBytes
  | FloatList _ => KFloat
  | Int64List _ => KInt64
  end.

(** The list each [value_type] tag of lines 102-141 fills; [None] for a tag
    that is not one of the ten. *)
Definition tag_kind (t : string) : option kind :=
  if String.eqb t "int64" || String.eqb t "int64_list" then Some KInt64
  else if String.eqb t "float" || String.eqb t "float_list" then Some KFloat
  else if String.eqb t "bytes" || String.eqb t "bytes_list" ||
          String.eqb t "str" || String.eqb t "2d_list" ||
          String.eqb t "ndarray" then Some KBytes
  else if String.eqb t "none" then Some KEmpty
  else None.

(** The element line 72 inspects: the first of a list, else the value. *)
Definition inspected (value : pyval) : option pyval :=
  match value with
  | PyList l => head l
  | _ => Some value
  end.

Definition element_kind (element : pyval) : option kind :=
  match element with
  | PyBytes _ | PyStr _ | PyList _ | PyNdarray _ => Some KBytes
  | PyBool _ | PyInt _ => Some KInt64
  | PyFloat _ => Some KFloat
  | PyNone => Some KEmpty
  | PyTuple _ => None
  end.

(** A number as an int64 cell: an exactly representable int unchanged, a
    finite float cut toward zero when the result fits. *)
Definition truncated (v : pyval) : option Z :=
  match v with
  | PyInt z => if exact_in_float z then Some z else None
  | PyFloat f =>
      match trunc f with
      | Some t => if in_int64 t then Some t else None
      | None => None
      end
  | _ => None
  end.

(** A number as a float32 cell. *)
Definition widened (v : pyval) : option float :=
  match v with
  | PyInt z =>
      match float_of_int z with
      | Ok x => Some (to_float32 x)
      | Err _ => None
      end
  | PyFloat f => Some (to_float32 f)
  | _ => None
  end.

(** ** Notions used to state the mesh parser's further properties *)

(** [np.array([])]: float64, shape (0,). *)
Definition empty_array : ndarray :=
  {| nd_dtype := np_float64; nd_shape := [0%nat]; nd_data := [] |}.

(** A mesh text whose vertex line has two spaces after the letter, and one
    with no geometry at all. *)
Definition double_space_text : string :=
  String.concat (String newline EmptyString) ["v  1 2 3"; "f 1 1 1"; ""].

Definition comment_text : string :=
  String.concat (String newline EmptyString) ["# a mesh"; "vn 0 0 1"; ""].

(** No ["/"] in the text. *)
Definition slash_free (s : string) : Prop :=
  ~ In "/"%char (list_ascii_of_string s).

(** ** Notions used to state the mask encoder's properties *)

(** The integer an integer cell holds. *)
Definition int_value (s : scalar) : Z :=
  match s with SInt z => z | _ => 0 end.

(** The largest value of [m] along [axis] (of length [n]) at the remaining
    index [idx]. *)
Definition channel_max (m : ndarray) (axis n : nat) (idx : list nat) : Z :=
  fold_left Z.max
    (List.map (fun k => int_value (item m (insert_axis axis k idx)))
              (seq 1 (n - 1)))
    (int_value (item m (insert_axis axis 0 idx))).

(** Mask libraries for the examples: [decode] gives the array whatever the
    encoding, and the PNG encoder is stood for by the number of elements
    it is given. *)
Definition mask_lib_for (m : ndarray) : mask_lib :=
  {| frPyObjects := fun segmentation _ _ => Ok segmentation;
     decode := fun _ => Ok m;
     encode_mask_as_png := fun a =>
       Ok (List.map (fun _ => Byte.x00) (nd_data a)) |}.

(** Two 2x2 masks stacked along a third axis, and a single 2x2 mask. *)
Definition two_masks : ndarray :=
  {| nd_dtype := np_uint8; nd_shape := [2; 2; 2]%nat;
     nd_data := List.map SInt [1; 0; 0; 0; 0; 1; 0; 0] |}.

Definition one_mask : ndarray :=
  {| nd_dtype := np_uint8; nd_shape := [2; 2]%nat;
     nd_data := List.map SInt [1; 0; 0; 1] |}.

(** * Properties *)

(** ** The error monad *)

Lemma bind_ok {A B} (m : result A) (k : A -> result B) (b : B) :
  bind m k = Ok b -> exists a, m = Ok a /\ k a = Ok b.
Proof. destruct m as [a|e]; simpl; [eauto | discriminate]. Qed.

Lemma traverse_ok_map {A B} (f : A -> result B) (g : A -> B) (l : list A) :
  (forall x, In x l -> f x = Ok (g x)) -> traverse f l = Ok (List.map g l).
Proof.
  induction l as [|x l IH]; intros Hf; simpl; [reflexivity|].
  rewrite Hf by (left; reflexivity). simpl.
  rewrite IH by (intros y Hy; apply Hf; right; exact Hy). reflexivity.
Qed.

Section Traverse.

Context {A B : Type} (f : A -> result B).

Lemma traverse_inv (l : list A) (ys : list B) :
  traverse f l = Ok ys -> Forall2 (fun x y => f x = Ok y) l ys.
Proof.
  revert ys. induction l as [|x l IH]; simpl; intros ys H.
  - injection H as <-. constructor.
  - apply bind_ok in H as (y & Hy & H).
    apply bind_ok in H as (ys' & Hys & H). injection H as <-.
    constructor; [exact Hy|]. apply IH. exact Hys.
Qed.

Lemma traverse_total (l : list A) :
  (forall x, In x l -> is_ok (f x) = true) -> is_ok (traverse f l) = true.
Proof.
  induction l as [|x l IH]; intros H; simpl; [reflexivity|].
  pose proof (H x (or_introl eq_refl)) as Hx.
  destruct (f x) as [y|e]; [|discriminate Hx]. simpl.
  specialize (IH (fun z Hz => H z (or_intror Hz))).
  destruct (traverse f l); [reflexivity|discriminate IH].
Qed.

Lemma traverse_err_kind (E : pyerr) (l : list A) (e : pyerr) :
  (forall x e', In x l -> f x = Err e' -> e' = E) ->
  traverse f l = Err e -> e = E.
Proof.
  induction l as [|x l IH]; simpl; intros Hk H; [discriminate H|].
  destruct (f x) as [y|e'] eqn:Hx; simpl in H.
  - destruct (traverse f l) as [ys|e''] eqn:Hl; simpl in H; [discriminate H|].
    injection H as <-. apply IH; [|reflexivity].
    intros z e' Hz. apply Hk. right. exact Hz.
  - injection H as <-. apply (Hk x); [left; reflexivity|exact Hx].
Qed.

Lemma traverse_fails (l : list A) (x : A) :
  In x l -> is_ok (f x) = false -> is_ok (traverse f l) = false.
Proof.
  induction l as [|z l IH]; simpl; intros Hin Hx; [contradiction|].
  destruct Hin as [->|Hin].
  - destruct (f x); [discriminate Hx|reflexivity].
  - destruct (f z); [|reflexivity]. simpl.
    specialize (IH Hin Hx). destruct (traverse f l); [discriminate IH|reflexivity].
Qed.

End Traverse.

Lemma result_cases {A} (r : result A) (E : pyerr) :
  (forall e, r = Err e -> e = E) -> is_ok r = false -> r = Err E.
Proof.
  intros Hk Hr. destruct r as [a|e]; [discriminate Hr|].
  rewrite (Hk e eq_refl). reflexivity.
Qed.

(** ** The encoder *)

Lemma shape_eqb_refl (s : list nat) : shape_eqb s s = true.
Proof.
  induction s as [|n s IH]; simpl; [reflexivity|].
  rewrite Nat.eqb_refl. exact IH.
Qed.

(** Members that all have shape [s] give a sequence of shape [len :: s]. *)
Lemma nested_rows_uniform (s : list nat) (leaves : pyval -> list pyval)
    (l : list pyval) :
  (forall v, In v l -> nested v = Ok (s, leaves v)) ->
  nested_rows nested l =
  Ok (match l with [] => None | _ => Some s end, flat_map leaves l).
Proof.
  induction l as [|x r IH]; intros Hl; [reflexivity|].
  simpl. rewrite (Hl x) by (left; reflexivity). simpl.
  rewrite IH by (intros v Hv; apply Hl; right; exact Hv). simpl.
  destruct r; [reflexivity|]. rewrite shape_eqb_refl. reflexivity.
Qed.

Lemma nested_uniform (s : list nat) (leaves : pyval -> list pyval)
    (x : pyval) (r : list pyval) :
  (forall v, In v (x :: r) -> nested v = Ok (s, leaves v)) ->
  nested (PyList (x :: r)) = Ok (S (length r) :: s, flat_map leaves (x :: r)).
Proof.
  intros Hl. change (nested (PyList (x :: r))) with
    (let* (so, xs) := nested_rows nested (x :: r) in
     Ok (length (x :: r) :: default [] so, xs)).
  rewrite (nested_rows_uniform s leaves _ Hl). reflexivity.
Qed.

Lemma nested_flat (x : pyval) (r : list pyval) :
  (forall v, In v (x :: r) -> nested v = Ok ([], [v])) ->
  nested (PyList (x :: r)) = Ok ([S (length r)], x :: r).
Proof.
  intros Hl. rewrite (nested_uniform [] (fun v => [v]) x r Hl).
  f_equal. f_equal. clear Hl. simpl. f_equal.
  induction r as [|y r IH]; simpl; [reflexivity|]. f_equal. exact IH.
Qed.

Lemma traverse_map {A B C} (f : B -> result C) (g : A -> B) (l : list A) :
  traverse f (List.map g l) = traverse (fun x => f (g x)) l.
Proof.
  induction l as [|x l IH]; simpl; [reflexivity|]. rewrite IH. reflexivity.
Qed.

Lemma infer_list (x : pyval) (rest : list pyval) :
  infer_value_type (PyList (x :: rest)) =
  let* t := element_type x in Ok (t ++ "_list")%string.
Proof. reflexivity. Qed.

Lemma convert_inferred (value : pyval) (t : string) :
  infer_value_type value = Ok t ->
  convert_to_feature value None = encode_as value t.
Proof. intros H. unfold convert_to_feature. rewrite H. reflexivity. Qed.

Lemma convert_refused (value : pyval) (e : pyerr) :
  infer_value_type value = Err e -> convert_to_feature value None = Err e.
Proof. intros H. unfold convert_to_feature. rewrite H. reflexivity. Qed.

Ltac pick_tag t :=
  rewrite (convert_inferred _ t) by reflexivity;
  unfold encode_as; simpl String.eqb; cbv iota.


Lemma nested_leaves {A} (g : A -> pyval) (x : A) (xs : list A) :
  (forall y, nested (g y) = Ok ([], [g y])) ->
  nested (PyList (List.map g (x :: xs))) =
  Ok ([length (x :: xs)], List.map g (x :: xs)).
Proof.
  intros Hg. simpl List.map. rewrite nested_flat.
  - rewrite length_map. reflexivity.
  - intros v Hv. change (g x :: List.map g xs) with (List.map g (x :: xs)) in Hv.
    apply in_map_iff in Hv as [y [<- _]]. apply Hg.
Qed.

(** The element type found for leaves that are numbers. *)
Lemma leaves_dtype_numbers (leaves : list pyval) :
  Forall (fun v => match v with PyInt _ | PyFloat _ => True | _ => False end)
         leaves ->
  leaves_dtype leaves =
  if existsb is_float leaves then np_float64
  else match leaves with
       | [] => np_float64
       | _ => fold_right (fun v d => promote (leaf_dtype v) d) np_bool leaves
       end.
Proof.
  intros Hnum. unfold leaves_dtype.
  replace (forallb is_scalar leaves) with true.
  - replace (existsb is_text leaves) with false; [reflexivity|].
    symmetry. induction Hnum as [|v l Hv _ IH]; [reflexivity|].
    simpl. rewrite IH. destruct v; try contradiction; reflexivity.
  - symmetry. induction Hnum as [|v l Hv _ IH]; [reflexivity|].
    simpl. rewrite IH. destruct v; try contradiction; reflexivity.
Qed.

Lemma ints_promote_int64 (leaves : list pyval) :
  Forall (fun v => exists z, v = PyInt z /\ in_int64 z = true) leaves ->
  leaves <> [] ->
  fold_right (fun v d => promote (leaf_dtype v) d) np_bool leaves = np_int64.
Proof.
  induction 1 as [|v l (z & -> & Hz) Hl IH]; [congruence|]. intros _.
  simpl. unfold int_dtype. rewrite Hz.
  destruct l as [|w l]; [reflexivity|].
  rewrite IH by discriminate. reflexivity.
Qed.

Lemma leaves_dtype_ints (z : Z) (zs : list Z) :
  forallb in_int64 (z :: zs) = true ->
  leaves_dtype (List.map PyInt (z :: zs)) = np_int64.
Proof.
  intros Hr. rewrite leaves_dtype_numbers.
  - replace (existsb is_float (List.map PyInt (z :: zs))) with false.
    + apply (ints_promote_int64 (List.map PyInt (z :: zs))); [|discriminate].
      apply List.Forall_forall. intros v Hv.
      apply in_map_iff in Hv as (x & <- & Hx). exists x. split; [reflexivity|].
      rewrite forallb_forall in Hr. exact (Hr x Hx).
    + symmetry. generalize (z :: zs). intros l.
      induction l as [|x l IH]; [reflexivity|exact IH].
  - apply List.Forall_forall. intros v Hv.
    apply in_map_iff in Hv as (x & <- & _). exact I.
Qed.

Lemma leaves_dtype_floats (fs : list float) :
  leaves_dtype (List.map PyFloat fs) = np_float64.
Proof.
  rewrite leaves_dtype_numbers.
  - destruct fs; reflexivity.
  - apply List.Forall_forall. intros v Hv.
    apply in_map_iff in Hv as (x & <- & _). exact I.
Qed.

Lemma convert_int64_list (z : Z) (zs : list Z) :
  forallb in_int64 (z :: zs) = true ->
  convert_to_feature (PyList (List.map PyInt (z :: zs))) None =
  Ok (Int64List (z :: zs)).
Proof.
  intros Hr. pick_tag "int64_list".
  unfold asarray_int64_flat.
  rewrite nested_leaves by reflexivity.
  unfold bind at 2. rewrite (leaves_dtype_ints z zs Hr), traverse_map.
  rewrite (traverse_ok_map _ (fun x => x)).
  - simpl. rewrite map_id. reflexivity.
  - intros x Hx. reflexivity.
Qed.

Lemma convert_float_list (f : float) (fs : list float) :
  convert_to_feature (PyList (List.map PyFloat (f :: fs))) None =
  Ok (FloatList (List.map to_float32 (f :: fs))).
Proof.
  pick_tag "float_list".
  unfold asarray_float32_flat.
  rewrite nested_leaves by reflexivity.
  unfold bind at 2. rewrite leaves_dtype_floats, traverse_map.
  rewrite (traverse_ok_map _ to_float32) by (intros; reflexivity).
  reflexivity.
Qed.


(** A list that starts with a list is handed to [tf.convert_to_tensor]. *)
Lemma convert_nested_list (row : list pyval) (rest : list pyval) :
  convert_to_feature (PyList (PyList row :: rest)) None =
  let* t := convert_to_tensor (PyList (PyList row :: rest)) in
  Ok (BytesList [SerializedTensor t]).
Proof. pick_tag "2d_list". reflexivity. Qed.

Lemma nested_float_matrix (n : nat) (row : list float) (rows : list (list float)) :
  rows_of_length n (row :: rows) ->
  nested (float_matrix (row :: rows)) =
  Ok ([length (row :: rows); n], List.map PyFloat (concat (row :: rows))).
Proof.
  intros Hn. unfold float_matrix. simpl List.map at 1.
  rewrite (nested_uniform [n] (fun v => match v with PyList l => l | _ => [] end)).
  - rewrite length_map. f_equal. f_equal.
    change (PyList (List.map PyFloat row) ::
            List.map (fun r => PyList (List.map PyFloat r)) rows)
      with (List.map (fun r => PyList (List.map PyFloat r)) (row :: rows)).
    generalize (row :: rows). clear. intros l.
    induction l as [|r l IH]; simpl; [reflexivity|].
    rewrite IH, List.map_app. reflexivity.
  - intros v Hv.
    change (PyList (List.map PyFloat row) ::
            List.map (fun r => PyList (List.map PyFloat r)) rows)
      with (List.map (fun r => PyList (List.map PyFloat r)) (row :: rows)) in Hv.
    apply in_map_iff in Hv as [r [<- Hr]].
    unfold rows_of_length in Hn. rewrite List.Forall_forall in Hn.
    specialize (Hn r Hr). destruct r as [|x r].
    + simpl in Hn. subst n. reflexivity.
    + rewrite nested_leaves by reflexivity. rewrite <- Hn. reflexivity.
Qed.

Lemma tensor_of_float_leaves (shape : list nat) (fs : list float) :
  tensor_of_leaves shape (List.map PyFloat fs) =
  let* d := traverse
              (fun f => if float32_overflows f then Err ValueError
                        else Ok (to_float32 f)) fs in
  Ok (mk_ndarray np_float32 shape (List.map SFloat d)).
Proof.
  unfold tensor_of_leaves. destruct fs as [|f fs]; [reflexivity|].
  simpl Nat.eqb. cbv iota. simpl forallb at 1 2. cbv iota.
  replace (forallb is_number_leaf (List.map PyFloat (f :: fs))) with true.
  - rewrite traverse_map. reflexivity.
  - symmetry. apply forallb_forall. intros v [y [<- _]]%in_map_iff. reflexivity.
Qed.


Lemma float_cells_inv (fs d : list float) :
  traverse (fun f => if float32_overflows f then Err ValueError
                     else Ok (to_float32 f)) fs = Ok d ->
  d = List.map to_float32 fs.
Proof.
  intros H. apply traverse_inv in H.
  induction H as [|f y fs d Hf _ IH]; [reflexivity|].
  simpl. rewrite IH. f_equal.
  destruct (float32_overflows f); [discriminate Hf|congruence].
Qed.


(** What the encoder does with a nested list of floats: the cells of its
    rows are converted in row order. *)
Lemma convert_float_matrix_cells (n : nat) (row : list float)
    (rows : list (list float)) :
  rows_of_length n (row :: rows) ->
  convert_to_feature (float_matrix (row :: rows)) None =
  let* d := traverse
              (fun f => if float32_overflows f then Err ValueError
                        else Ok (to_float32 f)) (concat (row :: rows)) in
  Ok (BytesList
        [SerializedTensor
           (mk_ndarray np_float32 [length (row :: rows); n]
              (List.map SFloat d))]).
Proof.
  intros Hn.
  change (float_matrix (row :: rows)) with
    (PyList (PyList (List.map PyFloat row) ::
             List.map (fun r => PyList (List.map PyFloat r)) rows)).
  rewrite convert_nested_list.
  change (PyList (PyList (List.map PyFloat row) ::
             List.map (fun r => PyList (List.map PyFloat r)) rows))
    with (float_matrix (row :: rows)).
  unfold convert_to_tensor. unfold float_matrix at 1.
  fold (float_matrix (row :: rows)).
  rewrite (nested_float_matrix n) by exact Hn.
  unfold bind at 2. rewrite tensor_of_float_leaves.
  destruct (traverse _ (concat (row :: rows))); reflexivity.
Qed.


Lemma convert_float_matrix_inv (n : nat) (row : list float)
    (rows : list (list float)) (x : Feature) :
  rows_of_length n (row :: rows) ->
  convert_to_feature (float_matrix (row :: rows)) None = Ok x ->
  x = BytesList
        [SerializedTensor
           (mk_ndarray np_float32 [length (row :: rows); n]
              (List.map SFloat (List.map to_float32 (concat (row :: rows)))))].
Proof.
  intros Hn H. rewrite (convert_float_matrix_cells n row rows Hn) in H.
  apply bind_ok in H as (d & Hd & H). apply float_cells_inv in Hd.
  subst d. congruence.
Qed.






(** C5: a value that matches none of the supported shapes (a scalar of an
    unsupported type, a non-empty list whose first element is of an
    unsupported type) makes the encoder raise ValueError; no feature is
    returned. *)
Theorem convert_to_feature_unsupported (value : pyval) :
  unsupported value = true -> convert_to_feature value None = Err ValueError.
Proof.
  intros Hu. destruct value as [| | | | | |[|x rest]|l|]; try discriminate Hu.
  - destruct x; try discriminate Hu.
    + pick_tag "none_list". reflexivity.
    + pick_tag "str_list". reflexivity.
    + apply convert_refused. reflexivity.
    + pick_tag "ndarray_list". reflexivity.
  - apply convert_refused. reflexivity.
Qed.

Lemma convert_to_feature_unsupported_witness :
  convert_to_feature (PyTuple [PyInt 1; PyInt 2]) None = Err ValueError /\
  convert_to_feature (PyList [PyStr "bed"; PyStr "chair"]) None = Err ValueError.
Proof.
  split.
  - apply (convert_to_feature_unsupported (PyTuple [PyInt 1; PyInt 2])). reflexivity.
  - apply (convert_to_feature_unsupported (PyList [PyStr "bed"; PyStr "chair"])).
    reflexivity.
Defined.

(** C6: on the empty list with no [value_type] the encoder raises
    IndexError at [value[0]], before a tag is chosen, whereas with a list
    tag given it encodes the empty list as an empty field. *)
Theorem convert_to_feature_empty_list :
  convert_to_feature (PyList []) None = Err IndexError /\
  convert_to_feature (PyList []) (Some "int64_list") = Ok (Int64List []) /\
  convert_to_feature (PyList []) (Some "float_list") = Ok (FloatList []) /\
  convert_to_feature (PyList []) (Some "bytes_list") = Ok (BytesList []).
Proof. repeat apply conj; reflexivity. Qed.

(** ** Arrays: indices, tabulation and the quarter turns *)

Section Arrays.

Local Open Scope nat_scope.

Lemma length_flat_map_blocks {A B} (f : A -> list B) (L : nat) (l : list A) :
  (forall x, In x l -> length (f x) = L) ->
  length (flat_map f l) = length l * L.
Proof.
  induction l as [|x l IH]; intros Hf; simpl; [reflexivity|].
  rewrite length_app, Hf by (left; reflexivity).
  rewrite IH by (intros y Hy; apply Hf; right; exact Hy). reflexivity.
Qed.

Lemma nth_flat_map_blocks {A B} (f : A -> list B) (L : nat) (l : list A)
    (i p : nat) (dA : A) (d : B) :
  (forall x, In x l -> length (f x) = L) ->
  i < length l -> p < L ->
  nth (i * L + p) (flat_map f l) d = nth p (f (nth i l dA)) d.
Proof.
  revert i. induction l as [|x l IH]; intros i Hf Hi Hp; simpl in Hi; [lia|].
  simpl flat_map. destruct i as [|i].
  - simpl. apply app_nth1. rewrite Hf by (left; reflexivity). exact Hp.
  - rewrite app_nth2 by (rewrite Hf by (left; reflexivity); simpl; lia).
    rewrite Hf by (left; reflexivity).
    replace (S i * L + p - L) with (i * L + p) by (simpl; lia).
    simpl nth at 2. apply IH; [|lia|exact Hp].
    intros y Hy. apply Hf. right. exact Hy.
Qed.

Lemma length_ndindex (shape : list nat) :
  length (ndindex shape) = size_of shape.
Proof.
  induction shape as [|n s IH]; [reflexivity|].
  simpl. rewrite (length_flat_map_blocks _ (size_of s)).
  - rewrite length_seq. reflexivity.
  - intros x _. rewrite length_map. exact IH.
Qed.

(** The indices of a shape are the lists that are below it pointwise. *)
Lemma in_ndindex (shape idx : list nat) :
  In idx (ndindex shape) <-> Forall2 lt idx shape.
Proof.
  revert idx. induction shape as [|n s IH]; intros idx; simpl.
  - split.
    + intros [<-|[]]. constructor.
    + intros H. inversion H. left. reflexivity.
  - rewrite in_flat_map. split.
    + intros (i & Hi & Hidx). apply in_map_iff in Hidx as (r & <- & Hr).
      apply in_seq in Hi. constructor; [lia|]. apply IH. exact Hr.
    + intros H. inversion H as [|i n' r s' Hlt Hr]; subst.
      exists i. split; [apply in_seq; lia|].
      apply in_map. apply IH. exact Hr.
Qed.

Lemma ravel_lt (shape idx : list nat) :
  Forall2 lt idx shape -> ravel shape idx < size_of shape.
Proof.
  induction 1 as [|i n r s Hlt Hr IH]; simpl; [lia|]. nia.
Qed.

Lemma nth_ravel (shape idx : list nat) (d : list nat) :
  Forall2 lt idx shape -> nth (ravel shape idx) (ndindex shape) d = idx.
Proof.
  intros H. revert d. induction H as [|i n r s Hlt Hr IH]; intros d; [reflexivity|].
  simpl. rewrite <- (length_ndindex s).
  rewrite (nth_flat_map_blocks _ (length (ndindex s)) _ _ _ 0).
  - rewrite seq_nth by exact Hlt. simpl.
    rewrite (nth_indep _ d (i :: d)).
    + rewrite map_nth. rewrite IH. reflexivity.
    + rewrite length_map, length_ndindex. apply ravel_lt. exact Hr.
  - intros x _. apply length_map.
  - rewrite length_seq. exact Hlt.
  - rewrite length_ndindex. apply ravel_lt. exact Hr.
Qed.

(** Reading a tabulated array inside its bounds. *)
Lemma item_tabulate (dt : dtype) (shape : list nat) (f : list nat -> scalar)
    (idx : list nat) :
  Forall2 lt idx shape -> item (tabulate dt shape f) idx = f idx.
Proof.
  intros H. unfold item, tabulate. simpl.
  rewrite (nth_indep _ (SInt 0) (f idx)).
  - rewrite map_nth. rewrite nth_ravel by exact H. reflexivity.
  - rewrite length_map, length_ndindex. apply ravel_lt. exact H.
Qed.

Lemma tabulate_ext (dt : dtype) (shape : list nat) (f g : list nat -> scalar) :
  (forall idx, Forall2 lt idx shape -> f idx = g idx) ->
  tabulate dt shape f = tabulate dt shape g.
Proof.
  intros H. unfold tabulate. f_equal. apply map_ext_in.
  intros idx Hidx. apply H. apply in_ndindex. exact Hidx.
Qed.

Lemma below3 (idx : list nat) (a b c : nat) :
  Forall2 lt idx [a; b; c] <->
  exists i j k, idx = [i; j; k] /\ i < a /\ j < b /\ k < c.
Proof.
  split.
  - intros H. inversion H as [|i ? r ? Hi H1]; subst.
    inversion H1 as [|j ? r1 ? Hj H2]; subst.
    inversion H2 as [|k ? r2 ? Hk H3]; subst.
    inversion H3; subst. exists i, j, k. auto.
  - intros (i & j & k & -> & Hi & Hj & Hk). repeat constructor; assumption.
Qed.

(** One quarter turn about axes 1 and 2 of an (a, b, c) array: the
    (a, c, b) array with [r[i, j, k] = m[i, k, c-1-j]]. *)
Lemma rot90_once (m : ndarray) (a b c : nat) :
  nd_shape m = [a; b; c] ->
  rot90 m 1 (1, 2)%Z =
  Ok (tabulate (nd_dtype m) [a; c; b]
        (fun idx => item m [nth 0 idx 0; nth 2 idx 0; c - 1 - nth 1 idx 0])).
Proof.
  intros Hs. destruct m as [dt sh data]. simpl in Hs. subst sh.
  unfold rot90, ndim. simpl. f_equal.
  unfold transpose, ndim. simpl.
  apply tabulate_ext. intros idx (i & j & k & -> & Hi & Hj & Hk)%below3.
  simpl. unfold flip. simpl. rewrite item_tabulate.
  - reflexivity.
  - apply below3. exists i, k, j. auto.
Qed.

(** Three quarter turns in one call ([k = 3]): the (a, c, b) array with
    [r[i, j, k] = m[i, b-1-k, j]]. *)
Lemma rot90_thrice (m : ndarray) (a b c : nat) :
  nd_shape m = [a; b; c] ->
  rot90 m 3 (1, 2)%Z =
  Ok (tabulate (nd_dtype m) [a; c; b]
        (fun idx => item m [nth 0 idx 0; b - 1 - nth 2 idx 0; nth 1 idx 0])).
Proof.
  intros Hs. destruct m as [dt sh data]. simpl in Hs. subst sh.
  unfold rot90, ndim. simpl. f_equal.
  unfold flip. simpl.
  apply tabulate_ext. intros idx (i & j & k & -> & Hi & Hj & Hk)%below3.
  simpl. unfold transpose. simpl. rewrite item_tabulate.
  - reflexivity.
  - apply below3. exists i, j, (b - 1 - k). repeat split; try assumption. lia.
Qed.

(** Three successive quarter turns give the same array as the single call
    with [k = 3]. *)
Lemma quarter_turns_three (m : ndarray) (a b c : nat) :
  nd_shape m = [a; b; c] ->
  quarter_turns 3 m = rot90 m 3 (1, 2)%Z.
Proof.
  intros Hs. rewrite (rot90_thrice m a b c Hs).
  cbv beta iota delta [quarter_turns bind].
  rewrite (rot90_once m a b c Hs).
  rewrite (rot90_once _ a c b) by reflexivity.
  rewrite (rot90_once _ a b c) by reflexivity.
  f_equal. simpl nd_dtype.
  apply tabulate_ext. intros idx (i & j & k & -> & Hi & Hj & Hk)%below3.
  simpl nth.
  rewrite item_tabulate by (apply below3; exists i, k, (c - 1 - j); repeat split; lia).
  simpl nth.
  rewrite item_tabulate
    by (apply below3; exists i, (c - 1 - j), (b - 1 - k); repeat split; lia).
  simpl nth. replace (c - 1 - (c - 1 - j)) with j by lia. reflexivity.
Qed.

End Arrays.

(** ** The voxel decoder *)

Lemma item_numeric (m : ndarray) (idx : list nat) :
  numeric m -> numeric_scalar (item m idx) = true.
Proof.
  intros Hm. unfold item.
  destruct (Nat.lt_ge_cases (ravel (nd_shape m) idx) (length (nd_data m))) as [Hlt|Hge].
  - unfold numeric in Hm. rewrite List.Forall_forall in Hm.
    apply Hm. apply nth_In. exact Hlt.
  - rewrite nth_overflow by exact Hge. reflexivity.
Qed.

Lemma tabulate_numeric (dt : dtype) (shape : list nat) (f : list nat -> scalar) :
  (forall idx, numeric_scalar (f idx) = true) -> numeric (tabulate dt shape f).
Proof.
  intros Hf. unfold numeric, tabulate. simpl.
  apply List.Forall_forall. intros s (idx & <- & _)%in_map_iff. apply Hf.
Qed.

Lemma scalar_gt0_numeric (s : scalar) :
  numeric_scalar s = true -> scalar_gt0 s = Ok (positive_scalar s).
Proof. destruct s; intros H; try discriminate H; reflexivity. Qed.

Lemma greater0_tabulate (dt : dtype) (shape : list nat) (f : list nat -> scalar) :
  (forall idx, numeric_scalar (f idx) = true) ->
  greater0 (tabulate dt shape f) =
  Ok {| nd_dtype := np_bool; nd_shape := shape;
        nd_data := List.map (fun idx => SBool (positive_scalar (f idx)))
                            (ndindex shape) |}.
Proof.
  intros Hf. unfold greater0, tabulate. simpl.
  rewrite traverse_map.
  rewrite (traverse_ok_map _ (fun idx => positive_scalar (f idx)))
    by (intros idx _; apply scalar_gt0_numeric, Hf).
  simpl. rewrite List.map_map. reflexivity.
Qed.

Lemma argwhere_mask (shape : list nat) (p : list nat -> bool) :
  argwhere {| nd_dtype := np_bool; nd_shape := shape;
              nd_data := List.map (fun idx => SBool (p idx)) (ndindex shape) |} =
  index_rows (length shape) (List.filter p (ndindex shape)).
Proof.
  unfold argwhere, ndim. simpl. f_equal.
  induction (ndindex shape) as [|idx l IH]; simpl; [reflexivity|].
  destruct (p idx); simpl; rewrite IH; reflexivity.
Qed.

Lemma occupied_cells_tabulate (dt : dtype) (shape : list nat)
    (f : list nat -> scalar) :
  occupied_cells (tabulate dt shape f) =
  List.filter (fun idx => positive_scalar (f idx)) (ndindex shape).
Proof.
  unfold occupied_cells. simpl.
  apply List.filter_ext_in. intros idx Hidx.
  rewrite item_tabulate by (apply in_ndindex; exact Hidx). reflexivity.
Qed.

(** What the decoder returns for a numeric array of rank 3. *)
Lemma parse_voxel_file_rank3 (h : host) (file : string)
    (mat : gmap string ndarray) (voxel : ndarray) (a b c : nat) :
  loadmat h file = Ok mat ->
  mat !! "voxel" = Some voxel ->
  nd_shape voxel = [a; b; c] ->
  numeric voxel ->
  parse_voxel_file h file =
  Ok (index_rows 3
        (List.filter
           (fun idx => positive_scalar
              (item voxel [nth 0 idx 0; b - 1 - nth 2 idx 0; nth 1 idx 0])%nat)
           (ndindex [a; c; b])),
      [a; c; b]).
Proof.
  intros Hload Hkey Hshape Hnum. unfold parse_voxel_file.
  cbv beta iota delta [bind]. rewrite Hload, Hkey.
  cbv beta iota delta [of_option].
  rewrite (rot90_thrice voxel a b c Hshape).
  rewrite greater0_tabulate by (intros idx; apply item_numeric, Hnum).
  rewrite argwhere_mask. reflexivity.
Qed.

(** C2 (as stated, refuted): for the 1x1x2 grid of the sample directory the
    decoder returns the shape (1, 2, 1), not the input's (1, 1, 2). *)
Lemma parse_voxel_file_shape_differs :
  loadmat Sample.world "/pix3d/model/bed/voxel.mat" =
    Ok (<["voxel" := Sample.voxel_grid]> ∅) /\
  nd_shape Sample.voxel_grid = [1; 1; 2]%nat /\
  exists indices,
    parse_voxel_file Sample.world "/pix3d/model/bed/voxel.mat" =
      Ok (indices, [1; 2; 1]%nat) /\
    [1; 2; 1]%nat <> nd_shape Sample.voxel_grid.
Proof.
  split; [reflexivity|]. split; [reflexivity|].
  eexists. split; [vm_compute; reflexivity|discriminate].
Qed.

(** C2 (amended): for a numeric array of shape (a, b, c) under the key the
    returned [voxel_shape] is the 3-element shape of the rotated array,
    (a, c, b); it is the input's shape exactly when b = c. *)
Theorem parse_voxel_file_shape (h : host) (file : string)
    (mat : gmap string ndarray) (voxel : ndarray) (a b c : nat) :
  loadmat h file = Ok mat ->
  mat !! "voxel" = Some voxel ->
  nd_shape voxel = [a; b; c] ->
  numeric voxel ->
  (exists indices, parse_voxel_file h file = Ok (indices, [a; c; b])) /\
  ([a; c; b] = nd_shape voxel <-> b = c).
Proof.
  intros Hload Hkey Hshape Hnum. split.
  - eexists. apply (parse_voxel_file_rank3 h file mat voxel a b c); assumption.
  - rewrite Hshape. split.
    + intros H. injection H as H _. symmetry. exact H.
    + intros ->. reflexivity.
Qed.

Lemma parse_voxel_file_shape_witness :
  (exists indices,
     parse_voxel_file Sample.world "/pix3d/model/bed/voxel.mat" =
     Ok (indices, [1; 2; 1]%nat)) /\
  ([1; 2; 1]%nat = nd_shape Sample.voxel_grid <-> 1%nat = 2%nat).
Proof.
  apply (parse_voxel_file_shape Sample.world "/pix3d/model/bed/voxel.mat"
           (<["voxel" := Sample.voxel_grid]> ∅) Sample.voxel_grid 1 1 2).
  - reflexivity.
  - reflexivity.
  - reflexivity.
  - repeat constructor.
Defined.

(** C3: for a numeric array of rank 3 under the key, the decoder returns,
    one per row and in row-major (argwhere) order, exactly the indices at
    which the array turned by three quarter turns about its second and
    third axes is greater than zero; in terms of the stored array these
    are the (i, j, k) with [voxel[i, b-1-k, j] > 0]. *)
Theorem parse_voxel_file_occupied (h : host) (file : string)
    (mat : gmap string ndarray) (voxel : ndarray) (a b c : nat) :
  loadmat h file = Ok mat ->
  mat !! "voxel" = Some voxel ->
  nd_shape voxel = [a; b; c] ->
  numeric voxel ->
  exists rotated,
    quarter_turns 3 voxel = Ok rotated /\
    parse_voxel_file h file =
      Ok (index_rows 3 (occupied_cells rotated), nd_shape rotated) /\
    forall i j k,
      In [i; j; k] (occupied_cells rotated) <->
      (i < a /\ j < c /\ k < b /\
       positive_scalar (item voxel [i; b - 1 - k; j]) = true)%nat.
Proof.
  intros Hload Hkey Hshape Hnum.
  rewrite (quarter_turns_three voxel a b c Hshape).
  rewrite (rot90_thrice voxel a b c Hshape).
  eexists. split; [reflexivity|].
  rewrite occupied_cells_tabulate. split.
  - apply (parse_voxel_file_rank3 h file mat voxel a b c); assumption.
  - intros i j k. rewrite filter_In, in_ndindex, below3. simpl nth. split.
    + intros [(i' & j' & k' & Heq & Hi & Hj & Hk) Hpos].
      injection Heq as -> -> ->. auto.
    + intros (Hi & Hj & Hk & Hpos). split; [|exact Hpos].
      exists i, j, k. auto.
Qed.

Lemma parse_voxel_file_occupied_witness :
  exists rotated,
    quarter_turns 3 Sample.voxel_grid = Ok rotated /\
    parse_voxel_file Sample.world "/pix3d/model/bed/voxel.mat" =
      Ok (index_rows 3 (occupied_cells rotated), nd_shape rotated) /\
    forall i j k,
      In [i; j; k] (occupied_cells rotated) <->
      (i < 1 /\ j < 2 /\ k < 1 /\
       positive_scalar (item Sample.voxel_grid [i; 1 - 1 - k; j]) = true)%nat.
Proof.
  apply (parse_voxel_file_occupied Sample.world "/pix3d/model/bed/voxel.mat"
           (<["voxel" := Sample.voxel_grid]> ∅) Sample.voxel_grid 1 1 2).
  - reflexivity.
  - reflexivity.
  - reflexivity.
  - repeat constructor.
Defined.

Lemma rot90_low_rank (m : ndarray) (k : Z) :
  (ndim m < 3)%nat -> rot90 m k (1, 2) = Err ValueError.
Proof.
  intros Hn. unfold rot90.
  destruct (Z.eqb 1 2 || Z.eqb (Z.abs (1 - 2)) (Z.of_nat (ndim m))); [reflexivity|].
  replace (Z.leb (Z.of_nat (ndim m)) 2) with true by (symmetry; apply Z.leb_le; lia).
  rewrite orb_true_r. reflexivity.
Qed.

Lemma rot90_high_rank (m : ndarray) :
  (3 <= ndim m)%nat ->
  rot90 m 3 (1, 2) =
  Ok (flip (transpose m (swap 0%nat (seq 0 (ndim m)) 1 2)) 2).
Proof.
  intros Hn. unfold rot90.
  replace (Z.eqb (Z.abs (1 - 2)) (Z.of_nat (ndim m))) with false
    by (symmetry; apply Z.eqb_neq; lia).
  replace (Z.leb (Z.of_nat (ndim m)) 1) with false by (symmetry; apply Z.leb_gt; lia).
  replace (Z.leb (Z.of_nat (ndim m)) 2) with false by (symmetry; apply Z.leb_gt; lia).
  replace (Z.ltb 1 (- Z.of_nat (ndim m))) with false by (symmetry; apply Z.ltb_ge; lia).
  replace (Z.ltb 2 (- Z.of_nat (ndim m))) with false by (symmetry; apply Z.ltb_ge; lia).
  simpl orb. cbv iota.
  rewrite (Z.mod_small 1) by lia. rewrite (Z.mod_small 2) by lia.
  reflexivity.
Qed.

(** C9 (as stated, refuted): an array with four axes under the key is
    decoded without an error. *)
Lemma parse_voxel_file_rank4 :
  ndim hypercube = 4%nat /\
  loadmat (host_with_mat (<["voxel" := hypercube]> ∅)) "grid.mat" =
    Ok (<["voxel" := hypercube]> ∅) /\
  parse_voxel_file (host_with_mat (<["voxel" := hypercube]> ∅)) "grid.mat" =
    Ok (index_rows 4 [[0; 0; 0; 0]]%nat, [1; 2; 1; 1]%nat).
Proof. repeat apply conj; vm_compute; reflexivity. Qed.

(** C9 (amended): the decoder raises KeyError when the key ['voxel'] is
    absent and ValueError when the array under it has fewer than three
    axes; a numeric array with three or more axes is decoded. *)
Theorem parse_voxel_file_failures (h : host) (file : string)
    (mat : gmap string ndarray) :
  loadmat h file = Ok mat ->
  (mat !! "voxel" = None -> parse_voxel_file h file = Err KeyError) /\
  (forall voxel, mat !! "voxel" = Some voxel -> (ndim voxel < 3)%nat ->
     parse_voxel_file h file = Err ValueError) /\
  (forall voxel, mat !! "voxel" = Some voxel -> (3 <= ndim voxel)%nat ->
     numeric voxel -> is_ok (parse_voxel_file h file) = true).
Proof.
  intros Hload. unfold parse_voxel_file. rewrite Hload.
  cbv beta iota delta [bind]. repeat apply conj.
  - intros ->. reflexivity.
  - intros voxel -> Hn. cbv beta iota delta [of_option].
    rewrite rot90_low_rank by exact Hn. reflexivity.
  - intros voxel -> Hn Hnum. cbv beta iota delta [of_option].
    rewrite rot90_high_rank by exact Hn.
    unfold flip at 1.
    rewrite greater0_tabulate; [reflexivity|].
    intros idx. apply item_numeric. unfold transpose.
    apply tabulate_numeric. intros idx'. apply item_numeric, Hnum.
Qed.

Lemma parse_voxel_file_failures_witness :
  parse_voxel_file (host_with_mat ∅) "grid.mat" = Err KeyError /\
  parse_voxel_file (host_with_mat (<["voxel" := flat_grid]> ∅)) "grid.mat" =
    Err ValueError /\
  is_ok (parse_voxel_file (host_with_mat (<["voxel" := hypercube]> ∅)) "grid.mat")
    = true.
Proof.
  assert (Hnone : loadmat (host_with_mat ∅) "grid.mat" = Ok ∅)
    by reflexivity.
  assert (Hflat : loadmat (host_with_mat (<["voxel" := flat_grid]> ∅)) "grid.mat" =
                  Ok (<["voxel" := flat_grid]> ∅)) by reflexivity.
  assert (Hcube : loadmat (host_with_mat (<["voxel" := hypercube]> ∅)) "grid.mat" =
                  Ok (<["voxel" := hypercube]> ∅)) by reflexivity.
  repeat apply conj.
  - destruct (parse_voxel_file_failures (host_with_mat ∅) "grid.mat" ∅ Hnone)
      as (Habsent & _ & _).
    apply Habsent. reflexivity.
  - destruct (parse_voxel_file_failures
                (host_with_mat (<["voxel" := flat_grid]> ∅)) "grid.mat"
                (<["voxel" := flat_grid]> ∅) Hflat) as (_ & Hlow & _).
    apply (Hlow flat_grid); [reflexivity|]. unfold ndim. simpl. lia.
  - destruct (parse_voxel_file_failures
                (host_with_mat (<["voxel" := hypercube]> ∅)) "grid.mat"
                (<["voxel" := hypercube]> ∅) Hcube) as (_ & _ & Hhigh).
    apply (Hhigh hypercube); [reflexivity| |repeat constructor].
    unfold ndim. simpl. lia.
Defined.

(** ** The mesh parser *)

Section Mesh.

Variable h : host.

Lemma parse_vertex_unfold (line : string) :
  parse_vertex h line = traverse (read_coordinate h) (tokens line).
Proof. reflexivity. Qed.

Lemma parse_face_unfold (line : string) :
  parse_face h line = traverse (read_index h) (tokens line).
Proof. reflexivity. Qed.

Lemma parse_vertex_error (line : string) (e : pyerr) :
  parse_vertex h line = Err e -> e = ValueError.
Proof.
  rewrite parse_vertex_unfold. apply traverse_err_kind.
  intros tok e' _. unfold read_coordinate.
  destruct (str_to_float h tok); simpl; congruence.
Qed.

Lemma parse_face_error (line : string) (e : pyerr) :
  parse_face h line = Err e -> e = ValueError.
Proof.
  rewrite parse_face_unfold. apply traverse_err_kind.
  intros tok e' _. unfold read_index.
  destruct (str_to_int h _); simpl; congruence.
Qed.

Lemma vertex_not_face (line : string) :
  is_vertex_line line = true -> is_face_line line = false.
Proof.
  unfold is_vertex_line, is_face_line. intros Hv.
  apply String.eqb_eq in Hv. rewrite Hv. reflexivity.
Qed.

Lemma parse_lines_cons (line : string) (rest : list string)
    (vertices : list (list float)) (faces : list (list Z)) :
  parse_lines h (line :: rest) vertices faces =
  let* vertices :=
    if is_vertex_line line then
      let* vertex := parse_vertex h line in Ok (vertices ++ [vertex])
    else Ok vertices in
  let* faces :=
    if is_face_line line then
      let* face := parse_face h line in Ok (faces ++ [face])
    else Ok faces in
  parse_lines h rest vertices faces.
Proof. reflexivity. Qed.

(** The loop reads the vertex lines and the face lines, each in file
    order, and nothing else. *)
Lemma parse_lines_by_kind (lines : list string)
    (vertices : list (list float)) (faces : list (list Z)) :
  parse_lines h lines vertices faces =
  let* vs := traverse (parse_vertex h) (List.filter is_vertex_line lines) in
  let* fs := traverse (parse_face h) (List.filter is_face_line lines) in
  Ok (vertices ++ vs, faces ++ fs).
Proof.
  revert vertices faces.
  induction lines as [|line rest IH]; intros vertices faces.
  - simpl. rewrite !app_nil_r. reflexivity.
  - rewrite parse_lines_cons.
    change (List.filter is_vertex_line (line :: rest)) with
      (if is_vertex_line line then line :: List.filter is_vertex_line rest
       else List.filter is_vertex_line rest).
    change (List.filter is_face_line (line :: rest)) with
      (if is_face_line line then line :: List.filter is_face_line rest
       else List.filter is_face_line rest).
    destruct (is_vertex_line line) eqn:Hv.
    + rewrite (vertex_not_face line Hv). simpl traverse.
      destruct (parse_vertex h line) as [v|e]; simpl; [|reflexivity].
      rewrite IH.
      destruct (traverse (parse_vertex h) _) as [vs|e]; simpl; [|reflexivity].
      destruct (traverse (parse_face h) _) as [fs|e]; simpl; [|reflexivity].
      rewrite <- app_assoc. reflexivity.
    + destruct (is_face_line line) eqn:Hf.
      * simpl traverse. simpl bind at 1.
        destruct (parse_face h line) as [f|e] eqn:Hface; simpl.
        -- rewrite IH.
           destruct (traverse (parse_vertex h) _) as [vs|e]; simpl; [|reflexivity].
           destruct (traverse (parse_face h) _) as [fs|e]; simpl; [|reflexivity].
           rewrite <- app_assoc. reflexivity.
        -- rewrite (parse_face_error line e Hface).
           destruct (traverse (parse_vertex h) _) as [vs|e'] eqn:Hvs; simpl;
             [reflexivity|].
           f_equal. symmetry. revert Hvs. apply traverse_err_kind.
           intros l e'' _. apply parse_vertex_error.
      * simpl. apply IH.
Qed.

Lemma parse_obj_file_by_kind (file text : string) :
  open_text h file = Ok text ->
  parse_obj_file h file =
  let* vs := traverse (parse_vertex h) (vertex_lines text) in
  let* fs := traverse (parse_face h) (face_lines text) in
  let* v := array_of_floats vs in
  let* f := array_of_ints fs in
  Ok (v, f).
Proof.
  intros Hopen. unfold parse_obj_file. rewrite Hopen. simpl bind at 1.
  rewrite parse_lines_by_kind. fold (vertex_lines text). fold (face_lines text).
  destruct (traverse (parse_vertex h) _) as [vs|e]; simpl; [|reflexivity].
  destruct (traverse (parse_face h) _) as [fs|e]; simpl; reflexivity.
Qed.

End Mesh.

Lemma Forall2_left {A B} (R : A -> B -> Prop) (P : A -> Prop)
    (l : list A) (k : list B) :
  (forall x y, R x y -> P x) -> Forall2 R l k -> Forall P l.
Proof. intros HR. induction 1; constructor; eauto. Qed.

Lemma array_of_rows_uniform (dt : dtype) (n : nat) (rows : list (list scalar)) :
  rows_of_length n rows ->
  exists arr,
    array_of_rows dt rows = Ok arr /\
    hd 0%nat (nd_shape arr) = length rows /\
    nd_data arr = concat rows.
Proof.
  intros Hn. destruct rows as [|r rs].
  - eexists. repeat apply conj; reflexivity.
  - unfold array_of_rows.
    replace (forallb (fun r' => Nat.eqb (length r') (length r)) rs) with true.
    + eexists. repeat apply conj; reflexivity.
    + symmetry. apply forallb_forall. intros r' Hr'.
      unfold rows_of_length in Hn. rewrite List.Forall_forall in Hn.
      rewrite (Hn r) by (left; reflexivity).
      rewrite (Hn r') by (right; exact Hr'). apply Nat.eqb_refl.
Qed.

Lemma array_of_rows_error (dt : dtype) (rows : list (list scalar)) (e : pyerr) :
  array_of_rows dt rows = Err e -> e = ValueError.
Proof.
  destruct rows as [|r rs]; simpl; [discriminate|].
  destruct (forallb _ rs); [discriminate|]. congruence.
Qed.

Lemma rows_follow_tokens {B} (n : nat) (lines : list string) (rows : list (list B)) :
  rows_of_length n (List.map tokens lines) ->
  Forall2 (fun line row => length row = length (tokens line)) lines rows ->
  rows_of_length n rows.
Proof.
  unfold rows_of_length. intros Hn H. induction H as [|line row lines rows Hl H IH].
  - constructor.
  - simpl in Hn. inversion Hn as [|? ? Hhd Htl]; subst.
    constructor; [congruence|]. apply IH. exact Htl.
Qed.

Section MeshFile.

Variable h : host.

Lemma read_coordinate_ok (tok : string) (x : float) :
  read_coordinate h tok = Ok x -> str_to_float h tok = Some x.
Proof.
  unfold read_coordinate. destruct (str_to_float h tok); simpl; congruence.
Qed.

Lemma read_index_ok (tok : string) (i : Z) :
  read_index h tok = Ok i -> str_to_int h (vertex_index tok) = Some i.
Proof.
  unfold read_index, vertex_index.
  destruct (str_to_int h _); simpl; congruence.
Qed.

Lemma parse_vertex_ok (line : string) (v : list float) :
  parse_vertex h line = Ok v -> floats_on h line v.
Proof.
  rewrite parse_vertex_unfold. intros H%traverse_inv.
  eapply Forall2_impl; [exact H|]. apply read_coordinate_ok.
Qed.

Lemma parse_face_ok (line : string) (f : list Z) :
  parse_face h line = Ok f -> indices_on h line f.
Proof.
  rewrite parse_face_unfold. intros H%traverse_inv.
  eapply Forall2_impl; [exact H|]. apply read_index_ok.
Qed.

Lemma parse_vertices_total (lines : list string) :
  Forall (fun line => Forall (fun tok => is_Some (str_to_float h tok)) (tokens line))
         lines ->
  exists vs, traverse (parse_vertex h) lines = Ok vs /\
             Forall2 (floats_on h) lines vs.
Proof.
  intros Hv.
  assert (Hok : is_ok (traverse (parse_vertex h) lines) = true).
  { apply traverse_total. intros line Hline.
    rewrite parse_vertex_unfold. apply traverse_total. intros tok Htok.
    rewrite List.Forall_forall in Hv. specialize (Hv line Hline).
    rewrite List.Forall_forall in Hv. destruct (Hv tok Htok) as [x Hx].
    unfold read_coordinate. rewrite Hx. reflexivity. }
  destruct (traverse (parse_vertex h) lines) as [vs|e] eqn:Hvs; [|discriminate Hok].
  exists vs. split; [reflexivity|].
  apply traverse_inv in Hvs. eapply Forall2_impl; [exact Hvs|]. apply parse_vertex_ok.
Qed.

Lemma parse_faces_total (lines : list string) :
  Forall (fun line =>
            Forall (fun tok => is_Some (str_to_int h (vertex_index tok))) (tokens line))
         lines ->
  exists fs, traverse (parse_face h) lines = Ok fs /\
             Forall2 (indices_on h) lines fs.
Proof.
  intros Hv.
  assert (Hok : is_ok (traverse (parse_face h) lines) = true).
  { apply traverse_total. intros line Hline.
    rewrite parse_face_unfold. apply traverse_total. intros tok Htok.
    rewrite List.Forall_forall in Hv. specialize (Hv line Hline).
    rewrite List.Forall_forall in Hv. destruct (Hv tok Htok) as [x Hx].
    unfold read_index. fold (vertex_index tok). rewrite Hx. reflexivity. }
  destruct (traverse (parse_face h) lines) as [fs|e] eqn:Hfs; [|discriminate Hok].
  exists fs. split; [reflexivity|].
  apply traverse_inv in Hfs. eapply Forall2_impl; [exact Hfs|]. apply parse_face_ok.
Qed.

Lemma parse_obj_file_error (file text : string) (e : pyerr) :
  open_text h file = Ok text ->
  parse_obj_file h file = Err e -> e = ValueError.
Proof.
  intros Hopen. rewrite (parse_obj_file_by_kind h file text Hopen).
  destruct (traverse (parse_vertex h) _) as [vs|e1] eqn:Hvs; simpl.
  - destruct (traverse (parse_face h) _) as [fs|e2] eqn:Hfs; simpl.
    + destruct (array_of_floats vs) as [v|e3] eqn:Hv; simpl.
      * destruct (array_of_ints fs) as [f|e4] eqn:Hf; simpl; [discriminate|].
        intros [= <-]. revert Hf. apply array_of_rows_error.
      * intros [= <-]. revert Hv. apply array_of_rows_error.
    + intros [= <-]. revert Hfs. apply traverse_err_kind.
      intros l e' _. apply parse_face_error.
  - intros [= <-]. revert Hvs. apply traverse_err_kind.
    intros l e' _. apply parse_vertex_error.
Qed.

End MeshFile.

Lemma split_nonempty (sep : ascii) (s : string) : split sep s <> [].
Proof.
  destruct s as [|c r]; simpl; [discriminate|].
  destruct (Ascii.eqb c sep); [discriminate|].
  destruct (split sep r); discriminate.
Qed.

Lemma split_join (sep : ascii) (s : string) :
  String.concat (String sep EmptyString) (split sep s) = s.
Proof.
  induction s as [|c r IH]; [reflexivity|]. simpl split.
  pose proof (split_nonempty sep r) as Hne.
  destruct (Ascii.eqb_spec c sep) as [->|Hc].
  - destruct (split sep r) as [|x xs]; [congruence|].
    simpl in *. rewrite IH. reflexivity.
  - destruct (split sep r) as [|x xs]; [congruence|].
    destruct xs as [|y ys]; simpl in *; rewrite <- IH; reflexivity.
Qed.

Lemma split_free (sep : ascii) (s : string) :
  Forall (fun tok => ~ In sep (list_ascii_of_string tok)) (split sep s).
Proof.
  induction s as [|c r IH]; simpl.
  - constructor; [intros []|constructor].
  - destruct (Ascii.eqb_spec c sep) as [->|Hc].
    + constructor; [intros []|exact IH].
    + destruct (split sep r) as [|x xs].
      * constructor; [|constructor]. simpl. intros [H|[]]. congruence.
      * apply List.Forall_cons_iff in IH as [Hx Hxs].
        constructor; [|exact Hxs]. simpl. intros [H|H]; [congruence|].
        exact (Hx H).
Qed.

Lemma ints_dtype_fit (zs : list Z) :
  forallb in_int64 zs = true ->
  ints_dtype zs = match zs with [] => np_bool | _ => np_int64 end.
Proof.
  induction zs as [|z zs IH]; [reflexivity|]. simpl.
  intros [Hz Hzs]%andb_prop. unfold int_dtype. rewrite Hz, (IH Hzs).
  destruct zs; reflexivity.
Qed.

(** Rows of ints that fit 64 bits make an int64 array of those ints. *)
Lemma array_of_ints_fit (rows : list (list Z)) :
  forallb in_int64 (concat rows) = true ->
  array_of_ints rows = array_of_rows np_int64 (List.map (List.map SInt) rows).
Proof.
  intros Hfit. unfold array_of_ints. rewrite (ints_dtype_fit _ Hfit).
  destruct (concat rows) as [|z zs] eqn:Hzs; [|reflexivity].
  replace (List.map (List.map (int_cell np_bool)) rows)
    with (List.map (List.map SInt) rows) by reflexivity.
  unfold array_of_rows. destruct rows as [|r rs]; [reflexivity|].
  rewrite <- concat_map, Hzs. reflexivity.
Qed.

Lemma indices_in_range (h : host) (lines : list string) (fs : list (list Z)) :
  Forall (fun line => Forall (fun tok => index_fits h tok = true) (tokens line))
         lines ->
  Forall2 (indices_on h) lines fs ->
  forallb in_int64 (concat fs) = true.
Proof.
  intros Hfit Hon. induction Hon as [|line f ls fs' Hf _ IH]; [reflexivity|].
  apply List.Forall_cons_iff in Hfit as [Hline Hfit].
  simpl. rewrite forallb_app, (IH Hfit), andb_true_r.
  clear -Hline Hf. unfold indices_on in Hf.
  induction Hf as [|tok z toks zs Hz _ IH]; [reflexivity|].
  apply List.Forall_cons_iff in Hline as [Htok Hline].
  simpl. rewrite (IH Hline), andb_true_r.
  unfold index_fits in Htok. rewrite Hz in Htok. exact Htok.
Qed.

(** C7 (amended): for a well-formed mesh text the parser returns one
    vertex per ["v "] line and one face per ["f "] line, in file order; a
    vertex is the list of floats on its line and a face the integers
    before the first ["/"] of its groups, in an int64 array; the tokens of
    a line are the pieces between single spaces (joined by single spaces
    they give back the text after the prefix, and none holds a space);
    lines with another prefix do not matter (two texts with the same
    ["v "] and ["f "] lines parse alike). *)
Theorem parse_obj_file_well_formed (h : host) (file text : string) :
  open_text h file = Ok text ->
  well_formed h text ->
  (exists vertices faces varr farr,
     parse_obj_file h file = Ok (varr, farr) /\
     array_of_floats vertices = Ok varr /\
     array_of_ints faces = Ok farr /\
     hd 0%nat (nd_shape varr) = length (vertex_lines text) /\
     hd 0%nat (nd_shape farr) = length (face_lines text) /\
     length vertices = length (vertex_lines text) /\
     length faces = length (face_lines text) /\
     nd_data varr = List.map SFloat (concat vertices) /\
     nd_data farr = List.map SInt (concat faces) /\
     (face_lines text <> [] -> nd_dtype farr = np_int64) /\
     Forall2 (floats_on h) (vertex_lines text) vertices /\
     Forall2 (indices_on h) (face_lines text) faces) /\
  (forall line,
     String.concat " " (tokens line) = drop_str 2 line /\
     Forall (fun tok => ~ In " "%char (list_ascii_of_string tok))
            (tokens line)) /\
  (forall file' text',
     open_text h file' = Ok text' ->
     vertex_lines text' = vertex_lines text ->
     face_lines text' = face_lines text ->
     parse_obj_file h file' = parse_obj_file h file).
Proof.
  intros Hopen ((Hvalid_v & Hvalid_f) & Hfit & Huni_v & Huni_f).
  repeat apply conj.
  - destruct (parse_vertices_total h _ Hvalid_v) as (vs & Hvs & Hfloats).
    destruct (parse_faces_total h _ Hvalid_f) as (fs & Hfs & Hindices).
    pose proof (indices_in_range h _ _ Hfit Hindices) as Hrange.
    assert (Hrows_v : rows_of_length
              (length (hd [] (List.map tokens (vertex_lines text))))
              (List.map (List.map SFloat) vs)).
    { apply (rows_follow_tokens _ (vertex_lines text)); [exact Huni_v|].
      clear -Hfloats. induction Hfloats as [|line v ls vs' Hv _ IH]; simpl;
        constructor; [|exact IH].
      rewrite length_map. symmetry. exact (Forall2_length _ _ _ Hv). }
    assert (Hrows_f : rows_of_length
              (length (hd [] (List.map tokens (face_lines text))))
              (List.map (List.map SInt) fs)).
    { apply (rows_follow_tokens _ (face_lines text)); [exact Huni_f|].
      clear -Hindices. induction Hindices as [|line f ls fs' Hf _ IH]; simpl;
        constructor; [|exact IH].
      rewrite length_map. symmetry. exact (Forall2_length _ _ _ Hf). }
    destruct (array_of_rows_uniform np_float64 _ _ Hrows_v)
      as (varr & Hvarr & Hvdim & Hvdata).
    destruct (array_of_rows_uniform np_int64 _ _ Hrows_f)
      as (farr & Hfarr & Hfdim & Hfdata).
    exists vs, fs, varr, farr.
    rewrite (parse_obj_file_by_kind h file text Hopen), Hvs, Hfs.
    unfold array_of_floats.
    cbv beta iota delta [bind]. rewrite Hvarr.
    rewrite !(array_of_ints_fit fs Hrange), Hfarr.
    rewrite Hvdim, Hfdim, Hvdata, Hfdata, !length_map, <- !concat_map.
    rewrite <- (Forall2_length _ _ _ Hfloats), <- (Forall2_length _ _ _ Hindices).
    repeat apply conj; try reflexivity; try assumption.
    intros Hlines.
    destruct Hindices as [|line f ls fs' Hf _]; [congruence|].
    pose proof (Forall2_length _ _ _ Hf) as Hlen. unfold tokens in Hlen.
    simpl in Hfarr.
    destruct (forallb _ (List.map (List.map SInt) fs')); [|discriminate Hfarr].
    injection Hfarr as <-. simpl.
    destruct f as [|z zs]; [|reflexivity].
    pose proof (split_nonempty " " (drop_str 2 line)) as Hne.
    destruct (split " " (drop_str 2 line)); [congruence|discriminate Hlen].
  - intros line. split; [apply split_join|apply split_free].
  - intros file' text' Hopen' Hv Hf.
    rewrite (parse_obj_file_by_kind h file text Hopen).
    rewrite (parse_obj_file_by_kind h file' text' Hopen'), Hv, Hf. reflexivity.
Qed.

Lemma parse_obj_file_well_formed_witness :
  (exists vertices faces varr farr,
     parse_obj_file Sample.world "/pix3d/model/bed/model.obj" = Ok (varr, farr) /\
     array_of_floats vertices = Ok varr /\
     array_of_ints faces = Ok farr /\
     hd 0%nat (nd_shape varr) = length (vertex_lines Sample.mesh_text) /\
     hd 0%nat (nd_shape farr) = length (face_lines Sample.mesh_text) /\
     length vertices = length (vertex_lines Sample.mesh_text) /\
     length faces = length (face_lines Sample.mesh_text) /\
     nd_data varr = List.map SFloat (concat vertices) /\
     nd_data farr = List.map SInt (concat faces) /\
     (face_lines Sample.mesh_text <> [] -> nd_dtype farr = np_int64) /\
     Forall2 (floats_on Sample.world) (vertex_lines Sample.mesh_text) vertices /\
     Forall2 (indices_on Sample.world) (face_lines Sample.mesh_text) faces) /\
  parse_obj_file Sample.world "/pix3d/model/bed/model.obj" =
    Ok (mk_ndarray np_float64 [3; 3]%nat
          (List.map SFloat [0; 0; 0; 1; 0; 0; 0; 1.5; -2.25]%float),
        mk_ndarray np_int64 [1; 3]%nat (List.map SInt [1; 2; 3])) /\
  List.map tokens (face_lines Sample.mesh_text) =
    [["1/1/1"; "2/2/1"; ("3/3/1" ++ String newline "")%string]].
Proof.
  split; [|split; vm_compute; reflexivity].
  refine (proj1 (parse_obj_file_well_formed Sample.world
                   "/pix3d/model/bed/model.obj" Sample.mesh_text eq_refl _)).
  unfold well_formed, tokens_valid, indices_fit, uniform, rows_of_length.
  apply (bool_decide_unpack _). vm_compute. exact I.
Defined.

(** C7 (as stated, refuted): the groups of a face line are not the pieces
    between runs of whitespace.  On a line whose first two groups are
    separated by a tab the text is well-formed, its three
    whitespace-separated groups start with 1, 2 and 3, and the returned
    face holds 1 and 3 only. *)
Lemma parse_obj_file_tab_separated :
  face_lines tab_mesh_text = [tab_face_line] /\
  well_formed (host_with_text tab_mesh_text) tab_mesh_text /\
  List.map (fun group => str_to_int (host_with_text tab_mesh_text)
                                    (vertex_index group))
           (whitespace_groups tab_face_line) = [Some 1; Some 2; Some 3] /\
  exists varr farr,
    parse_obj_file (host_with_text tab_mesh_text) "model.obj" = Ok (varr, farr) /\
    nd_shape farr = [1; 2]%nat /\
    nd_data farr = [SInt 1; SInt 3] /\
    nd_data farr <> List.map SInt [1; 2; 3].
Proof.
  split; [vm_compute; reflexivity|].
  split.
  { unfold well_formed, tokens_valid, indices_fit, uniform, rows_of_length.
    apply (bool_decide_unpack _). vm_compute. exact I. }
  split; [vm_compute; reflexivity|].
  eexists. eexists. split; [vm_compute; reflexivity|].
  repeat apply conj; [reflexivity|reflexivity|discriminate].
Qed.



(** ** The record assembler *)

Lemma lookup_key_ok (image : gmap string pyval) (k : string) (v : pyval) :
  lookup_key image k = Ok v -> image !! k = Some v.
Proof. unfold lookup_key. destruct (image !! k); simpl; congruence. Qed.

(** One step through the assembler's chain of [let*]. *)
Ltac assemble_step H :=
  lazymatch type of H with
  | bind _ _ = Ok _ =>
      let x := fresh "x" in
      let E := fresh "E" in
      apply bind_ok in H as (x & E & H); cbv beta zeta in H
  | (let (_, _) := ?p in _) = Ok _ => destruct p
  end.

(** What a successful run of lines 163-233 leaves in the [feature_dict]. *)
Lemma assemble_feature_dict_inv (h : host) (image : gmap string pyval)
    (d : gmap string entry) :
  assemble_feature_dict h image = Ok d ->
  exists img_size img_height img_width focal_length category w32 i0 i1 i2,
    image !! "img_size" = Some img_size /\
    getitem img_size 0 = Ok img_height /\
    getitem img_size 1 = Ok img_width /\
    image !! "focal_length" = Some focal_length /\
    image !! "category" = Some category /\
    truediv img_width (PyInt 32) = Ok w32 /\
    mul_float focal_length w32 = Ok i0 /\
    truediv img_width (PyInt 2) = Ok i1 /\
    truediv img_height (PyInt 2) = Ok i2 /\
    d !! "camera/intrinstic_mat" =
      Some (Feat (FloatList (List.map to_float32 [i0; i1; i2]))) /\
    d !! "image/object/class/label" = Some (Obj category) /\
    d !! "image/object/is_crowd" = Some (Feat (Int64List [0])).
Proof.
  intros H. unfold assemble_feature_dict in H. cbv zeta in H.
  repeat assemble_step H.
  injection H as <-.
  match goal with E : lookup_key image "img_size" = Ok ?s,
                  E0 : getitem ?s 0 = Ok ?ih,
                  E1 : lookup_key image "img_size" = Ok ?s',
                  E2 : getitem ?s' 1 = Ok ?iw,
                  E3 : lookup_key image "focal_length" = Ok ?fl,
                  E4 : lookup_key image "category" = Ok ?cat,
                  E5 : truediv ?iw (PyInt 32) = Ok ?w32,
                  E6 : mul_float ?fl ?w32 = Ok ?i0,
                  E7 : truediv ?iw (PyInt 2) = Ok ?i1,
                  E8 : truediv ?ih (PyInt 2) = Ok ?i2,
                  E9 : convert_to_feature (PyList [PyFloat ?i0; PyFloat ?i1; PyFloat ?i2]) None = Ok ?feat,
                  E10 : convert_to_feature (PyList [PyInt 0]) None = Ok ?crowd
        |- _ =>
    exists s, ih, iw, fl, cat, w32, i0, i1, i2;
    apply lookup_key_ok in E, E1, E3, E4;
    assert (s' = s) as -> by congruence;
    change (PyList [PyFloat i0; PyFloat i1; PyFloat i2])
      with (PyList (List.map PyFloat (i0 :: [i1; i2]))) in E9;
    rewrite convert_float_list in E9; injection E9 as <-;
    injection E10 as <-
  end.
  repeat apply conj; try assumption.
  - repeat (rewrite lookup_insert_ne by discriminate). apply lookup_insert_eq.
  - repeat (rewrite lookup_insert_ne by discriminate). apply lookup_insert_eq.
  - apply lookup_insert_eq.
Qed.

Lemma is_ok_exists {A} (r : result A) : is_ok r = true -> exists a, r = Ok a.
Proof. destruct r as [a|e]; [eauto|discriminate]. Qed.

Lemma make_example_refuses (d : gmap string entry) (k : string) (v : pyval) :
  d !! k = Some (Obj v) -> make_example d = Err TypeError.
Proof.
  intros Hk. unfold make_example.
  destruct (decide _) as [Hall|]; [|reflexivity].
  specialize (Hall k (Obj v) Hk). discriminate Hall.
Qed.

(** The class label is stored as the annotation's value itself, so building
    the Example from the dictionary always raises. *)
Lemma create_tf_example_never_returns (h : host) (image : gmap string pyval) :
  is_ok (create_tf_example h image) = false.
Proof.
  unfold create_tf_example.
  destruct (assemble_feature_dict h image) as [d|e] eqn:Hd; [|reflexivity].
  apply assemble_feature_dict_inv in Hd
    as (? & ? & ? & ? & category & ? & ? & ? & ? & _ & _ & _ & _ & _ & _ & _ & _ & _ & _ & Hlabel & _).
  simpl. rewrite (make_example_refuses d _ category Hlabel). reflexivity.
Qed.

(** C1 (the code at the failing input): for the sample annotation with
    category 3 the assembled dictionary holds the bare value 3 under
    ['image/object/class/label'], not an int64 feature (the sibling field
    ['image/object/is_crowd'] does hold one), and [create_tf_example]
    raises TypeError; it returns for no annotation at all. *)
Theorem class_label_stored_raw :
  assembled_entry
    (assemble_feature_dict Sample.world
       (Sample.annotation (PyInt 3) (PyFloat 36) 2016 1512))
    "image/object/class/label" = Ok (Some (Obj (PyInt 3))) /\
  assembled_entry
    (assemble_feature_dict Sample.world
       (Sample.annotation (PyInt 3) (PyFloat 36) 2016 1512))
    "image/object/is_crowd" = Ok (Some (Feat (Int64List [0]))) /\
  create_tf_example Sample.world
    (Sample.annotation (PyInt 3) (PyFloat 36) 2016 1512) = Err TypeError /\
  (forall h image, is_ok (create_tf_example h image) = false).
Proof.
  repeat apply conj.
  - vm_compute. reflexivity.
  - vm_compute. reflexivity.
  - vm_compute. reflexivity.
  - apply create_tf_example_never_returns.
Qed.

(** C10: for an annotation with focal length f, image width W and height
    H, the dictionary assembled for the Example holds under
    ['camera/intrinstic_mat'] the float (binary32) list of
    [f * (W/32)], [W/2] and [H/2]; for W = 1512, H = 2016 and f = 36.0
    it is [1701.0, 756.0, 1008.0]. *)
Theorem camera_intrinsics (h : host) (image : gmap string pyval)
    (d : gmap string entry) (H W : Z) (focal : pyval) (f : float) :
  image !! "img_size" = Some (PyList [PyInt H; PyInt W]) ->
  image !! "focal_length" = Some focal ->
  number_value focal = Some f ->
  assemble_feature_dict h image = Ok d ->
  (exists w32 half_w half_h,
     int_truediv W 32 = Ok w32 /\
     int_truediv W 2 = Ok half_w /\
     int_truediv H 2 = Ok half_h /\
     d !! "camera/intrinstic_mat" =
       Some (Feat (FloatList [to_float32 (f * w32); to_float32 half_w;
                              to_float32 half_h]))) /\
  (W = 1512 -> H = 2016 -> f = 36%float ->
   d !! "camera/intrinstic_mat" =
     Some (Feat (FloatList [1701; 756; 1008]%float))).
Proof.
  intros Hsize Hfocal Hf Hd.
  apply assemble_feature_dict_inv in Hd
    as (img_size & img_height & img_width & focal_length & category &
        w32 & i0 & i1 & i2 & Hs & Hh & Hw & Hfl & _ & Hw32 & Hi0 & Hi1 & Hi2 &
        Hmat & _ & _).
  rewrite Hsize in Hs. injection Hs as <-.
  rewrite Hfocal in Hfl. injection Hfl as <-.
  simpl in Hh, Hw. injection Hh as <-. injection Hw as <-.
  change (truediv (PyInt W) (PyInt 32)) with (int_truediv W 32) in Hw32.
  change (truediv (PyInt W) (PyInt 2)) with (int_truediv W 2) in Hi1.
  change (truediv (PyInt H) (PyInt 2)) with (int_truediv H 2) in Hi2.
  assert (Hprod : i0 = (f * w32)%float).
  { destruct focal; try discriminate Hf; simpl in Hf, Hi0.
    - destruct (float_of_int z); [|discriminate Hf].
      simpl in Hi0. congruence.
    - congruence. }
  subst i0. split.
  - exists w32, i1, i2. repeat apply conj; assumption.
  - intros -> -> ->. rewrite Hmat.
    vm_compute in Hw32, Hi1, Hi2.
    injection Hw32 as <-. injection Hi1 as <-. injection Hi2 as <-.
    reflexivity.
Qed.

Lemma camera_intrinsics_witness :
  exists d,
    assemble_feature_dict Sample.world
      (Sample.annotation (PyInt 3) (PyFloat 36) 2016 1512) = Ok d /\
    d !! "camera/intrinstic_mat" = Some (Feat (FloatList [1701; 756; 1008]%float)).
Proof.
  destruct (is_ok_exists
              (assemble_feature_dict Sample.world
                 (Sample.annotation (PyInt 3) (PyFloat 36) 2016 1512)))
    as [d Hd]; [vm_compute; reflexivity|].
  exists d. split; [exact Hd|].
  refine (proj2 (camera_intrinsics Sample.world
                   (Sample.annotation (PyInt 3) (PyFloat 36) 2016 1512)
                   d 2016 1512 (PyFloat 36) 36%float _ _ eq_refl Hd)
            eq_refl eq_refl eq_refl); vm_compute; reflexivity.
Defined.

(** * Further properties *)

(** ** The annotation generator *)

Lemma traverse_ok_length {A B} (f : A -> result B) (l : list A) (ys : list B) :
  traverse f l = Ok ys -> length ys = length l.
Proof. intros H%traverse_inv. symmetry. exact (Forall2_length _ _ _ H). Qed.

Lemma generate_from_traverse (id : nat) (records : list (gmap string pyval))
    (dir : string) (acc : list (gmap string pyval)) :
  generate_from id records dir acc =
  let* anns :=
    traverse (fun p => annotation_of (fst p) (snd p) dir)
             (combine (seq id (length records)) records) in
  Ok (acc ++ anns).
Proof.
  revert id acc. induction records as [|info rest IH]; intros id acc; simpl.
  - rewrite app_nil_r. reflexivity.
  - destruct (annotation_of id info dir) as [a|e]; simpl; [|reflexivity].
    rewrite IH. destruct (traverse _ _) as [anns|e]; simpl; [|reflexivity].
    rewrite <- app_assoc. reflexivity.
Qed.

Lemma copy_keys_inv (info : gmap string pyval) (keys : list string)
    (copied : list (string * pyval)) :
  traverse (fun k => let* v := lookup_key info k in Ok (k, v)) keys = Ok copied ->
  copied.*1 = keys /\
  (forall k v, (k, v) ∈ copied -> info !! k = Some v).
Proof.
  revert copied. induction keys as [|k keys IH]; simpl; intros copied H.
  - injection H as <-. split; [reflexivity|]. intros k v Hin. inversion Hin.
  - apply bind_ok in H as (kv & Hkv & H).
    apply bind_ok in H as (rest & Hrest & H). injection H as <-.
    apply bind_ok in Hkv as (v & Hv%lookup_key_ok & Hkv). injection Hkv as <-.
    destruct (IH rest Hrest) as [Hfst Hin]. split.
    + rewrite fmap_cons. simpl. f_equal. exact Hfst.
    + intros k' v' [[= -> ->]|Hin']%elem_of_cons; [exact Hv|apply Hin; exact Hin'].
Qed.

Lemma copied_keys_distinct : NoDup copied_keys.
Proof. apply (bool_decide_unpack _). vm_compute. exact I. Qed.

(** What one generated annotation holds. *)
Lemma annotation_of_inv (id : nat) (info : gmap string pyval) (dir : string)
    (a : gmap string pyval) :
  annotation_of id info dir = Ok a ->
  complete_record info /\
  a !! "image_id" = Some (PyInt (Z.of_nat id)) /\
  a !! "pix3d_dir" = Some (PyStr dir) /\
  (forall k, In k copied_keys -> a !! k = info !! k) /\
  (forall k, is_Some (a !! k) ->
     k = "image_id" \/ k = "pix3d_dir" \/ In k copied_keys).
Proof.
  unfold annotation_of. intros H. apply bind_ok in H as (copied & Hc & H).
  injection H as <-. destruct (copy_keys_inv _ _ _ Hc) as [Hfst Hin].
  assert (Hnd : NoDup copied.*1) by (rewrite Hfst; apply copied_keys_distinct).
  assert (Hcopied : forall k, In k copied_keys ->
            exists v, (k, v) ∈ copied /\ info !! k = Some v).
  { intros k Hk. rewrite <- Hfst in Hk. apply list_elem_of_In in Hk.
    apply list_elem_of_fmap in Hk as ([k' v] & -> & Hkv).
    exists v. split; [exact Hkv|apply Hin; exact Hkv]. }
  assert (Hfresh : forall k, In k copied_keys -> k <> "image_id" /\ k <> "pix3d_dir").
  { intros k Hk. split; intros ->; revert Hk; apply (bool_decide_unpack _);
      vm_compute; exact I. }
  repeat apply conj.
  - apply List.Forall_forall. intros k Hk.
    destruct (Hcopied k Hk) as (v & _ & Hv). exists v. exact Hv.
  - rewrite lookup_insert_ne by discriminate. apply lookup_insert_eq.
  - apply lookup_insert_eq.
  - intros k Hk. destruct (Hfresh k Hk) as [Hid Hdir].
    rewrite !lookup_insert_ne by congruence.
    destruct (Hcopied k Hk) as (v & Hkv & ->).
    apply elem_of_list_to_map; assumption.
  - intros k Hsome.
    destruct (decide (k = "pix3d_dir")) as [->|Hdir]; [auto|].
    destruct (decide (k = "image_id")) as [->|Hid]; [auto|].
    rewrite !lookup_insert_ne in Hsome by congruence.
    right. right. destruct Hsome as [v Hv].
    apply elem_of_list_to_map in Hv; [|exact Hnd].
    rewrite <- Hfst. apply list_elem_of_In.
    apply list_elem_of_fmap. exists (k, v). split; [reflexivity|exact Hv].
Qed.

Lemma annotation_of_total (id : nat) (info : gmap string pyval) (dir : string) :
  complete_record info -> is_ok (annotation_of id info dir) = true.
Proof.
  intros Hall. unfold annotation_of.
  assert (Hok : is_ok (traverse
            (fun k => let* v := lookup_key info k in Ok (k, v)) copied_keys) = true).
  { apply traverse_total. intros k Hk.
    unfold complete_record in Hall. rewrite List.Forall_forall in Hall.
    destruct (Hall k Hk) as [v Hv]. unfold lookup_key. rewrite Hv. reflexivity. }
  destruct (traverse _ copied_keys); [reflexivity|discriminate Hok].
Qed.

Lemma annotation_of_error (id : nat) (info : gmap string pyval) (dir : string)
    (e : pyerr) :
  annotation_of id info dir = Err e -> e = KeyError.
Proof.
  unfold annotation_of.
  destruct (traverse _ copied_keys) as [c|e'] eqn:Hc; simpl; [discriminate|].
  intros [= <-]. revert Hc. apply traverse_err_kind.
  intros k e'' _. unfold lookup_key. destruct (info !! k); simpl; congruence.
Qed.

Lemma lookup_combine_seq {A} (l : list A) (id i : nat) (x : A) :
  l !! i = Some x -> combine (seq id (length l)) l !! i = Some ((id + i)%nat, x).
Proof.
  revert id i. induction l as [|y l IH]; intros id i H; [discriminate H|].
  destruct i as [|i]; simpl in *.
  - injection H as ->. rewrite Nat.add_0_r. reflexivity.
  - rewrite (IH (S id) i H). f_equal. f_equal. lia.
Qed.

(** X1: from an annotation index whose records all have the twenty copied
    keys, [generate_annotations] makes one annotation per record, in
    order; the i-th has [image_id] i, the given [pix3d_dir], the record's
    values under the copied keys and no other key, so it has every key
    that [create_tf_example] reads. *)
Theorem generate_annotations_complete (records : list (gmap string pyval))
    (dir : string) :
  Forall complete_record records ->
  exists annotations,
    generate_annotations records dir = Ok annotations /\
    length annotations = length records /\
    forall i info, records !! i = Some info ->
      exists a,
        annotations !! i = Some a /\
        a !! "image_id" = Some (PyInt (Z.of_nat i)) /\
        a !! "pix3d_dir" = Some (PyStr dir) /\
        (forall k, In k copied_keys -> a !! k = info !! k) /\
        (forall k, is_Some (a !! k) ->
           k = "image_id" \/ k = "pix3d_dir" \/ In k copied_keys) /\
        Forall (fun k => is_Some (a !! k)) assembler_keys.
Proof.
  intros Hall. unfold generate_annotations. rewrite generate_from_traverse.
  assert (Hok : is_ok (traverse (fun p => annotation_of (fst p) (snd p) dir)
                         (combine (seq 0 (length records)) records)) = true).
  { apply traverse_total. intros [i info] Hin. simpl.
    apply annotation_of_total. apply in_combine_r in Hin.
    rewrite List.Forall_forall in Hall. apply Hall. exact Hin. }
  destruct (traverse _ _) as [anns|e] eqn:Hanns; [|discriminate Hok].
  exists anns. simpl. split; [reflexivity|].
  pose proof (traverse_inv _ _ _ Hanns) as Hrel.
  split.
  - rewrite <- (Forall2_length _ _ _ Hrel), length_combine, length_seq. lia.
  - intros i info Hi.
    pose proof (lookup_combine_seq records 0 i info Hi) as Hci.
    destruct (Forall2_lookup_l _ _ _ _ _ Hrel Hci) as (a & Ha & Hgen).
    simpl in Hgen.
    apply annotation_of_inv in Hgen as (Hrec & Hid & Hdir & Hcopy & Hdom).
    exists a. repeat apply conj; try assumption.
    apply List.Forall_forall. intros k Hk.
    assert (Hcases : k = "image_id" \/ k = "pix3d_dir" \/ In k copied_keys).
    { revert Hk. clear. unfold assembler_keys, copied_keys. simpl.
      intuition (subst; auto 30). }
    destruct Hcases as [->|[->|Hk']]; [eauto|eauto|].
    rewrite (Hcopy k Hk'). unfold complete_record in Hrec.
    rewrite List.Forall_forall in Hrec. apply Hrec. exact Hk'.
Qed.

Lemma generate_annotations_complete_witness :
  exists annotations,
    generate_annotations Demo.index "/pix3d" = Ok annotations /\
    length annotations = length Demo.index /\
    forall i info, Demo.index !! i = Some info ->
      exists a,
        annotations !! i = Some a /\
        a !! "image_id" = Some (PyInt (Z.of_nat i)) /\
        a !! "pix3d_dir" = Some (PyStr "/pix3d") /\
        (forall k, In k copied_keys -> a !! k = info !! k) /\
        (forall k, is_Some (a !! k) ->
           k = "image_id" \/ k = "pix3d_dir" \/ In k copied_keys) /\
        Forall (fun k => is_Some (a !! k)) assembler_keys.
Proof.
  apply (generate_annotations_complete Demo.index "/pix3d").
  unfold complete_record. apply (bool_decide_unpack _). vm_compute. exact I.
Defined.

Lemma generate_annotations_error (records : list (gmap string pyval))
    (dir : string) (e : pyerr) :
  generate_annotations records dir = Err e -> e = KeyError.
Proof.
  unfold generate_annotations. rewrite generate_from_traverse.
  destruct (traverse _ _) as [anns|e'] eqn:Hanns; simpl; [discriminate|].
  intros [= <-]. revert Hanns. apply traverse_err_kind.
  intros p e'' _. apply annotation_of_error.
Qed.

Lemma generate_annotations_fails (records : list (gmap string pyval))
    (dir : string) :
  (exists info k, In info records /\ In k copied_keys /\ info !! k = None) ->
  generate_annotations records dir = Err KeyError.
Proof.
  intros (info & k & Hinfo & Hk & Hnone).
  apply result_cases; [apply generate_annotations_error|].
  unfold generate_annotations. rewrite generate_from_traverse.
  assert (Hfail : is_ok (traverse (fun p => annotation_of (fst p) (snd p) dir)
                           (combine (seq 0 (length records)) records)) = false).
  { apply In_nth_error in Hinfo as [i Hi].
    assert (Hi' : records !! i = Some info).
    { rewrite <- Hi. clear. revert i.
      induction records; intros [|i]; simpl; auto. }
    pose proof (lookup_combine_seq records 0 i info Hi') as Hci.
    apply (traverse_fails _ _ ((0 + i)%nat, info)).
    - apply list_elem_of_In. apply (list_elem_of_lookup_2 _ i). exact Hci.
    - simpl. destruct (annotation_of i info dir) as [a|e] eqn:Ha; [|reflexivity].
      apply annotation_of_inv in Ha as (Hrec & _).
      unfold complete_record in Hrec. rewrite List.Forall_forall in Hrec.
      destruct (Hrec k Hk) as [v Hv]. congruence. }
  destruct (traverse _ _); [discriminate Hfail|reflexivity].
Qed.

(** X2: [generate_annotations] raises exactly when some record of the
    index lacks one of the copied keys, and what it raises is KeyError. *)
Theorem generate_annotations_missing_key (records : list (gmap string pyval))
    (dir : string) :
  ((exists info k, In info records /\ In k copied_keys /\ info !! k = None) <->
   generate_annotations records dir = Err KeyError) /\
  (forall e, generate_annotations records dir = Err e -> e = KeyError).
Proof.
  split; [|apply generate_annotations_error].
  split; [apply generate_annotations_fails|].
  unfold generate_annotations. rewrite generate_from_traverse.
  intros H.
  destruct (traverse _ _) as [anns|e] eqn:Hanns; simpl in H; [discriminate H|].
  clear H. revert Hanns. generalize 0%nat.
  induction records as [|info rest IH]; intros id Hanns; simpl in Hanns;
    [discriminate Hanns|].
  destruct (annotation_of id info dir) as [a|e'] eqn:Ha; simpl in Hanns.
  - destruct (traverse _ _) as [anns|e''] eqn:Hrest; simpl in Hanns;
      [discriminate Hanns|].
    injection Hanns as ->.
    destruct (IH (S id) Hrest) as (info' & k & Hin & Hk & Hnone).
    exists info', k. split; [right; exact Hin|]. split; assumption.
  - destruct (decide (complete_record info)) as [Hrec|Hrec].
    + pose proof (annotation_of_total id info dir Hrec) as Hok.
      rewrite Ha in Hok. discriminate Hok.
    + unfold complete_record in Hrec.
      apply not_Forall_Exists in Hrec; [|intros k; apply _].
      apply List.Exists_exists in Hrec as (k & Hk & Hnone).
      exists info, k. split; [left; reflexivity|]. split; [exact Hk|].
      destruct (info !! k) eqn:Hik; [|reflexivity].
      contradiction Hnone. eauto.
Qed.

Lemma generate_annotations_missing_key_witness :
  generate_annotations Demo.broken_index "/pix3d" = Err KeyError.
Proof.
  apply (proj1 (proj1 (generate_annotations_missing_key Demo.broken_index "/pix3d"))).
  exists (delete "voxel" (Demo.index_record "img/bed/0002.png")), "voxel".
  repeat apply conj.
  - right. left. reflexivity.
  - unfold copied_keys. simpl. auto 30.
  - apply lookup_delete_eq.
Defined.

(** ** The conversion driver *)

(** X3: when a record of the annotation index lacks a copied key,
    [_create_tf_record_from_pix3d_dir] raises KeyError whatever the record
    writer would do: all annotations are generated before the writer is
    called, so nothing is written. *)
Theorem create_tf_record_aborts (h : host) (r : driver)
    (dir output_path : string) (num_shards : Z) (json : string)
    (records : list (gmap string pyval)) :
  json_load r (path_join dir json) = Ok records ->
  (exists info k, In info records /\ In k copied_keys /\ info !! k = None) ->
  create_tf_record_from_pix3d_dir h r dir output_path num_shards json =
  Err KeyError.
Proof.
  intros Hload Hmissing. unfold create_tf_record_from_pix3d_dir.
  rewrite Hload. simpl bind at 1.
  rewrite (generate_annotations_fails records dir Hmissing). reflexivity.
Qed.

Lemma create_tf_record_aborts_witness :
  create_tf_record_from_pix3d_dir Sample.world
    (Demo.driver_for Demo.broken_index) "/pix3d" "/tmp/train" 32 "pix3d.json" = Err KeyError.
Proof.
  apply (create_tf_record_aborts Sample.world
           (Demo.driver_for Demo.broken_index) "/pix3d" "/tmp/train" 32
           "pix3d.json" Demo.broken_index eq_refl).
  exists (delete "voxel" (Demo.index_record "img/bed/0002.png")), "voxel".
  repeat apply conj.
  - right. left. reflexivity.
  - unfold copied_keys. simpl. auto 30.
  - apply lookup_delete_eq.
Defined.

(** ** The record assembler, step by step *)

Lemma as_str_ok (v : pyval) (s : string) : as_str v = Ok s -> v = PyStr s.
Proof. destruct v; simpl; congruence. Qed.

Ltac assemble_named H x E :=
  apply bind_ok in H as (x & E & H); cbv beta zeta in H.

(** Every step of a successful run of lines 163-233, and the dictionary
    it ends with. *)
Lemma assemble_feature_dict_trace (h : host) (image : gmap string pyval)
    (d : gmap string entry) :
  assemble_feature_dict h image = Ok d ->
  exists img_size img_height img_width img_id dir img_name mask_name
         model_name voxel_name encoded_img info encoded_mask
         model_vertices model_faces voxel_indices voxel_shape
         rot_mat trans_mat focal_length w32 i0 i1 i2 bbox b0 b1 b2 b3
         f0 f1 f2 f3 xmin ymin xmax ymax category
         mask_feature vertices_feature faces_feature indices_feature
         shape_feature rot_feature trans_feature intrinsic_feature
         xmin_feature ymin_feature xmax_feature ymax_feature crowd_feature,
    (image !! "img_size" = Some img_size /\
     getitem img_size 0 = Ok img_height /\
     getitem img_size 1 = Ok img_width /\
     image !! "img" = Some (PyStr img_name) /\
     image !! "image_id" = Some img_id /\
     image !! "pix3d_dir" = Some (PyStr dir) /\
     image !! "mask" = Some (PyStr mask_name) /\
     image !! "model" = Some (PyStr model_name) /\
     image !! "voxel" = Some (PyStr voxel_name) /\
     image !! "rot_mat" = Some rot_mat /\
     image !! "trans_mat" = Some trans_mat /\
     image !! "focal_length" = Some focal_length /\
     image !! "bbox" = Some bbox /\
     image !! "category" = Some category) /\
    (read_binary h (path_join dir img_name) = Ok encoded_img /\
     image_info_to_feature_dict h img_height img_width (PyStr img_name) img_id
       encoded_img (image_format img_name) = Ok info /\
     read_binary h (path_join dir mask_name) = Ok encoded_mask /\
     parse_obj_file h (path_join dir model_name) = Ok (model_vertices, model_faces) /\
     parse_voxel_file h (path_join dir voxel_name) = Ok (voxel_indices, voxel_shape)) /\
    (truediv img_width (PyInt 32) = Ok w32 /\
     mul_float focal_length w32 = Ok i0 /\
     truediv img_width (PyInt 2) = Ok i1 /\
     truediv img_height (PyInt 2) = Ok i2 /\
     unpack4 bbox = Ok (b0, b1, b2, b3) /\
     to_float h b0 = Ok f0 /\ truediv (PyFloat f0) img_width = Ok xmin /\
     to_float h b1 = Ok f1 /\ truediv (PyFloat f1) img_height = Ok ymin /\
     to_float h b2 = Ok f2 /\ truediv (PyFloat f2) img_width = Ok xmax /\
     to_float h b3 = Ok f3 /\ truediv (PyFloat f3) img_height = Ok ymax) /\
    (convert_to_feature (PyBytes encoded_mask) None = Ok mask_feature /\
     convert_to_feature (PyNdarray model_vertices) None = Ok vertices_feature /\
     convert_to_feature (PyNdarray model_faces) None = Ok faces_feature /\
     convert_to_feature (PyNdarray voxel_indices) None = Ok indices_feature /\
     convert_to_feature (shape_value voxel_shape) None = Ok shape_feature /\
     convert_to_feature rot_mat None = Ok rot_feature /\
     convert_to_feature trans_mat None = Ok trans_feature /\
     convert_to_feature (PyList [PyFloat i0; PyFloat i1; PyFloat i2]) None =
       Ok intrinsic_feature /\
     convert_to_feature (PyList [PyFloat xmin]) None = Ok xmin_feature /\
     convert_to_feature (PyList [PyFloat ymin]) None = Ok ymin_feature /\
     convert_to_feature (PyList [PyFloat xmax]) None = Ok xmax_feature /\
     convert_to_feature (PyList [PyFloat ymax]) None = Ok ymax_feature /\
     convert_to_feature (PyList [PyInt 0]) None = Ok crowd_feature) /\
    d = <["image/object/is_crowd" := Feat crowd_feature]>
          (<["image/object/class/label" := Obj category]>
             (<["image/object/bbox/ymax" := Feat ymax_feature]>
                (<["image/object/bbox/xmax" := Feat xmax_feature]>
                   (<["image/object/bbox/ymin" := Feat ymin_feature]>
                      (<["image/object/bbox/xmin" := Feat xmin_feature]>
                         (<["camera/intrinstic_mat" := Feat intrinsic_feature]>
                            (<["camera/trans_mat" := Feat trans_feature]>
                               (<["camera/rot_mat" := Feat rot_feature]>
                                  (<["model/voxel_shape" := Feat shape_feature]>
                                     (<["model/voxel_indices" := Feat indices_feature]>
                                        (<["model/faces" := Feat faces_feature]>
                                           (<["model/vertices" := Feat vertices_feature]>
                                              (<["image/object/mask" := Feat mask_feature]>
                                                 (Feat <$> info)))))))))))))).
Proof.
  intros H. unfold assemble_feature_dict in H. cbv zeta in H.
  assemble_named H img_size Esize.
  assemble_named H img_height Eheight.
  assemble_named H img_size' Esize'.
  assemble_named H img_width Ewidth.
  assemble_named H img_filename Eimg.
  assemble_named H img_id Eid.
  assemble_named H pix3d_dir Edir.
  assemble_named H mask_filename Emask.
  assemble_named H model Emodel.
  assemble_named H voxel_file Evoxel.
  assemble_named H dir Edir'.
  assemble_named H img_name Eimg'.
  assemble_named H encoded_img Eread.
  assemble_named H info Einfo.
  assemble_named H mask_name Emask'.
  assemble_named H encoded_mask Ereadm.
  assemble_named H mask_feature Fmask.
  assemble_named H model_name Emodel'.
  assemble_named H mesh Emesh. destruct mesh as [model_vertices model_faces].
  assemble_named H vertices_feature Fvertices.
  assemble_named H faces_feature Ffaces.
  assemble_named H voxel_name Evoxel'.
  assemble_named H grid Egrid. destruct grid as [voxel_indices voxel_shape].
  assemble_named H indices_feature Findices.
  assemble_named H shape_feature Fshape.
  assemble_named H rot_mat Erot.
  assemble_named H trans_mat Etrans.
  assemble_named H focal_length Efocal.
  assemble_named H w32 Ew32.
  assemble_named H i0 Ei0.
  assemble_named H i1 Ei1.
  assemble_named H i2 Ei2.
  assemble_named H rot_feature Frot.
  assemble_named H trans_feature Ftrans.
  assemble_named H intrinsic_feature Fintrinsic.
  assemble_named H bbox Ebbox.
  assemble_named H box Ebox. destruct box as [[[b0 b1] b2] b3].
  assemble_named H f0 Ef0.
  assemble_named H xmin Exmin.
  assemble_named H f1 Ef1.
  assemble_named H ymin Eymin.
  assemble_named H f2 Ef2.
  assemble_named H xmax Exmax.
  assemble_named H f3 Ef3.
  assemble_named H ymax Eymax.
  assemble_named H xmin_feature Fxmin.
  assemble_named H ymin_feature Fymin.
  assemble_named H xmax_feature Fxmax.
  assemble_named H ymax_feature Fymax.
  assemble_named H category Ecategory.
  assemble_named H crowd_feature Fcrowd.
  injection H as <-.
  apply lookup_key_ok in Esize, Esize', Eimg, Eid, Edir, Emask, Emodel, Evoxel,
                          Erot, Etrans, Efocal, Ebbox, Ecategory.
  assert (img_size' = img_size) as -> by congruence.
  apply as_str_ok in Edir', Eimg', Emask', Emodel', Evoxel'. subst.
  exists img_size, img_height, img_width, img_id, dir, img_name, mask_name,
    model_name, voxel_name, encoded_img, info, encoded_mask,
    model_vertices, model_faces, voxel_indices, voxel_shape,
    rot_mat, trans_mat, focal_length, w32, i0, i1, i2, bbox, b0, b1, b2, b3,
    f0, f1, f2, f3, xmin, ymin, xmax, ymax, category,
    mask_feature, vertices_feature, faces_feature, indices_feature,
    shape_feature, rot_feature, trans_feature, intrinsic_feature,
    xmin_feature, ymin_feature, xmax_feature, ymax_feature, crowd_feature.
  repeat apply conj; try assumption; reflexivity.
Qed.

(** The shape [parse_voxel_file] returns is that of a numpy array: its
    entries fit a C [npy_intp]. *)
Lemma parse_voxel_file_fits (h : host) (file : string)
    (voxel_indices : ndarray) (voxel_shape : list nat) :
  parse_voxel_file h file = Ok (voxel_indices, voxel_shape) ->
  Forall (fun n => Z.of_nat n <= int64_max) voxel_shape.
Proof.
  unfold parse_voxel_file. intros H.
  apply bind_ok in H as (mat & Hmat & H).
  apply bind_ok in H as (voxel & Hvoxel & H).
  apply bind_ok in H as (rotated & Hrot & H).
  apply bind_ok in H as (occupied & _ & H).
  injection H as _ <-.
  assert (Hfits : nd_fits voxel).
  { destruct (mat !! "voxel") as [v|] eqn:Hv; [|discriminate Hvoxel].
    injection Hvoxel as <-. exact (loadmat_fits h file mat "voxel" v Hmat Hv). }
  destruct (Nat.le_gt_cases 3 (ndim voxel)) as [Hge|Hlt];
    [|rewrite (rot90_low_rank voxel 3 Hlt) in Hrot; discriminate Hrot].
  rewrite (rot90_high_rank voxel Hge) in Hrot. injection Hrot as <-.
  unfold shape. simpl nd_shape.
  apply List.Forall_forall. intros n Hn.
  apply in_map_iff in Hn as (ax & <- & _).
  destruct (nth_in_or_default ax (nd_shape voxel) 0%nat) as [Hin| ->].
  - exact (proj1 (List.Forall_forall _ _) Hfits _ Hin).
  - discriminate.
Qed.

Lemma convert_shape_inv (s : list nat) (x : Feature) :
  Forall (fun n => Z.of_nat n <= int64_max) s ->
  convert_to_feature (shape_value s) None = Ok x ->
  x = Int64List (List.map Z.of_nat s).
Proof.
  intros Hfits. destruct s as [|n s]; [discriminate|].
  unfold shape_value.
  rewrite <- (List.map_map Z.of_nat PyInt).
  change (List.map Z.of_nat (n :: s))
    with (Z.of_nat n :: List.map Z.of_nat s).
  rewrite convert_int64_list; [congruence|].
  change (Z.of_nat n :: List.map Z.of_nat s)
    with (List.map Z.of_nat (n :: s)).
  apply forallb_forall. intros z Hz.
  apply in_map_iff in Hz as (m & <- & Hm).
  apply (proj1 (List.Forall_forall _ _) Hfits) in Hm.
  unfold in_int64, int64_min. apply andb_true_intro. split; apply Z.leb_le; lia.
Qed.

Lemma convert_ndarray_inv (a : ndarray) (x : Feature) :
  convert_to_feature (PyNdarray a) None = Ok x ->
  x = BytesList [SerializedTensor a].
Proof.
  rewrite (convert_inferred _ "ndarray") by reflexivity.
  unfold encode_as. simpl String.eqb. cbv iota.
  unfold convert_to_tensor. destruct (nd_dtype a); simpl; congruence.
Qed.

Lemma convert_float_inv (v : float) (x : Feature) :
  convert_to_feature (PyList [PyFloat v]) None = Ok x ->
  x = FloatList [to_float32 v].
Proof.
  change (PyList [PyFloat v]) with (PyList (List.map PyFloat (v :: []))).
  rewrite convert_float_list. intros [= <-]. reflexivity.
Qed.

Lemma to_float_number (h : host) (b : pyval) (a x : float) :
  number_value b = Some a -> to_float h b = Ok x -> x = a.
Proof.
  destruct b; simpl; try discriminate.
  - destruct (float_of_int z); congruence.
  - congruence.
Qed.

Lemma truediv_float_int (x : float) (n : Z) (q : float) :
  truediv (PyFloat x) (PyInt n) = Ok q ->
  exists fn, float_of_int n = Ok fn /\ PrimFloat.eqb fn zero = false /\
             q = (x / fn)%float.
Proof.
  unfold truediv. simpl. destruct (float_of_int n) as [fn|e]; simpl; [|discriminate].
  unfold float_truediv. destruct (PrimFloat.eqb fn zero) eqn:Hz; [discriminate|].
  intros [= <-]. exists fn. auto.
Qed.

Lemma insert_is_Some {V} (m : gmap string V) (i k : string) (x : V) :
  is_Some (<[i := x]> m !! k) <-> i = k \/ is_Some (m !! k).
Proof.
  rewrite lookup_insert_is_Some.
  destruct (decide (i = k)); tauto.
Qed.

(** X4: an annotation that lacks one of the twelve keys the assembler
    reads is never assembled. *)
Theorem assembler_requires_keys (h : host) (image : gmap string pyval)
    (k : string) :
  In k assembler_keys -> image !! k = None ->
  is_ok (assemble_feature_dict h image) = false.
Proof.
  intros Hk Hnone.
  destruct (assemble_feature_dict h image) as [d|e] eqn:Hd; [|reflexivity].
  apply assemble_feature_dict_trace in Hd.
  destruct Hd as (img_size & img_height & img_width & img_id & dir & img_name &
    mask_name & model_name & voxel_name & encoded_img & info & encoded_mask &
    model_vertices & model_faces & voxel_indices & voxel_shape & rot_mat &
    trans_mat & focal_length & w32 & i0 & i1 & i2 & bbox & b0 & b1 & b2 & b3 &
    f0 & f1 & f2 & f3 & xmin & ymin & xmax & ymax & category & mask_feature &
    vertices_feature & faces_feature & indices_feature & shape_feature &
    rot_feature & trans_feature & intrinsic_feature & xmin_feature &
    ymin_feature & xmax_feature & ymax_feature & crowd_feature &
    Hkeys & _).
  destruct Hkeys as (K1 & _ & _ & K2 & K3 & K4 & K5 & K6 & K7 & K8 & K9 & K10 &
                     K11 & K12).
  unfold assembler_keys in Hk. simpl in Hk.
  repeat (destruct Hk as [<-|Hk]; [congruence|]). contradiction.
Qed.

Lemma assembler_requires_keys_witness :
  is_ok (assemble_feature_dict Sample.world
           (delete "bbox" (Sample.annotation (PyInt 3) (PyFloat 36) 2016 1512)))
  = false.
Proof.
  apply (assembler_requires_keys Sample.world _ "bbox").
  - unfold assembler_keys. simpl. auto 20.
  - apply lookup_delete_eq.
Defined.

Ltac open_trace Hd :=
  apply assemble_feature_dict_trace in Hd;
  destruct Hd as (img_size & img_height & img_width & img_id & dir & img_name &
    mask_name & model_name & voxel_name & encoded_img & info & encoded_mask &
    model_vertices & model_faces & voxel_indices & voxel_shape & rot_mat &
    trans_mat & focal_length & w32 & i0 & i1 & i2 & bbox & b0 & b1 & b2 & b3 &
    f0 & f1 & f2 & f3 & xmin & ymin & xmax & ymax & category & mask_feature &
    vertices_feature & faces_feature & indices_feature & shape_feature &
    rot_feature & trans_feature & intrinsic_feature & xmin_feature &
    ymin_feature & xmax_feature & ymax_feature & crowd_feature &
    Hkeys & Hfiles & Hnumbers & Hfeatures & Hdict);
  destruct Hkeys as (Ksize & Kheight & Kwidth & Kimg & Kid & Kdir & Kmask &
                     Kmodel & Kvoxel & Krot & Ktrans & Kfocal & Kbbox & Kcategory);
  destruct Hfiles as (Rimg & Rinfo & Rmask & Rmesh & Rgrid);
  destruct Hnumbers as (Nw32 & Ni0 & Ni1 & Ni2 & Nbox & Nf0 & Nxmin & Nf1 &
                        Nymin & Nf2 & Nxmax & Nf3 & Nymax);
  destruct Hfeatures as (Fmask & Fvertices & Ffaces & Findices & Fshape & Frot &
                         Ftrans & Fintrinsic & Fxmin & Fymin & Fxmax & Fymax &
                         Fcrowd).

Ltac find_entry :=
  repeat (rewrite lookup_insert_ne by discriminate); apply lookup_insert_eq.

(** X5: the four bounding-box fields hold, as one-element float (binary32)
    lists, the pixel coordinates converted to float and divided by the
    image width (x) or height (y); width and height are then not zero. *)
Theorem bbox_normalized (h : host) (image : gmap string pyval)
    (d : gmap string entry) (H W : Z) (c0 c1 c2 c3 : pyval)
    (x0 y0 x1 y1 : float) :
  image !! "img_size" = Some (PyList [PyInt H; PyInt W]) ->
  image !! "bbox" = Some (PyList [c0; c1; c2; c3]) ->
  number_value c0 = Some x0 -> number_value c1 = Some y0 ->
  number_value c2 = Some x1 -> number_value c3 = Some y1 ->
  assemble_feature_dict h image = Ok d ->
  exists fW fH,
    float_of_int W = Ok fW /\ float_of_int H = Ok fH /\
    PrimFloat.eqb fW zero = false /\ PrimFloat.eqb fH zero = false /\
    d !! "image/object/bbox/xmin" = Some (Feat (FloatList [to_float32 (x0 / fW)])) /\
    d !! "image/object/bbox/ymin" = Some (Feat (FloatList [to_float32 (y0 / fH)])) /\
    d !! "image/object/bbox/xmax" = Some (Feat (FloatList [to_float32 (x1 / fW)])) /\
    d !! "image/object/bbox/ymax" = Some (Feat (FloatList [to_float32 (y1 / fH)])).
Proof.
  intros Hsize Hbox Hb0 Hb1 Hb2 Hb3 Hd. open_trace Hd.
  rewrite Hsize in Ksize. injection Ksize as <-.
  rewrite Hbox in Kbbox. injection Kbbox as <-.
  simpl in Kheight, Kwidth, Nbox.
  injection Kheight as <-. injection Kwidth as <-.
  injection Nbox as <- <- <- <-.
  apply (to_float_number h _ _ _ Hb0) in Nf0.
  apply (to_float_number h _ _ _ Hb1) in Nf1.
  apply (to_float_number h _ _ _ Hb2) in Nf2.
  apply (to_float_number h _ _ _ Hb3) in Nf3. subst f0 f1 f2 f3.
  apply truediv_float_int in Nxmin as (fW & HW & HWz & ->).
  apply truediv_float_int in Nymin as (fH & HH & HHz & ->).
  apply truediv_float_int in Nxmax as (fW' & HW' & _ & ->).
  apply truediv_float_int in Nymax as (fH' & HH' & _ & ->).
  assert (fW' = fW) as -> by congruence.
  assert (fH' = fH) as -> by congruence.
  apply convert_float_inv in Fxmin, Fymin, Fxmax, Fymax. subst.
  exists fW, fH. repeat apply conj; try assumption; find_entry.
Qed.

Lemma bbox_normalized_witness :
  exists d fW fH,
    assemble_feature_dict Sample.world
      (Sample.annotation (PyInt 3) (PyFloat 36) 2016 1512) = Ok d /\
    float_of_int 1512 = Ok fW /\ float_of_int 2016 = Ok fH /\
    d !! "image/object/bbox/xmin" = Some (Feat (FloatList [to_float32 (10 / fW)])) /\
    d !! "image/object/bbox/ymax" = Some (Feat (FloatList [to_float32 (220 / fH)])).
Proof.
  destruct (is_ok_exists
              (assemble_feature_dict Sample.world
                 (Sample.annotation (PyInt 3) (PyFloat 36) 2016 1512)))
    as [d Hd]; [vm_compute; reflexivity|].
  destruct (bbox_normalized Sample.world
              (Sample.annotation (PyInt 3) (PyFloat 36) 2016 1512) d
              2016 1512 (PyInt 10) (PyInt 20) (PyInt 110) (PyInt 220)
              10 20 110 220)
    as (fW & fH & HW & HH & _ & _ & Hxmin & _ & _ & Hymax);
    try (vm_compute; reflexivity); [exact Hd|].
  exists d, fW, fH. repeat apply conj; assumption.
Defined.

(** X6: an annotation whose image width or height is the integer 0 is
    never assembled (the bounding-box division raises). *)
Theorem zero_size_not_assembled (h : host) (image : gmap string pyval) (H W : Z) :
  image !! "img_size" = Some (PyList [PyInt H; PyInt W]) ->
  W = 0 \/ H = 0 ->
  is_ok (assemble_feature_dict h image) = false.
Proof.
  intros Hsize Hzero.
  destruct (assemble_feature_dict h image) as [d|e] eqn:Hd; [|reflexivity].
  open_trace Hd.
  rewrite Hsize in Ksize. injection Ksize as <-.
  simpl in Kheight, Kwidth. injection Kheight as <-. injection Kwidth as <-.
  apply truediv_float_int in Nxmin as (fW & HW & HWz & _).
  apply truediv_float_int in Nymin as (fH & HH & HHz & _).
  destruct Hzero as [-> | ->].
  - vm_compute in HW. injection HW as <-. vm_compute in HWz. discriminate HWz.
  - vm_compute in HH. injection HH as <-. vm_compute in HHz. discriminate HHz.
Qed.

Lemma zero_size_not_assembled_witness :
  is_ok (assemble_feature_dict Sample.world
           (Sample.annotation (PyInt 3) (PyFloat 36) 2016 0)) = false.
Proof.
  apply (zero_size_not_assembled Sample.world _ 2016 0).
  - vm_compute. reflexivity.
  - left. reflexivity.
Defined.

(** X7: the fields read from files hold what the files gave: the mask
    file's bytes unchanged, the two arrays of [parse_obj_file] and the index
    array of [parse_voxel_file] each as one serialized tensor, and the
    voxel shape as an int64 list; the paths are the annotation's names
    joined to its [pix3d_dir]. *)
Theorem file_fields (h : host) (image : gmap string pyval)
    (d : gmap string entry) :
  assemble_feature_dict h image = Ok d ->
  exists dir mask_name model_name voxel_name encoded_mask vertices faces
         indices shape,
    image !! "pix3d_dir" = Some (PyStr dir) /\
    image !! "mask" = Some (PyStr mask_name) /\
    image !! "model" = Some (PyStr model_name) /\
    image !! "voxel" = Some (PyStr voxel_name) /\
    read_binary h (path_join dir mask_name) = Ok encoded_mask /\
    parse_obj_file h (path_join dir model_name) = Ok (vertices, faces) /\
    parse_voxel_file h (path_join dir voxel_name) = Ok (indices, shape) /\
    d !! "image/object/mask" = Some (Feat (BytesList [Raw encoded_mask])) /\
    d !! "model/vertices" = Some (Feat (BytesList [SerializedTensor vertices])) /\
    d !! "model/faces" = Some (Feat (BytesList [SerializedTensor faces])) /\
    d !! "model/voxel_indices" = Some (Feat (BytesList [SerializedTensor indices])) /\
    d !! "model/voxel_shape" = Some (Feat (Int64List (List.map Z.of_nat shape))).
Proof.
  intros Hd. open_trace Hd.
  injection Fmask as <-.
  apply convert_ndarray_inv in Fvertices, Ffaces, Findices.
  apply (convert_shape_inv _ _ (parse_voxel_file_fits h _ _ _ Rgrid)) in Fshape.
  subst.
  exists dir, mask_name, model_name, voxel_name, encoded_mask,
    model_vertices, model_faces, voxel_indices, voxel_shape.
  repeat apply conj; try assumption; find_entry.
Qed.

Lemma file_fields_witness :
  exists d,
    assemble_feature_dict Sample.world
      (Sample.annotation (PyInt 3) (PyFloat 36) 2016 1512) = Ok d /\
    exists encoded_mask vertices faces indices shape,
      read_binary Sample.world "/pix3d/mask/bed/0001.png" = Ok encoded_mask /\
      parse_obj_file Sample.world "/pix3d/model/bed/model.obj" = Ok (vertices, faces) /\
      parse_voxel_file Sample.world "/pix3d/model/bed/voxel.mat" = Ok (indices, shape) /\
      d !! "image/object/mask" = Some (Feat (BytesList [Raw encoded_mask])) /\
      d !! "model/vertices" = Some (Feat (BytesList [SerializedTensor vertices])) /\
      d !! "model/faces" = Some (Feat (BytesList [SerializedTensor faces])) /\
      d !! "model/voxel_indices" = Some (Feat (BytesList [SerializedTensor indices])) /\
      d !! "model/voxel_shape" = Some (Feat (Int64List (List.map Z.of_nat shape))).
Proof.
  destruct (is_ok_exists
              (assemble_feature_dict Sample.world
                 (Sample.annotation (PyInt 3) (PyFloat 36) 2016 1512)))
    as [d Hd]; [vm_compute; reflexivity|].
  exists d. split; [exact Hd|].
  destruct (file_fields Sample.world _ d Hd)
    as (dir & mask_name & model_name & voxel_name & encoded_mask & vertices &
        faces & indices & shape & Kdir & Kmask & Kmodel & Kvoxel & Hrest).
  vm_compute in Kdir, Kmask, Kmodel, Kvoxel.
  injection Kdir as <-. injection Kmask as <-.
  injection Kmodel as <-. injection Kvoxel as <-.
  exists encoded_mask, vertices, faces, indices, shape. exact Hrest.
Defined.

(** X8: the assembled dictionary has the keys of the image-info dictionary
    and the fourteen field names of the assembler, no others; a key that is
    not one of the fourteen keeps its image-info feature; every entry but
    the class label is a feature, and the crowd flag is the int64 list [0]. *)
Theorem field_vocabulary (h : host) (image : gmap string pyval)
    (d : gmap string entry) :
  assemble_feature_dict h image = Ok d ->
  exists img_height img_width img_name img_id encoded_img info,
    image_info_to_feature_dict h img_height img_width (PyStr img_name) img_id
      encoded_img (image_format img_name) = Ok info /\
    (forall k, is_Some (d !! k) <-> In k assembler_fields \/ is_Some (info !! k)) /\
    (forall k, ~ In k assembler_fields -> d !! k = Feat <$> info !! k) /\
    (forall k e, d !! k = Some e -> k <> "image/object/class/label" ->
       is_feat e = true) /\
    d !! "image/object/is_crowd" = Some (Feat (Int64List [0])).
Proof.
  intros Hd. open_trace Hd. injection Fcrowd as <-.
  exists img_height, img_width, img_name, img_id, encoded_img, info.
  split; [exact Rinfo|]. subst d. repeat apply conj.
  - intros k. split.
    + intros Hk.
      repeat (apply insert_is_Some in Hk as [<-|Hk];
              [left; unfold assembler_fields; simpl; tauto|]).
      right. rewrite lookup_fmap, fmap_is_Some in Hk. exact Hk.
    + intros [Hk|Hk].
      * unfold assembler_fields in Hk. simpl in Hk.
        repeat (destruct Hk as [<-|Hk];
                [repeat first [apply insert_is_Some; left; reflexivity
                              |apply insert_is_Some; right]|]).
        contradiction.
      * repeat (apply insert_is_Some; right).
        rewrite lookup_fmap, fmap_is_Some. exact Hk.
  - intros k Hk. unfold assembler_fields in Hk. simpl in Hk.
    rewrite !lookup_insert_ne by (intros Heq; subst k; tauto).
    apply lookup_fmap.
  - intros k e Hke Hlabel.
    repeat (apply lookup_insert_Some in Hke as [[Hk <-]|[_ Hke]];
            [first [reflexivity|exfalso; apply Hlabel; symmetry; exact Hk]|]).
    rewrite lookup_fmap in Hke.
    destruct (info !! k); simpl in Hke; [|discriminate Hke].
    injection Hke as <-. reflexivity.
  - apply lookup_insert_eq.
Qed.

Lemma field_vocabulary_witness :
  exists (d : gmap string entry) (info : gmap string Tf.Feature),
    assemble_feature_dict Sample.world
      (Sample.annotation (PyInt 3) (PyFloat 36) 2016 1512) = Ok d /\
    (forall k, is_Some (d !! k) <-> In k assembler_fields \/ is_Some (info !! k)) /\
    d !! "image/object/is_crowd" = Some (Feat (Int64List [0])).
Proof.
  destruct (is_ok_exists
              (assemble_feature_dict Sample.world
                 (Sample.annotation (PyInt 3) (PyFloat 36) 2016 1512)))
    as [d Hd]; [vm_compute; reflexivity|].
  destruct (field_vocabulary Sample.world _ d Hd)
    as (_ & _ & _ & _ & _ & info & _ & Hkeys & _ & _ & Hcrowd).
  exists d, info. repeat apply conj; assumption.
Defined.

(** ** The encoder: which list is filled *)

Lemma encode_as_kind (value : pyval) (t : string) (f : Feature) :
  encode_as value t = Ok f -> tag_kind t = Some (kind_of f).
Proof.
  unfold encode_as, tag_kind. intros H.
  repeat match type of H with
         | (if String.eqb t ?s then _ else _) = _ =>
             destruct (String.eqb t s); cbn [orb];
             [first [ apply bind_ok in H as (? & _ & H);
                      apply bind_ok in H as (? & _ & [= <-]); reflexivity
                    | apply bind_ok in H as (? & _ & [= <-]); reflexivity
                    | injection H as <-; reflexivity
                    | destruct value; try discriminate H;
                      injection H as <-; reflexivity ]
             |]
         end.
  discriminate H.
Qed.

Lemma encode_as_unknown (value : pyval) (t : string) :
  tag_kind t = None -> encode_as value t = Err ValueError.
Proof.
  unfold encode_as, tag_kind.
  repeat match goal with
         | |- context [String.eqb t ?s] =>
             destruct (String.eqb t s); cbn [orb]; [discriminate|]
         end.
  reflexivity.
Qed.

(** X9: a [value_type] given by the caller decides which list of the
    Feature is filled, whatever the value: int64 tags give an int64 list,
    float tags a float list, the bytes, str, 2d_list and ndarray tags a
    bytes list, none the empty Feature; any other tag raises ValueError. *)
Theorem explicit_tag_forces_kind (value : pyval) (t : string) :
  (forall f, convert_to_feature value (Some t) = Ok f ->
             tag_kind t = Some (kind_of f)) /\
  (tag_kind t = None -> convert_to_feature value (Some t) = Err ValueError).
Proof.
  split.
  - intros f H. apply (encode_as_kind value). exact H.
  - intros H. apply encode_as_unknown. exact H.
Qed.

(** X10: without a [value_type], the inspected element alone (the first
    one of a list, else the value) decides which list a returned Feature
    has: it exists, is no tuple, and bytes, str, list and array elements
    give a bytes list, ints and bools an int64 list, floats a float list;
    the empty Feature is returned for None and for nothing else. *)
Theorem inferred_kind (value : pyval) :
  (forall f, convert_to_feature value None = Ok f ->
     exists element,
       inspected value = Some element /\
       element_kind element = Some (kind_of f)) /\
  (convert_to_feature value None = Ok FeatureEmpty <-> value = PyNone).
Proof.
  assert (Hkind : forall f, convert_to_feature value None = Ok f ->
            exists element, inspected value = Some element /\
                            element_kind element = Some (kind_of f)).
  { intros f H.
    destruct (infer_value_type value) as [t|e] eqn:Ht;
      [|rewrite (convert_refused _ _ Ht) in H; discriminate H].
    rewrite (convert_inferred _ _ Ht) in H.
    apply encode_as_kind in H.
    destruct value as [| | | | | |[|x rest]| |];
      try (injection Ht as <-; eexists; split; [reflexivity|exact H]);
      try discriminate Ht.
    exists x. split; [reflexivity|].
    rewrite infer_list in Ht.
    destruct x; simpl in Ht; try discriminate Ht;
      injection Ht as <-; try exact H; discriminate H. }
  split; [exact Hkind|]. split.
  - intros H. destruct (Hkind _ H) as (element & Hel & Hk).
    destruct value as [| | | | | |[|x rest]| |]; try reflexivity;
      simpl in Hel; try discriminate Hel; injection Hel as <-;
      try discriminate Hk.
    destruct x; try discriminate Hk.
    destruct (infer_value_type (PyList (PyNone :: rest))) as [t|e] eqn:Ht;
      [|rewrite (convert_refused _ _ Ht) in H; discriminate H].
    rewrite (convert_inferred _ _ Ht) in H.
    rewrite infer_list in Ht. injection Ht as <-. discriminate H.
  - intros ->. reflexivity.
Qed.

Lemma explicit_tag_forces_kind_witness :
  convert_to_feature (PyInt 7) (Some "int32") = Err ValueError /\
  tag_kind "float_list" = Some (kind_of (FloatList [1; 2]%float)).
Proof.
  split.
  - apply (proj2 (explicit_tag_forces_kind (PyInt 7) "int32")). reflexivity.
  - apply (proj1 (explicit_tag_forces_kind (PyList [PyInt 1; PyInt 2]) "float_list")).
    vm_compute. reflexivity.
Defined.

Lemma inferred_kind_witness :
  exists element,
    inspected (PyList [PyFloat 2; PyInt 3]) = Some element /\
    element_kind element = Some (kind_of (FloatList [2; 3]%float)).
Proof.
  apply (proj1 (inferred_kind (PyList [PyFloat 2; PyInt 3]))).
  vm_compute. reflexivity.
Defined.

(** ** The encoder: lists that mix ints and floats *)

Lemma exact_in_int64 (z : Z) : exact_in_float z = true -> in_int64 z = true.
Proof.
  unfold exact_in_float, in_int64, int64_min, int64_max. intros Hz.
  apply Z.leb_le in Hz. apply andb_true_intro. split; apply Z.leb_le; lia.
Qed.

Lemma truncated_leaf (v : pyval) (t : Z) :
  truncated v = Some t ->
  nested v = Ok ([], [v]) /\
  match v with PyInt _ | PyFloat _ => True | _ => False end /\
  leaf_to_int64 np_float64 v = Ok t /\
  (is_float v = false -> v = PyInt t /\ in_int64 t = true).
Proof.
  destruct v; try discriminate; simpl.
  - destruct (exact_in_float z) eqn:Hz; [|discriminate].
    intros [= ->]. repeat apply conj; try reflexivity; try exact I.
    intros _. split; [reflexivity|apply exact_in_int64, Hz].
  - unfold double_to_int64. destruct (trunc f) as [z|]; [|discriminate].
    destruct (in_int64 z); [|discriminate].
    intros [= <-]. repeat apply conj; try reflexivity; try exact I.
    discriminate.
Qed.

Lemma widened_leaf (v : pyval) (x : float) :
  widened v = Some x ->
  nested v = Ok ([], [v]) /\
  match v with PyInt _ | PyFloat _ => True | _ => False end /\
  leaf_to_float32 np_float64 v = Ok x.
Proof.
  destruct v; try discriminate; simpl.
  - destruct (float_of_int z); [|discriminate].
    intros [= <-]. repeat apply conj; try reflexivity; exact I.
  - intros [= <-]. repeat apply conj; try reflexivity; exact I.
Qed.

Lemma traverse_Forall2 {A B} (f : A -> result B) (l : list A) (ys : list B) :
  Forall2 (fun x y => f x = Ok y) l ys -> traverse f l = Ok ys.
Proof.
  induction 1 as [|x y l ys Hx _ IH]; [reflexivity|].
  simpl. rewrite Hx, IH. reflexivity.
Qed.

(** Numbers that [truncated] accepts are cast to it whichever element type
    the list gets: float64 when a float is among them, int64 otherwise. *)
Lemma truncated_cast (leaves : list pyval) (ts : list Z) :
  leaves <> [] ->
  Forall2 (fun v t => truncated v = Some t) leaves ts ->
  traverse (leaf_to_int64 (leaves_dtype leaves)) leaves = Ok ts.
Proof.
  intros Hne Hall.
  rewrite leaves_dtype_numbers
    by (eapply Forall2_left; [|exact Hall]; intros v t Hv;
        apply (truncated_leaf v t Hv)).
  destruct (existsb is_float leaves) eqn:Hfloat.
  - apply traverse_Forall2. eapply Forall2_impl; [exact Hall|].
    intros v t Hv. apply (truncated_leaf v t Hv).
  - assert (Hints : Forall2 (fun v t => v = PyInt t /\ in_int64 t = true)
                      leaves ts).
    { clear Hne. induction Hall as [|v t l ts' Hv _ IH]; [constructor|].
      simpl in Hfloat. apply orb_false_elim in Hfloat as [Hv' Hl].
      constructor; [|exact (IH Hl)].
      apply (truncated_leaf v t Hv), Hv'. }
    rewrite (ints_promote_int64 leaves).
    + destruct leaves; [congruence|].
      apply traverse_Forall2. eapply Forall2_impl; [exact Hints|].
      intros v t [-> _]. reflexivity.
    + eapply Forall2_left; [|exact Hints].
      intros v t [-> Ht]. exists t. split; [reflexivity|exact Ht].
    + exact Hne.
Qed.

(** X11: the first element alone picks the list, and the other elements
    are converted to it.  A list that starts with an int is stored as an
    int64 list in which every float is cut toward zero; a list that starts
    with a float is stored as a float (binary32) list in which every int is
    converted to float. *)
Theorem first_element_decides (rest : list pyval) :
  (forall z ts,
     exact_in_float z = true ->
     Forall2 (fun v t => truncated v = Some t) rest ts ->
     convert_to_feature (PyList (PyInt z :: rest)) None =
     Ok (Int64List (z :: ts))) /\
  (forall f xs,
     Forall2 (fun v x => widened v = Some x) rest xs ->
     convert_to_feature (PyList (PyFloat f :: rest)) None =
     Ok (FloatList (to_float32 f :: xs))).
Proof.
  split.
  - intros z ts Hz Hrest.
    assert (Hall : Forall2 (fun v t => truncated v = Some t)
                     (PyInt z :: rest) (z :: ts)).
    { constructor; [simpl; rewrite Hz; reflexivity|exact Hrest]. }
    rewrite (convert_inferred _ "int64_list") by reflexivity.
    unfold encode_as. simpl String.eqb. cbv iota.
    unfold asarray_int64_flat.
    rewrite nested_flat.
    + cbv beta iota delta [bind].
      rewrite (truncated_cast (PyInt z :: rest) (z :: ts));
        [reflexivity|discriminate|exact Hall].
    + intros v Hv.
      pose proof (Forall2_left _ (fun v => exists t, truncated v = Some t)
                    _ _ (fun x y Hxy => ex_intro _ y Hxy) Hall) as Hnum.
      apply (proj1 (List.Forall_forall _ _) Hnum) in Hv as [t Ht].
      apply (truncated_leaf v t Ht).
  - intros f xs Hrest.
    assert (Hall : Forall2 (fun v x => widened v = Some x)
                     (PyFloat f :: rest) (to_float32 f :: xs)).
    { constructor; [reflexivity|exact Hrest]. }
    rewrite (convert_inferred _ "float_list") by reflexivity.
    unfold encode_as. simpl String.eqb. cbv iota.
    unfold asarray_float32_flat.
    rewrite nested_flat.
    + cbv beta iota delta [bind].
      rewrite leaves_dtype_numbers
        by (eapply Forall2_left; [|exact Hall]; intros v x Hv;
            apply (widened_leaf v x Hv)).
      simpl existsb. cbv iota.
      rewrite (traverse_Forall2 (leaf_to_float32 np_float64) _
                 (to_float32 f :: xs)); [reflexivity|].
      eapply Forall2_impl; [exact Hall|].
      intros v x Hv. apply (widened_leaf v x Hv).
    + intros v Hv.
      pose proof (Forall2_left _ (fun v => exists x, widened v = Some x)
                    _ _ (fun x y Hxy => ex_intro _ y Hxy) Hall) as Hnum.
      apply (proj1 (List.Forall_forall _ _) Hnum) in Hv as [x Hx].
      apply (widened_leaf v x Hx).
Qed.

Lemma first_element_decides_witness :
  convert_to_feature (PyList [PyInt 1; PyFloat 2.75; PyFloat (-3.5)]) None =
    Ok (Int64List [1; 2; -3]) /\
  convert_to_feature (PyList [PyFloat 0.5; PyInt 3]) None =
    Ok (FloatList [0.5; 3]%float).
Proof.
  split.
  - apply (proj1 (first_element_decides [PyFloat 2.75; PyFloat (-3.5)]) 1 [2; -3]).
    + reflexivity.
    + repeat constructor.
  - apply (proj2 (first_element_decides [PyInt 3]) 0.5%float [3%float]).
    repeat constructor.
Defined.

(** ** The mesh parser: the arrays of a successful call *)

Lemma array_of_rows_inv (dt : dtype) (rows : list (list scalar)) (arr : ndarray) :
  array_of_rows dt rows = Ok arr ->
  match rows with
  | [] => arr = empty_array
  | r :: _ =>
      rows_of_length (length r) rows /\
      nd_shape arr = [length rows; length r] /\
      nd_data arr = concat rows /\
      nd_dtype arr = match concat rows with [] => np_float64 | _ => dt end
  end.
Proof.
  destruct rows as [|r rs]; simpl.
  - intros [= <-]. reflexivity.
  - destruct (forallb _ rs) eqn:Hall; [|discriminate].
    intros [= <-]. repeat apply conj; try reflexivity.
    constructor; [reflexivity|]. apply List.Forall_forall. intros r' Hr'.
    rewrite forallb_forall in Hall. apply Nat.eqb_eq, Hall, Hr'.
Qed.

Lemma length_concat_rows {A} (n : nat) (rows : list (list A)) :
  rows_of_length n rows -> length (concat rows) = (length rows * n)%nat.
Proof.
  induction 1 as [|r rs Hr _ IH]; [reflexivity|].
  simpl. rewrite length_app, Hr, IH. reflexivity.
Qed.

Lemma tokens_length_uniform {B} (g : B -> scalar) (n : nat)
    (lines : list string) (rows : list (list B)) :
  Forall2 (fun line row => length row = length (tokens line)) lines rows ->
  Forall (fun row => length (List.map g row) = n) rows ->
  forall line, In line lines -> length (tokens line) = n.
Proof.
  induction 1 as [|l r ls rs Hlr _ IH]; intros Huni l' Hl'; [destruct Hl'|].
  apply List.Forall_cons_iff in Huni as [Hr Huni].
  destruct Hl' as [<-|Hl'].
  - rewrite <- Hlr, <- Hr, length_map. reflexivity.
  - exact (IH Huni l' Hl').
Qed.

Lemma rows_shape {B} (g : B -> scalar) (dt : dtype) (lines : list string)
    (rows : list (list B)) (arr : ndarray) :
  Forall2 (fun line row => length row = length (tokens line)) lines rows ->
  array_of_rows dt (List.map (List.map g) rows) = Ok arr ->
  nd_wf arr /\
  nd_data arr = List.map g (concat rows) /\
  (lines = [] -> arr = empty_array) /\
  (forall line, In line lines ->
     nd_shape arr = [length lines; length (tokens line)]).
Proof.
  intros Hlines Harr. apply array_of_rows_inv in Harr.
  destruct Hlines as [|line row lines rows Hrow Hrest].
  - simpl in Harr. subst arr. repeat apply conj; try reflexivity.
    intros line [].
  - simpl List.map in Harr. destruct Harr as (Huni & Hshape & Hdata & _).
    rewrite length_map in Huni, Hshape.
    assert (Hlen : forall l, In l (line :: lines) ->
                             length (tokens l) = length row).
    { apply (tokens_length_uniform g _ (line :: lines) (row :: rows)).
      - constructor; assumption.
      - apply (proj1 (@List.Forall_map _ _ (List.map g)
                        (fun r => length r = length row) (row :: rows))).
        exact Huni. }
    repeat apply conj.
    + unfold nd_wf. rewrite Hdata, Hshape.
      rewrite (length_concat_rows _ _ Huni). simpl. lia.
    + rewrite Hdata, concat_map. reflexivity.
    + discriminate.
    + intros l Hl. rewrite Hshape, (Hlen l Hl). simpl.
      rewrite length_map, (Forall2_length _ _ _ Hrest). reflexivity.
Qed.

(** X12: what a successful [parse_obj_file] returns.  Both arrays have as
    many elements as their shape says; the vertex array is float64 and
    holds floats; when the vertex indices fit 64 bits the face array holds
    ints and, with a face line, is int64; with at least one line of its
    kind an array has the shape (lines, tokens per line), so all lines of
    one kind have equally many tokens; with no line of its kind it is the
    float64 array of shape (0,). *)
Theorem mesh_arrays_shape (h : host) (file text : string) (v f : ndarray) :
  open_text h file = Ok text ->
  parse_obj_file h file = Ok (v, f) ->
  nd_wf v /\ nd_wf f /\
  nd_dtype v = np_float64 /\
  Forall (fun s => exists x, s = SFloat x) (nd_data v) /\
  (indices_fit h text ->
     Forall (fun s => exists z, s = SInt z) (nd_data f) /\
     (face_lines text <> [] -> nd_dtype f = np_int64)) /\
  (forall line, In line (vertex_lines text) ->
     nd_shape v = [length (vertex_lines text); length (tokens line)]) /\
  (forall line, In line (face_lines text) ->
     nd_shape f = [length (face_lines text); length (tokens line)]) /\
  (vertex_lines text = [] -> v = empty_array) /\
  (face_lines text = [] -> f = empty_array).
Proof.
  intros Hopen Hparse.
  rewrite (parse_obj_file_by_kind h file text Hopen) in Hparse.
  apply bind_ok in Hparse as (vs & Hvs & Hparse).
  apply bind_ok in Hparse as (fs & Hfs & Hparse).
  apply bind_ok in Hparse as (varr & Hv & Hparse).
  apply bind_ok in Hparse as (farr & Hf & Hparse).
  injection Hparse as <- <-.
  apply traverse_inv in Hvs, Hfs.
  assert (Hvlen : Forall2 (fun line row => length row = length (tokens line))
                    (vertex_lines text) vs).
  { eapply Forall2_impl; [exact Hvs|]. intros line row Hrow.
    apply parse_vertex_ok in Hrow. symmetry. exact (Forall2_length _ _ _ Hrow). }
  assert (Hflen : Forall2 (fun line row => length row = length (tokens line))
                    (face_lines text) fs).
  { eapply Forall2_impl; [exact Hfs|]. intros line row Hrow.
    apply parse_face_ok in Hrow. symmetry. exact (Forall2_length _ _ _ Hrow). }
  pose proof Hv as Hv'. apply array_of_rows_inv in Hv'.
  destruct (rows_shape SFloat _ _ _ _ Hvlen Hv) as (Hvwf & Hvdata & Hvnil & Hvshape).
  pose proof Hf as Hf'. unfold array_of_ints in Hf'. cbv zeta in Hf'.
  destruct (rows_shape _ _ _ _ _ Hflen Hf') as (Hfwf & _ & Hfnil & Hfshape).
  assert (Hfit : indices_fit h text ->
                 match List.map (List.map SInt) fs with
                 | [] => farr = empty_array
                 | r :: _ =>
                     rows_of_length (length r) (List.map (List.map SInt) fs) /\
                     nd_shape farr = [length (List.map (List.map SInt) fs); length r] /\
                     nd_data farr = concat (List.map (List.map SInt) fs) /\
                     nd_dtype farr =
                       match concat (List.map (List.map SInt) fs) with
                       | [] => np_float64
                       | _ => np_int64
                       end
                 end).
  { intros Hfit. apply (array_of_rows_inv np_int64).
    rewrite <- (array_of_ints_fit fs); [exact Hf|].
    apply (indices_in_range h (face_lines text)); [exact Hfit|].
    eapply Forall2_impl; [exact Hfs|]. intros line row Hrow.
    apply parse_face_ok, Hrow. }
  repeat apply conj; try assumption; try (intros Hfits; specialize (Hfit Hfits);
    rename Hfit into Hf''; split).
  - destruct vs as [|r rs]; simpl in Hv'; [subst varr; reflexivity|].
    destruct Hv' as (_ & _ & _ & ->).
    match goal with |- match ?x with _ => _ end = _ => destruct x end;
      reflexivity.
  - rewrite Hvdata. apply List.Forall_forall. intros s Hs.
    apply in_map_iff in Hs as (x & <- & _). exists x. reflexivity.
  - destruct fs as [|r0 rs0]; simpl in Hf'';
      [subst farr; constructor|destruct Hf'' as (_ & _ & -> & _)].
    apply List.Forall_forall. intros s Hs.
    change (List.map SInt r0 ++ concat (List.map (List.map SInt) rs0))
      with (concat (List.map (List.map SInt) (r0 :: rs0))) in Hs.
    apply in_concat in Hs as (r & Hr & Hs).
    apply in_map_iff in Hr as (row & <- & _).
    apply in_map_iff in Hs as (z & <- & _). exists z. reflexivity.
  - intros Hlines.
    assert (Hon : Forall2 (indices_on h) (face_lines text) fs).
    { eapply Forall2_impl; [exact Hfs|]. intros line row Hrow.
      apply parse_face_ok, Hrow. }
    destruct Hon as [|line r ls rs Hr _]; [congruence|].
    pose proof (Forall2_length _ _ _ Hr) as Hlen. unfold tokens in Hlen.
    pose proof (split_nonempty " " (drop_str 2 line)) as Hne.
    simpl in Hf''. destruct Hf'' as (_ & _ & _ & ->).
    destruct r as [|z zs]; [|reflexivity].
    destruct (split " " (drop_str 2 line)); [congruence|discriminate Hlen].
Qed.

Lemma mesh_arrays_shape_witness :
  exists v f,
    parse_obj_file Sample.world "/pix3d/model/bed/model.obj" = Ok (v, f) /\
    nd_wf v /\ nd_wf f /\
    nd_shape v = [3; 3]%nat /\ nd_shape f = [1; 3]%nat /\
    nd_dtype f = np_int64.
Proof.
  destruct (parse_obj_file Sample.world "/pix3d/model/bed/model.obj")
    as [[v f]|e] eqn:H; [|vm_compute in H; discriminate H].
  exists v, f. split; [reflexivity|].
  assert (Hopen : open_text Sample.world "/pix3d/model/bed/model.obj" =
                  Ok Sample.mesh_text) by reflexivity.
  destruct (mesh_arrays_shape Sample.world _ _ v f Hopen H)
    as (Hvwf & Hfwf & _ & _ & Hints & Hv & Hf & _).
  repeat apply conj; [exact Hvwf|exact Hfwf| | |].
  - apply (Hv (hd "" (vertex_lines Sample.mesh_text))). vm_compute. tauto.
  - apply (Hf (hd "" (face_lines Sample.mesh_text))). vm_compute. tauto.
  - apply Hints.
    + unfold indices_fit. apply (bool_decide_unpack _). vm_compute. exact I.
    + vm_compute. discriminate.
Defined.

(** X13: a text with no ["v "] and no ["f "] line, an empty file for one,
    is parsed without error whatever else it holds: both results are the
    float64 array of shape (0,). *)
Theorem parse_obj_file_no_geometry (h : host) (file text : string) :
  open_text h file = Ok text ->
  vertex_lines text = [] -> face_lines text = [] ->
  parse_obj_file h file = Ok (empty_array, empty_array).
Proof.
  intros Hopen Hv Hf.
  rewrite (parse_obj_file_by_kind h file text Hopen), Hv, Hf. reflexivity.
Qed.

Lemma parse_obj_file_no_geometry_witness :
  parse_obj_file (host_with_text "") "model.obj" = Ok (empty_array, empty_array) /\
  parse_obj_file (host_with_text comment_text) "model.obj" =
    Ok (empty_array, empty_array).
Proof.
  split.
  - apply (parse_obj_file_no_geometry (host_with_text "") "model.obj" "");
      reflexivity.
  - apply (parse_obj_file_no_geometry (host_with_text comment_text)
             "model.obj" comment_text); reflexivity.
Defined.

(** ** The mesh parser: separators *)

Lemma split_adjacent (sep : ascii) (a b : string) :
  In "" (tl (split sep (a ++ String sep (String sep b)))).
Proof.
  induction a as [|c a IH]; simpl.
  - rewrite Ascii.eqb_refl. simpl. left. reflexivity.
  - destruct (Ascii.eqb c sep).
    + simpl. destruct (split sep _) as [|x xs]; [destruct IH|].
      right. exact IH.
    + destruct (split sep _) as [|x xs]; [destruct IH|]. exact IH.
Qed.

Lemma in_tl {A} (x : A) (l : list A) : In x (tl l) -> In x l.
Proof. destruct l; [intros []|right; assumption]. Qed.

Lemma obj_traverse_fails (h : host) (file text : string) :
  open_text h file = Ok text ->
  is_ok (traverse (parse_vertex h) (vertex_lines text)) = false \/
  is_ok (traverse (parse_face h) (face_lines text)) = false ->
  parse_obj_file h file = Err ValueError.
Proof.
  intros Hopen Hfail.
  apply result_cases; [intros e; apply (parse_obj_file_error h file text e Hopen)|].
  rewrite (parse_obj_file_by_kind h file text Hopen).
  destruct (traverse (parse_vertex h) (vertex_lines text)) as [vs|];
    [|reflexivity].
  destruct Hfail as [Hfail|Hfail]; [discriminate Hfail|].
  destruct (traverse (parse_face h) (face_lines text)); [discriminate Hfail|].
  reflexivity.
Qed.

(** X14: [split(" ")] cuts at every space, so a space that follows a
    space makes an empty token.  A ["v "] or ["f "] line with two adjacent
    spaces anywhere after its first character (["v  1 2 3"] is one) makes
    [parse_obj_file] raise ValueError, since neither [float] nor [int]
    reads the empty text. *)
Theorem double_space_rejected (h : host) (file text line : string)
    (c : ascii) (a b : string) :
  open_text h file = Ok text ->
  str_to_float h "" = None -> str_to_int h "" = None ->
  In line (vertex_lines text) \/ In line (face_lines text) ->
  line = String c (a ++ "  " ++ b)%string ->
  parse_obj_file h file = Err ValueError.
Proof.
  intros Hopen Hfloat Hint Hline Hdrop.
  assert (Htok : In "" (tokens line)).
  { unfold tokens. rewrite Hdrop. destruct a as [|d a].
    - left. reflexivity.
    - apply in_tl. exact (split_adjacent " " a b). }
  apply (obj_traverse_fails h file text Hopen).
  destruct Hline as [Hline|Hline]; [left|right].
  - apply (traverse_fails _ _ line Hline).
    rewrite parse_vertex_unfold. apply (traverse_fails _ _ "" Htok).
    unfold read_coordinate. rewrite Hfloat. reflexivity.
  - apply (traverse_fails _ _ line Hline).
    rewrite parse_face_unfold. apply (traverse_fails _ _ "" Htok).
    unfold read_index. simpl. rewrite Hint. reflexivity.
Qed.

Lemma double_space_rejected_witness :
  parse_obj_file (host_with_text double_space_text) "model.obj" = Err ValueError.
Proof.
  apply (double_space_rejected (host_with_text double_space_text) "model.obj"
           double_space_text (hd "" (vertex_lines double_space_text))
           "v" "" (drop_str 3 (hd "" (vertex_lines double_space_text)))).
  - reflexivity.
  - reflexivity.
  - reflexivity.
  - left. vm_compute. tauto.
  - vm_compute. reflexivity.
Defined.

Lemma split_head (sep : ascii) (a b : string) :
  ~ In sep (list_ascii_of_string a) ->
  hd "" (split sep a) = a /\ hd "" (split sep (a ++ String sep b)) = a.
Proof.
  induction a as [|c a IH]; simpl.
  - intros _. rewrite Ascii.eqb_refl. split; reflexivity.
  - intros Hc. destruct (Ascii.eqb_spec c sep) as [->|Hne].
    + exfalso. apply Hc. left. reflexivity.
    + destruct IH as [IH1 IH2]; [intros Hin; apply Hc; right; exact Hin|].
      split.
      * destruct (split sep a); simpl in *; congruence.
      * destruct (split sep (a ++ String sep b)); simpl in *; congruence.
Qed.

(** X15: of a group on a face line only the text before the first ["/"]
    is read: ["6/8"] and ["6//2"] give the same index as ["6"], and a group
    that starts with ["/"] is read as the empty text. *)
Theorem face_group_reads_first (h : host) (a b : string) :
  slash_free a ->
  read_index h (a ++ "/" ++ b)%string = read_index h a /\
  read_index h a = of_option ValueError (str_to_int h a).
Proof.
  intros Ha. destruct (split_head "/" a b Ha) as [H1 H2].
  unfold read_index.
  change (a ++ "/" ++ b)%string with (a ++ String "/" b)%string.
  rewrite H2, H1. split; reflexivity.
Qed.

Lemma face_group_reads_first_witness :
  read_index Sample.world "6//2" = Ok 6 /\
  read_index Sample.world "/8" = Err ValueError.
Proof.
  split.
  - transitivity (read_index Sample.world "6"); [|reflexivity].
    apply (proj1 (face_group_reads_first Sample.world "6" "/2"
                    ltac:(vm_compute; intuition discriminate))).
  - transitivity (read_index Sample.world ""); [|reflexivity].
    apply (proj1 (face_group_reads_first Sample.world "" "8"
                    ltac:(vm_compute; tauto))).
Defined.

(** ** The voxel decoder: the rows of the index array *)

Lemma map_add_seq (c a n : nat) :
  List.map (Nat.add c) (seq a n) = seq (c + a) n.
Proof.
  revert a. induction n as [|n IH]; intros a; [reflexivity|].
  simpl. rewrite IH, Nat.add_succ_r. reflexivity.
Qed.

Lemma flat_map_seq_blocks (sz a n : nat) :
  flat_map (fun i => seq (i * sz) sz) (seq a n) = seq (a * sz) (n * sz).
Proof.
  revert a. induction n as [|n IH]; intros a; [reflexivity|].
  simpl. rewrite IH, List.seq_app. f_equal. f_equal. lia.
Qed.

Lemma map_flat_map_blocks {A B C} (f : B -> C) (g : A -> list B) (l : list A) :
  List.map f (flat_map g l) = flat_map (fun x => List.map f (g x)) l.
Proof.
  induction l as [|x l IH]; [reflexivity|].
  simpl. rewrite List.map_app, IH. reflexivity.
Qed.

Lemma flat_map_ext_blocks {A B} (f g : A -> list B) (l : list A) :
  (forall x, f x = g x) -> flat_map f l = flat_map g l.
Proof.
  intros Hfg. induction l as [|x l IH]; [reflexivity|].
  simpl. rewrite Hfg, IH. reflexivity.
Qed.

Lemma ravel_ndindex (shape : list nat) :
  List.map (ravel shape) (ndindex shape) = seq 0 (size_of shape).
Proof.
  induction shape as [|n s IH]; [reflexivity|].
  simpl ndindex. rewrite map_flat_map_blocks.
  rewrite (flat_map_ext_blocks _ (fun i => seq (i * size_of s) (size_of s))).
  - rewrite flat_map_seq_blocks. reflexivity.
  - intros i. rewrite List.map_map. simpl ravel.
    rewrite <- (List.map_map (ravel s) (Nat.add (i * size_of s))), IH.
    rewrite map_add_seq, Nat.add_0_r. reflexivity.
Qed.

Lemma NoDup_ndindex (shape : list nat) : List.NoDup (ndindex shape).
Proof.
  apply (List.NoDup_map_inv (ravel shape)).
  rewrite ravel_ndindex. apply List.seq_NoDup.
Qed.

Lemma nth_seq_all {A} (d : A) (l : list A) :
  List.map (fun i => nth i l d) (seq 0 (length l)) = l.
Proof.
  induction l as [|x l IH]; [reflexivity|].
  simpl. f_equal. rewrite <- List.seq_shift, List.map_map. exact IH.
Qed.

Lemma data_by_index (m : ndarray) :
  nd_wf m -> List.map (item m) (ndindex (nd_shape m)) = nd_data m.
Proof.
  intros Hwf. unfold item.
  rewrite <- (List.map_map (ravel (nd_shape m)) (fun i => nth i (nd_data m) (SInt 0))).
  rewrite ravel_ndindex, <- Hwf. apply nth_seq_all.
Qed.

Lemma swapped_shape (s : list nat) :
  (3 <= length s)%nat ->
  List.map (fun ax => nth ax s 0%nat) (swap 0%nat (seq 0 (length s)) 1 2) =
  swap 0%nat s 1 2.
Proof.
  destruct s as [|a [|b [|c rest]]]; simpl; try lia. intros _.
  unfold swap. simpl. do 3 f_equal.
  rewrite <- !List.seq_shift, !List.map_map. simpl.
  apply nth_seq_all.
Qed.

Lemma selected_rows {A} (p : list nat * A -> bool) (l : list (list nat))
    (k : list A) :
  List.NoDup l ->
  List.NoDup (List.map fst (List.filter p (combine l k))) /\
  forall row, In row (List.map fst (List.filter p (combine l k))) -> In row l.
Proof.
  intros Hl.
  assert (Hin : forall l k row,
            In row (List.map fst (List.filter p (combine l k))) -> In row l).
  { clear. intros l k row Hrow.
    apply in_map_iff in Hrow as ([idx x] & <- & Hx).
    apply List.filter_In in Hx as [Hx _]. exact (in_combine_l _ _ _ _ Hx). }
  split; [|apply Hin].
  revert k. induction Hl as [|x l Hx _ IH]; intros k; [constructor|].
  destruct k as [|y k]; [constructor|]. simpl.
  destruct (p (x, y)); simpl; [|apply IH].
  constructor; [|apply IH]. intros Hrow. apply Hx, (Hin l k x Hrow).
Qed.

(** X16: what a successful [parse_voxel_file] returns, for a grid of any
    number of axes.  The stored array has at least three axes; the returned
    shape is the stored one with its second and third entries exchanged;
    the index array has one row per occupied cell, no row twice, every row
    an index within the returned shape, and as many elements as its shape
    (rows, axes) says. *)
Theorem parse_voxel_file_rows (h : host) (file : string)
    (voxel_indices : ndarray) (voxel_shape : list nat) :
  parse_voxel_file h file = Ok (voxel_indices, voxel_shape) ->
  exists mat voxel rows,
    loadmat h file = Ok mat /\
    mat !! "voxel" = Some voxel /\
    (3 <= ndim voxel)%nat /\
    voxel_shape = swap 0%nat (nd_shape voxel) 1 2 /\
    voxel_indices = index_rows (length voxel_shape) rows /\
    List.NoDup rows /\
    Forall (fun row => Forall2 lt row voxel_shape) rows /\
    nd_wf voxel_indices.
Proof.
  unfold parse_voxel_file. intros H.
  apply bind_ok in H as (mat & Hmat & H).
  apply bind_ok in H as (voxel & Hvoxel & H).
  apply bind_ok in H as (rotated & Hrot & H).
  apply bind_ok in H as (occupied & Hocc & H).
  injection H as <- <-.
  assert (Hrank : (3 <= ndim voxel)%nat).
  { destruct (Nat.le_gt_cases 3 (ndim voxel)) as [Hge|Hlt]; [exact Hge|].
    rewrite (rot90_low_rank voxel 3 Hlt) in Hrot. discriminate Hrot. }
  rewrite (rot90_high_rank voxel Hrank) in Hrot. injection Hrot as <-.
  unfold greater0 in Hocc. apply bind_ok in Hocc as (d & _ & Hocc).
  injection Hocc as <-.
  unfold shape, argwhere, ndim. simpl nd_shape. simpl nd_data.
  rewrite (swapped_shape (nd_shape voxel) Hrank).
  set (vs := swap 0%nat (nd_shape voxel) 1 2).
  set (rows := List.map fst (List.filter _ (combine (ndindex vs) _))).
  destruct (selected_rows (fun p => truthy (snd p)) (ndindex vs)
              (List.map SBool d) (NoDup_ndindex vs)) as [Hnodup Hin].
  fold rows in Hnodup, Hin.
  assert (Hbound : Forall (fun row => Forall2 lt row vs) rows).
  { apply List.Forall_forall. intros row Hrow.
    apply in_ndindex, Hin, Hrow. }
  exists mat, voxel, rows. repeat apply conj; try assumption; try reflexivity.
  - destruct (mat !! "voxel"); simpl in Hvoxel; congruence.
  - unfold nd_wf, index_rows. simpl. rewrite length_map.
    rewrite (length_concat_rows (length vs)); [lia|].
    eapply List.Forall_impl; [|exact Hbound].
    intros row Hrow. exact (Forall2_length _ _ _ Hrow).
Qed.

Lemma parse_voxel_file_rows_witness :
  exists rows,
    parse_voxel_file (host_with_mat (<["voxel" := hypercube]> ∅)) "grid.mat" =
      Ok (index_rows 4 rows, [1; 2; 1; 1]%nat) /\
    List.NoDup rows /\
    Forall (fun row => Forall2 lt row [1; 2; 1; 1]%nat) rows.
Proof.
  destruct (parse_voxel_file (host_with_mat (<["voxel" := hypercube]> ∅)) "grid.mat")
    as [[vi vs]|e] eqn:H; [|vm_compute in H; discriminate H].
  destruct (parse_voxel_file_rows _ _ vi vs H)
    as (mat & voxel & rows & Hmat & Hvoxel & _ & Hvs & Hvi & Hnodup & Hbound & _).
  assert (Hload : loadmat (host_with_mat (<["voxel" := hypercube]> ∅)) "grid.mat" =
                  Ok (<["voxel" := hypercube]> ∅)) by reflexivity.
  rewrite Hload in Hmat. injection Hmat as <-.
  apply (lookup_insert_Some (M := gmap string)) in Hvoxel
    as [[_ <-]|[Hne _]]; [|congruence].
  change (swap 0%nat (nd_shape hypercube) 1 2) with [1; 2; 1; 1]%nat in Hvs.
  subst vs vi. exists rows. repeat apply conj; [reflexivity|exact Hnodup|exact Hbound].
Defined.

(** ** The voxel decoder: the rotation loses no cell *)

Lemma filter_map_length {A B} (p : B -> bool) (g : A -> B) (l : list A) :
  length (List.filter (fun x => p (g x)) l) =
  length (List.filter p (List.map g l)).
Proof.
  induction l as [|x l IH]; [reflexivity|].
  simpl. destruct (p (g x)); simpl; rewrite IH; reflexivity.
Qed.

Lemma Permutation_filter_length {A} (p : A -> bool) (l k : list A) :
  Permutation l k -> length (List.filter p l) = length (List.filter p k).
Proof.
  induction 1 as [|x l k _ IH|x y l|l k m _ IH1 _ IH2]; simpl.
  - reflexivity.
  - destruct (p x); simpl; rewrite IH; reflexivity.
  - destruct (p x), (p y); reflexivity.
  - rewrite IH1. exact IH2.
Qed.

Lemma turned_indices (a b c : nat) :
  Permutation
    (List.map (fun idx => [nth 0 idx 0; b - 1 - nth 2 idx 0; nth 1 idx 0]%nat)
              (ndindex [a; c; b]))
    (ndindex [a; b; c]).
Proof.
  apply Permutation.NoDup_Permutation.
  - apply (List.NoDup_map_inv
             (fun idx => [nth 0 idx 0; nth 2 idx 0; b - 1 - nth 1 idx 0]%nat)).
    rewrite List.map_map.
    rewrite (List.map_ext_in _ (fun idx => idx)).
    + rewrite List.map_id. apply NoDup_ndindex.
    + intros idx Hidx. apply in_ndindex, below3 in Hidx
        as (i & j & k & -> & Hi & Hj & Hk).
      simpl. do 3 f_equal. lia.
  - apply NoDup_ndindex.
  - intros idx. rewrite in_map_iff, in_ndindex, below3. split.
    + intros (src & <- & Hsrc). apply in_ndindex, below3 in Hsrc
        as (i & j & k & -> & Hi & Hj & Hk).
      exists i, (b - 1 - k)%nat, j. simpl. repeat apply conj; try reflexivity; lia.
    + intros (i & j & k & -> & Hi & Hj & Hk).
      exists [i; k; (b - 1 - j)%nat]. split.
      * simpl. do 3 f_equal. lia.
      * apply in_ndindex, below3. exists i, k, (b - 1 - j)%nat.
        repeat apply conj; try reflexivity; lia.
Qed.

(** X17: the rotation loses no cell and invents none.  For a stored
    three-axis grid of numbers whose buffer matches its shape, the index
    array has exactly as many rows as the stored array has elements
    greater than zero, and the stored cell (x, y, z) is greater than zero
    exactly when (x, z, b-1-y) is one of the rows, b being the length of
    the stored second axis. *)
Theorem parse_voxel_file_count (h : host) (file : string)
    (mat : gmap string ndarray) (voxel : ndarray) (a b c : nat) :
  loadmat h file = Ok mat ->
  mat !! "voxel" = Some voxel ->
  nd_shape voxel = [a; b; c] ->
  nd_wf voxel ->
  numeric voxel ->
  exists rows,
    parse_voxel_file h file = Ok (index_rows 3 rows, [a; c; b]) /\
    length rows = length (List.filter positive_scalar (nd_data voxel)) /\
    forall x y z, (x < a)%nat -> (y < b)%nat -> (z < c)%nat ->
      (positive_scalar (item voxel [x; y; z]) = true <->
       In [x; z; (b - 1 - y)%nat] rows).
Proof.
  intros Hmat Hvoxel Hshape Hwf Hnum.
  eexists. split; [exact (parse_voxel_file_rank3 h file mat voxel a b c
                            Hmat Hvoxel Hshape Hnum)|].
  split.
  - rewrite (filter_map_length
               (fun idx => positive_scalar (item voxel idx))
               (fun idx => [nth 0 idx 0; b - 1 - nth 2 idx 0; nth 1 idx 0]%nat)).
    rewrite (Permutation_filter_length _ _ _ (turned_indices a b c)).
    rewrite (filter_map_length positive_scalar (item voxel)).
    rewrite <- Hshape, (data_by_index voxel Hwf). reflexivity.
  - intros x y z Hx Hy Hz. rewrite List.filter_In, in_ndindex, below3. simpl.
    replace (b - 1 - (b - 1 - y))%nat with y by lia. split.
    + intros Hpos. split; [|exact Hpos].
      exists x, z, (b - 1 - y)%nat. repeat apply conj; try reflexivity; lia.
    + intros [_ Hpos]. exact Hpos.
Qed.

Lemma parse_voxel_file_count_witness :
  exists rows,
    parse_voxel_file Sample.world "/pix3d/model/bed/voxel.mat" =
      Ok (index_rows 3 rows, [1; 2; 1]%nat) /\
    length rows =
      length (List.filter positive_scalar (nd_data Sample.voxel_grid)).
Proof.
  destruct (parse_voxel_file_count Sample.world "/pix3d/model/bed/voxel.mat"
              (<["voxel" := Sample.voxel_grid]> ∅) Sample.voxel_grid 1 1 2)
    as (rows & Hparse & Hcount & _).
  - reflexivity.
  - reflexivity.
  - reflexivity.
  - reflexivity.
  - unfold numeric. simpl. repeat constructor.
  - exists rows. split; assumption.
Defined.

(** ** The mask encoder *)

Lemma fold_left_max_spec (l : list Z) (z0 : Z) :
  z0 <= fold_left Z.max l z0 /\
  (forall x, In x l -> x <= fold_left Z.max l z0) /\
  (fold_left Z.max l z0 = z0 \/ In (fold_left Z.max l z0) l).
Proof.
  revert z0. induction l as [|y l IH]; intros z0; simpl.
  - repeat apply conj; [lia|intros x []|left; reflexivity].
  - destruct (IH (Z.max z0 y)) as (Hle & Hall & Hin). repeat apply conj.
    + lia.
    + intros x [<-|Hx]; [lia|exact (Hall x Hx)].
    + destruct Hin as [Heq|Hin]; [|right; right; exact Hin].
      rewrite Heq. destruct (Z.max_spec z0 y) as [[_ ->]|[_ ->]];
        [right; left; reflexivity|left; reflexivity].
Qed.

Lemma item_int (m : ndarray) (idx : list nat) :
  Forall (fun s => exists z, s = SInt z) (nd_data m) ->
  item m idx = SInt (int_value (item m idx)).
Proof.
  intros Hint. unfold item.
  destruct (nth_in_or_default (ravel (nd_shape m) idx) (nd_data m) (SInt 0))
    as [Hin| ->]; [|reflexivity].
  apply (proj1 (List.Forall_forall _ _) Hint) in Hin as [z ->]. reflexivity.
Qed.

Lemma reduce_maximum_int (m : ndarray) (axis n : nat) (idx : list nat) :
  Forall (fun s => exists z, s = SInt z) (nd_data m) ->
  reduce_maximum m axis n idx = Ok (SInt (channel_max m axis n idx)).
Proof.
  intros Hint. unfold reduce_maximum, channel_max.
  rewrite (item_int m (insert_axis axis 0 idx) Hint) at 1.
  generalize (int_value (item m (insert_axis axis 0 idx))) as z0.
  induction (seq 1 (n - 1)) as [|k l IH]; intros z0; [reflexivity|].
  simpl. rewrite (item_int m (insert_axis axis k idx) Hint). simpl.
  apply IH.
Qed.

Lemma amax_channels (m : ndarray) (hgt wid n : nat) :
  nd_shape m = [hgt; wid; n] -> (0 < n)%nat ->
  Forall (fun s => exists z, s = SInt z) (nd_data m) ->
  amax m 2 =
  Ok (tabulate (nd_dtype m) [hgt; wid] (fun idx => SInt (channel_max m 2 n idx))).
Proof.
  intros Hshape Hn Hint. unfold amax, ndim. rewrite Hshape. simpl.
  destruct n as [|n']; [lia|]. simpl.
  change (remove_axis 2 [hgt; wid; S n']) with [hgt; wid].
  rewrite (traverse_ok_map _ (fun idx => SInt (channel_max m 2 (S n') idx))).
  - reflexivity.
  - intros idx _. apply reduce_maximum_int, Hint.
Qed.

(** X18: for a mask that is no crowd, [coco_segmentation_to_mask_png]
    merges the decoded masks before encoding.  When [decode] gives integer
    masks stacked along a third axis of length n > 0, the PNG encoder is
    called on an array of the same element type with the first two axes
    only, whose pixel (i, j) is the largest of the n values at (i, j):
    no value there exceeds it and one of them equals it. *)
Theorem mask_merges_channels (lib : mask_lib)
    (segmentation height width is_crowd rle : pyval) (m : ndarray)
    (hgt wid n : nat) :
  frPyObjects lib segmentation height width = Ok rle ->
  decode lib rle = Ok m ->
  truth is_crowd = Ok false ->
  nd_shape m = [hgt; wid; n] -> (0 < n)%nat ->
  Forall (fun s => exists z, s = SInt z) (nd_data m) ->
  exists merged,
    coco_segmentation_to_mask_png lib segmentation height width is_crowd =
      encode_mask_as_png lib merged /\
    nd_dtype merged = nd_dtype m /\
    nd_shape merged = [hgt; wid] /\
    nd_wf merged /\
    forall i j, (i < hgt)%nat -> (j < wid)%nat ->
      exists z,
        item merged [i; j] = SInt z /\
        (forall k, (k < n)%nat ->
           exists x, item m [i; j; k] = SInt x /\ x <= z) /\
        (exists k, (k < n)%nat /\ item m [i; j; k] = SInt z).
Proof.
  intros Hrle Hdecode Hcrowd Hshape Hn Hint.
  eexists. split.
  { unfold coco_segmentation_to_mask_png.
    rewrite Hrle. simpl. rewrite Hdecode. simpl. rewrite Hcrowd. simpl.
    rewrite (amax_channels m hgt wid n Hshape Hn Hint). reflexivity. }
  repeat apply conj; try reflexivity.
  - unfold nd_wf, tabulate. cbn [nd_data nd_shape].
    rewrite length_map. apply length_ndindex.
  - intros i j Hi Hj. exists (channel_max m 2 n [i; j]). split.
    { apply item_tabulate. repeat constructor; assumption. }
    unfold channel_max.
    change (insert_axis 2 0 [i; j]) with [i; j; 0%nat].
    set (z0 := int_value (item m [i; j; 0%nat])).
    set (l := List.map _ (seq 1 (n - 1))).
    destruct (fold_left_max_spec l z0) as (Hle & Hall & Hin).
    assert (Hl : forall x, In x l <->
                   exists k, (1 <= k < n)%nat /\ x = int_value (item m [i; j; k])).
    { intros x. unfold l. rewrite in_map_iff. split.
      - intros (k & <- & Hk). apply in_seq in Hk. exists k. split; [lia|reflexivity].
      - intros (k & Hk & ->). exists k. split; [reflexivity|].
        apply in_seq. lia. }
    split.
    + intros k Hk. exists (int_value (item m [i; j; k])).
      split; [apply item_int, Hint|].
      destruct k as [|k']; [exact Hle|].
      apply Hall, Hl. exists (S k'). split; [lia|reflexivity].
    + destruct Hin as [->|Hin].
      * exists 0%nat. split; [exact Hn|]. apply item_int, Hint.
      * apply Hl in Hin as (k & Hk & ->). exists k. split; [lia|].
        apply item_int, Hint.
Qed.

Lemma mask_merges_channels_witness :
  exists merged,
    coco_segmentation_to_mask_png (mask_lib_for two_masks)
      (PyList []) (PyInt 2) (PyInt 2) (PyInt 0) =
      encode_mask_as_png (mask_lib_for two_masks) merged /\
    nd_shape merged = [2; 2]%nat /\
    exists z, item merged [0; 0]%nat = SInt z /\
              exists k, (k < 2)%nat /\ item two_masks [0; 0; k]%nat = SInt z.
Proof.
  destruct (mask_merges_channels (mask_lib_for two_masks)
              (PyList []) (PyInt 2) (PyInt 2) (PyInt 0) (PyList []) two_masks
              2 2 2)
    as (merged & Hcall & _ & Hshape & _ & Hpixel).
  - reflexivity.
  - reflexivity.
  - reflexivity.
  - reflexivity.
  - lia.
  - simpl. repeat constructor; eexists; reflexivity.
  - exists merged. repeat apply conj; [exact Hcall|exact Hshape|].
    destruct (Hpixel 0%nat 0%nat) as (z & Hz & _ & Hk); [lia|lia|].
    exists z. split; assumption.
Defined.

(** X19: the crowd flag and the channel axis.  A truthy [is_crowd] hands
    the decoded array to the PNG encoder as it is.  A falsy one needs a
    third axis of positive length: for a decoded array with fewer than
    three axes (what [decode] gives for a single encoding) or with no
    channel, the function raises ValueError and the encoder is not
    reached. *)
Theorem mask_needs_channel_axis (lib : mask_lib)
    (segmentation height width is_crowd rle : pyval) (m : ndarray) :
  frPyObjects lib segmentation height width = Ok rle ->
  decode lib rle = Ok m ->
  (truth is_crowd = Ok true ->
   coco_segmentation_to_mask_png lib segmentation height width is_crowd =
   encode_mask_as_png lib m) /\
  (truth is_crowd = Ok false ->
   (ndim m < 3)%nat \/ nth 2 (nd_shape m) 0%nat = 0%nat ->
   coco_segmentation_to_mask_png lib segmentation height width is_crowd =
   Err ValueError).
Proof.
  intros Hrle Hdecode. unfold coco_segmentation_to_mask_png.
  rewrite Hrle. simpl. rewrite Hdecode. simpl. split.
  - intros ->. reflexivity.
  - intros -> Hm. simpl. unfold amax.
    destruct (Nat.leb_spec (ndim m) 2) as [_|Hrank]; [reflexivity|].
    destruct Hm as [Hm|Hm]; [lia|].
    rewrite Hm. reflexivity.
Qed.

Lemma mask_needs_channel_axis_witness :
  coco_segmentation_to_mask_png (mask_lib_for one_mask)
    (PyList []) (PyInt 2) (PyInt 2) (PyInt 1) =
    encode_mask_as_png (mask_lib_for one_mask) one_mask /\
  coco_segmentation_to_mask_png (mask_lib_for one_mask)
    (PyList []) (PyInt 2) (PyInt 2) (PyInt 0) = Err ValueError.
Proof.
  split.
  - apply (proj1 (mask_needs_channel_axis (mask_lib_for one_mask)
                    (PyList []) (PyInt 2) (PyInt 2) (PyInt 1) (PyList [])
                    one_mask eq_refl eq_refl)).
    reflexivity.
  - apply (proj2 (mask_needs_channel_axis (mask_lib_for one_mask)
                    (PyList []) (PyInt 2) (PyInt 2) (PyInt 0) (PyList [])
                    one_mask eq_refl eq_refl)).
    + reflexivity.
    + left. unfold ndim. simpl. lia.
Defined.

(** ** The record assembler: the camera pose *)

(** X20: the two parts of the camera pose are stored differently.  A
    rotation given as rows of floats of one length becomes one serialized
    float32 tensor of shape (rows, length) under [camera/rot_mat], of
    whatever size; a translation given as a list of floats becomes a float
    (binary32) list under [camera/trans_mat]. *)
Theorem camera_pose (h : host) (image : gmap string pyval)
    (d : gmap string entry) (n : nat) (row : list float)
    (rows : list (list float)) (t : float) (ts : list float) :
  image !! "rot_mat" = Some (float_matrix (row :: rows)) ->
  rows_of_length n (row :: rows) ->
  image !! "trans_mat" = Some (PyList (List.map PyFloat (t :: ts))) ->
  assemble_feature_dict h image = Ok d ->
  d !! "camera/rot_mat" =
    Some (Feat (BytesList
                  [SerializedTensor
                     (mk_ndarray np_float32 [length (row :: rows); n]
                        (List.map SFloat
                           (List.map to_float32 (concat (row :: rows)))))])) /\
  d !! "camera/trans_mat" =
    Some (Feat (FloatList (List.map to_float32 (t :: ts)))).
Proof.
  intros Hrot Hrows Htrans Hd. open_trace Hd.
  assert (rot_mat = float_matrix (row :: rows)) as -> by congruence.
  assert (trans_mat = PyList (List.map PyFloat (t :: ts))) as -> by congruence.
  apply (convert_float_matrix_inv n row rows _ Hrows) in Frot.
  rewrite (convert_float_list t ts) in Ftrans.
  subst rot_feature. injection Ftrans as <-.
  subst d. split; find_entry.
Qed.

Lemma camera_pose_witness :
  exists d,
    assemble_feature_dict Sample.world
      (Sample.annotation (PyInt 3) (PyFloat 36) 2016 1512) = Ok d /\
    d !! "camera/rot_mat" =
      Some (Feat (BytesList
                    [SerializedTensor
                       (mk_ndarray np_float32 [3; 3]%nat
                          (List.map SFloat
                             (List.map to_float32
                                [1; 0; 0; 0; 1; 0; 0; 0; 1]%float)))])) /\
    d !! "camera/trans_mat" =
      Some (Feat (FloatList (List.map to_float32 [0; 0.5; 1]%float))).
Proof.
  destruct (is_ok_exists
              (assemble_feature_dict Sample.world
                 (Sample.annotation (PyInt 3) (PyFloat 36) 2016 1512)))
    as [d Hd]; [vm_compute; reflexivity|].
  exists d. split; [exact Hd|].
  apply (camera_pose Sample.world
           (Sample.annotation (PyInt 3) (PyFloat 36) 2016 1512) d 3
           [1; 0; 0]%float [[0; 1; 0]; [0; 0; 1]]%float 0%float [0.5; 1]%float).
  - vm_compute. reflexivity.
  - repeat constructor.
  - vm_compute. reflexivity.
  - exact Hd.
Defined.
